(** * Lucidic Python client: session facade, LangChain adapter, prompt resolution

    A shallow embedding of [lucidicai/__init__.py] (the module-level facade
    functions) and [lucidicai/providers/langchain.py] (the callback handler),
    with the properties their specification states about them.

    Python objects that are shared by reference (Step and Event objects, the
    callback lists of a host object) live in stores indexed by location;
    functions that print, raise or mutate run in a state-and-exception monad
    whose state survives a raise, as a Python heap does. *)

From Stdlib Require Import ZArith QArith String Ascii List Bool Lia DecimalString.
From stdpp Require Import base option list gmap strings fin_maps.

Local Open Scope string_scope.
Local Open Scope Z_scope.

(** ** Python primitives *)

Module Py.

(** Exceptions raised in the two modules (all are subclasses of [Exception]). *)
Inductive exn :=
  | APIKeyVerificationError (msg : string)
  | InvalidOperationError (msg : string)
  | LucidicNotInitializedError
  | PromptError (msg : string)
  | UnboundLocalError (var : string)
  | AttributeError (msg : string)
  | IndexError (msg : string)
  | TypeError (msg : string)
  | ValueError (msg : string).

(** [str(e)] as used in the f-strings of the handler. *)
Definition exn_str (e : exn) : string :=
  match e with
  | APIKeyVerificationError m => m
  | InvalidOperationError m => m
  | LucidicNotInitializedError => "Client is not initialized"
  | PromptError m => m
  | UnboundLocalError v =>
      "cannot access local variable '" ++ v ++ "' where it is not associated with a value"
  | AttributeError m => m
  | IndexError m => m
  | TypeError m => m
  | ValueError m => m
  end.

(** What [print] writes: a text line, or the traceback of an exception. *)
Inductive line :=
  | Line (s : string)
  | Traceback (e : exn).

Inductive outcome (A : Type) :=
  | Returned (a : A)
  | Raised (e : exn).
Arguments Returned {A} a.
Arguments Raised {A} e.

(** A computation over a mutable state [S]: the state is returned in both
    outcomes, since what was mutated before a raise stays mutated. *)
Definition M (S A : Type) : Type := S -> outcome A * S.

Definition ret {S A} (a : A) : M S A := fun s => (Returned a, s).

Definition bind {S A B} (m : M S A) (k : A -> M S B) : M S B :=
  fun s => match m s with
           | (Returned a, s') => k a s'
           | (Raised e, s') => (Raised e, s')
           end.

Definition raise {S A} (e : exn) : M S A := fun s => (Raised e, s).

(** [try: body except Exception as e: handler e]. *)
Definition try_except {S A} (body : M S A) (handler : exn -> M S A) : M S A :=
  fun s => match body s with
           | (Returned a, s') => (Returned a, s')
           | (Raised e, s') => handler e s'
           end.

Definition get {S} : M S S := fun s => (Returned s, s).
Definition gets {S A} (f : S -> A) : M S A := fun s => (Returned (f s), s).
Definition modify {S} (f : S -> S) : M S unit := fun s => (Returned tt, f s).

(** [for x in xs: body x]. *)
Fixpoint for_each {S A} (xs : list A) (body : A -> M S unit) : M S unit :=
  match xs with
  | [] => ret tt
  | x :: xs' => bind (body x) (fun _ => for_each xs' body)
  end.

Declare Scope py_scope.
Delimit Scope py_scope with py.
Notation "x <- c ;; k" := (bind c (fun x => k))
  (at level 100, c at next level, right associativity) : py_scope.
Notation "c ;;; k" := (bind c (fun _ => k))
  (at level 100, right associativity) : py_scope.

(** *** Strings: [str.find], [in], [str.replace], slicing from an index *)

(** [s.find(sub)]: index of the first occurrence, [-1] when there is none. *)
Fixpoint find_from (sub s : string) (i : Z) : Z :=
  if String.prefix sub s then i
  else match s with
       | EmptyString => -1
       | String _ s' => find_from sub s' (i + 1)
       end.

Definition find (s sub : string) : Z := find_from sub s 0.

(** [sub in s]. *)
Definition contains (s sub : string) : bool := negb (find s sub =? -1).

Fixpoint interleave (new s : string) : string :=
  match s with
  | EmptyString => new
  | String c s' => new ++ String c (interleave new s')
  end.

(** Scan for [s.replace(old, new)] with [old] non-empty: [skip] counts the
    characters of a match that are still to be dropped. *)
Fixpoint replace_skip (old new : string) (skip : nat) (s : string) : string :=
  match s with
  | EmptyString => EmptyString
  | String c s' =>
      match skip with
      | S k => replace_skip old new k s'
      | O =>
          if String.prefix old s
          then new ++ replace_skip old new (String.length old - 1) s'
          else String c (replace_skip old new 0 s')
      end
  end.

(** [s.replace(old, new)]: every non-overlapping occurrence, leftmost first. *)
Definition replace (s old new : string) : string :=
  match old with
  | EmptyString => interleave new s
  | _ => replace_skip old new 0 s
  end.

(** [s[i:]] for [0 <= i]. *)
Fixpoint drop_str (n : nat) (s : string) : string :=
  match n, s with
  | O, _ => s
  | S k, EmptyString => EmptyString
  | S k, String _ s' => drop_str k s'
  end.

(** A string holds the UTF-8 encoding of a Python [str]: a character is
    one byte that is not a continuation byte (10xxxxxx), followed by its
    continuation bytes. *)
Definition continuation (c : ascii) : bool :=
  match c with
  | Ascii _ _ _ _ _ _ false true => true
  | _ => false
  end.

(** [len(s)]: the number of characters. *)
Fixpoint char_length (s : string) : nat :=
  match s with
  | EmptyString => O
  | String c s' => if continuation c then char_length s' else S (char_length s')
  end.

(** [s[:n]]: the first [n] characters, each with all its bytes. *)
Fixpoint take_str (n : nat) (s : string) : string :=
  match s with
  | EmptyString => EmptyString
  | String c s' =>
      if continuation c then String c (take_str n s')
      else match n with
           | O => EmptyString
           | S k => String c (take_str k s')
           end
  end.

(** *** Lists: indexing with a possibly negative index *)

(** [l[i]]: a negative index counts from the end. *)
Definition getitem {S A} (l : list A) (i : Z) : M S A :=
  let n := Z.of_nat (length l) in
  let slot := if i <? 0
              then (if i <? - n then None else l !! Z.to_nat (n + i))
              else l !! Z.to_nat i in
  match slot with
  | Some x => ret x
  | None => raise (IndexError "list index out of range")
  end.

End Py.

Import Py.
Local Open Scope py_scope.

(** ** Data model

    The classes [Event], [Step], [Session] and [Client] are imported by the
    two modules and defined elsewhere in the package; they are modelled here
    from the specification, with the attributes and methods the two modules
    use. Objects that the code shares by reference are named by their
    location in a store of the world; the stores only grow, and a location
    is read with the total lookup, which gives a default object outside the
    store (the code never holds such a location). *)

Abbreviation loc := nat.

(** A description is a string (facade) or a list of strings (handler). *)
Inductive desc :=
  | DescStr (s : string)
  | DescList (l : list string).

(** Keyword arguments of the Event methods; [None] is an omitted argument. *)
Record event_kwargs := {
  kw_description : option desc;
  kw_result : option string;
  kw_cost_added : option Q;
  kw_model : option string;
  kw_screenshots : option (list string);
  kw_is_finished : option bool;
  kw_is_successful : option bool
}.

Definition no_event_kwargs : event_kwargs :=
  {| kw_description := None; kw_result := None; kw_cost_added := None;
     kw_model := None; kw_screenshots := None; kw_is_finished := None;
     kw_is_successful := None |}.

(** Modelled from the spec: the attributes of an [Event] (event.py is
    missing): description, result, cost delta, model, screenshots, finished
    flag and success flag. *)
Record Event := {
  ev_description : option desc;
  ev_result : option string;
  ev_cost_added : option Q;
  ev_model : option string;
  ev_screenshots : option (list string);
  ev_is_finished : bool;
  ev_is_successful : option bool
}.

(** Keyword arguments of the Step methods. *)
Record step_kwargs := {
  kw_state : option string;
  kw_action : option string;
  kw_goal : option string;
  kw_eval_score : option Q;
  kw_eval_description : option string;
  kw_screenshot : option string;
  kw_screenshot_path : option string;
  kw_step_is_finished : option bool
}.

(** Modelled from the spec: the attributes of a [Step] (step.py is
    missing), with its history of Events in insertion order. *)
Record Step := {
  st_state : option string;
  st_action : option string;
  st_goal : option string;
  st_eval_score : option Q;
  st_eval_description : option string;
  st_screenshot : option string;
  st_is_finished : bool;
  event_history : list loc
}.

(** Keyword arguments of the Session methods. *)
Record session_kwargs := {
  kw_task : option string;
  kw_session_eval : option Q;
  kw_session_eval_reason : option string;
  kw_session_is_successful : option bool;
  kw_is_successful_reason : option string;
  kw_session_is_finished : option bool
}.

(** Modelled from the spec: the attributes of a [Session] (session.py is
    missing), with its history of Steps and its active Step; a slot of the
    history can be empty. *)
Record Session := {
  session_name : string;
  se_task : option string;
  se_mass_sim_id : option string;
  se_rubrics : option (list string);
  se_tags : option (list string);
  se_eval : option Q;
  se_eval_reason : option string;
  se_is_successful : option bool;
  se_is_successful_reason : option string;
  se_is_finished : bool;
  step_history : list (option loc);
  active_step : option loc
}.

Inductive provider := OpenAIHandler | AnthropicHandler.

(** Modelled from the spec: a cached prompt (client.py is missing): text,
    creation time and time-to-live in seconds. *)
Record cache_entry := {
  ce_text : string;
  ce_created : Z;
  ce_ttl : Z
}.

(** Modelled from the spec: the state of the [Client] singleton (client.py
    is missing): credentials, the current Session, the provider handler and
    the prompt cache keyed by name and label. *)
Record Client := {
  lucidic_api_key : string;
  agent_id : string;
  session : option Session;
  cl_provider : option provider;
  prompt_cache : gmap (string * string) cache_entry
}.

(** Calls received by the telemetry backend. *)
Inductive request :=
  | InitSession (name : string)
  | UpdateSession (kw : session_kwargs)
  | InitStep (s : loc)
  | UpdateStep (s : loc) (kw : step_kwargs)
  | InitEvent (e : loc)
  | UpdateEvent (e : loc) (kw : event_kwargs)
  | GetPrompt (name label : string).

(** The process: the singleton client, the object stores, the environment
    variables, what was printed, what was sent to the backend, the prompt
    templates the backend serves, and the clock. *)
Record World := {
  client : option Client;
  steps : list Step;
  events : list Event;
  environ : gmap string string;
  stdout : list line;
  requests : list request;
  prompt_db : string -> string -> string;
  clock : Z
}.

Definition set_client (c : option Client) (w : World) : World :=
  {| client := c; steps := steps w; events := events w; environ := environ w;
     stdout := stdout w; requests := requests w; prompt_db := prompt_db w;
     clock := clock w |}.

Definition set_steps (ss : list Step) (w : World) : World :=
  {| client := client w; steps := ss; events := events w; environ := environ w;
     stdout := stdout w; requests := requests w; prompt_db := prompt_db w;
     clock := clock w |}.

Definition set_events (es : list Event) (w : World) : World :=
  {| client := client w; steps := steps w; events := es; environ := environ w;
     stdout := stdout w; requests := requests w; prompt_db := prompt_db w;
     clock := clock w |}.

Definition set_stdout (out : list line) (w : World) : World :=
  {| client := client w; steps := steps w; events := events w; environ := environ w;
     stdout := out; requests := requests w; prompt_db := prompt_db w;
     clock := clock w |}.

Definition set_requests (rs : list request) (w : World) : World :=
  {| client := client w; steps := steps w; events := events w; environ := environ w;
     stdout := stdout w; requests := rs; prompt_db := prompt_db w;
     clock := clock w |}.

Definition set_session (s : option Session) (c : Client) : Client :=
  {| lucidic_api_key := lucidic_api_key c; agent_id := agent_id c; session := s;
     cl_provider := cl_provider c; prompt_cache := prompt_cache c |}.

Definition set_cl_provider (p : option provider) (c : Client) : Client :=
  {| lucidic_api_key := lucidic_api_key c; agent_id := agent_id c; session := session c;
     cl_provider := p; prompt_cache := prompt_cache c |}.

Definition set_prompt_cache (pc : gmap (string * string) cache_entry) (c : Client) : Client :=
  {| lucidic_api_key := lucidic_api_key c; agent_id := agent_id c; session := session c;
     cl_provider := cl_provider c; prompt_cache := pc |}.

(** [print(s)]. *)
Definition print (s : string) : M World unit :=
  modify (fun w => set_stdout (stdout w ++ [Line s]) w).

(** [print(traceback.format_exc())] inside the handler of [e]. *)
Definition print_traceback (e : exn) : M World unit :=
  modify (fun w => set_stdout (stdout w ++ [Traceback e]) w).

Definition send (r : request) : M World unit :=
  modify (fun w => set_requests (requests w ++ [r]) w).

(** [os.getenv(name, None)]. *)
Definition getenv (name : string) : M World (option string) :=
  gets (fun w => environ w !! name).

(** [x if x is not None else old]: how a partial update treats a field. *)
Definition upd {A} (new : option A) (old : option A) : option A :=
  match new with
  | Some _ => new
  | None => old
  end.

#[global] Instance Event_inhabited : Inhabited Event :=
  populate {| ev_description := None; ev_result := None; ev_cost_added := None;
              ev_model := None; ev_screenshots := None; ev_is_finished := false;
              ev_is_successful := None |}.

#[global] Instance Step_inhabited : Inhabited Step :=
  populate {| st_state := None; st_action := None; st_goal := None;
              st_eval_score := None; st_eval_description := None;
              st_screenshot := None; st_is_finished := false;
              event_history := [] |}.

(** *** class Event *)

Module Event.

(** Modelled from the spec: the constructor of [Event] (event.py is not part
    of the two modules). A new Event takes its attributes from the arguments
    of [createEvent] and is unfinished unless told otherwise. *)
Definition init (kw : event_kwargs) : Event :=
  {| ev_description := kw_description kw;
     ev_result := kw_result kw;
     ev_cost_added := kw_cost_added kw;
     ev_model := kw_model kw;
     ev_screenshots := kw_screenshots kw;
     ev_is_finished := default false (kw_is_finished kw);
     ev_is_successful := kw_is_successful kw |}.

(** The attributes after a partial update: omitted fields are unchanged. *)
Definition updated (kw : event_kwargs) (e : Event) : Event :=
  {| ev_description := upd (kw_description kw) (ev_description e);
     ev_result := upd (kw_result kw) (ev_result e);
     ev_cost_added := upd (kw_cost_added kw) (ev_cost_added e);
     ev_model := upd (kw_model kw) (ev_model e);
     ev_screenshots := upd (kw_screenshots kw) (ev_screenshots e);
     ev_is_finished := default (ev_is_finished e) (kw_is_finished kw);
     ev_is_successful := upd (kw_is_successful kw) (ev_is_successful e) |}.

(** Modelled from the spec: [Event.update_event] (event.py is
    missing): a partial update of the Event object, pushed to the backend. *)
Definition update_event (self : loc) (kw : event_kwargs) : M World unit :=
  modify (fun w => set_events (<[self := updated kw (events w !!! self)]> (events w)) w) ;;;
  send (UpdateEvent self kw).

End Event.

(** *** class Step *)

Module Step.

(** Modelled from the spec: the constructor of [Step] (step.py is missing):
    a new Step has no Event and is unfinished unless told otherwise. *)
Definition init (kw : step_kwargs) : Step :=
  {| st_state := kw_state kw;
     st_action := kw_action kw;
     st_goal := kw_goal kw;
     st_eval_score := kw_eval_score kw;
     st_eval_description := kw_eval_description kw;
     st_screenshot := kw_screenshot kw;
     st_is_finished := default false (kw_step_is_finished kw);
     event_history := [] |}.

Definition updated (kw : step_kwargs) (s : Step) : Step :=
  {| st_state := upd (kw_state kw) (st_state s);
     st_action := upd (kw_action kw) (st_action s);
     st_goal := upd (kw_goal kw) (st_goal s);
     st_eval_score := upd (kw_eval_score kw) (st_eval_score s);
     st_eval_description := upd (kw_eval_description kw) (st_eval_description s);
     st_screenshot := upd (kw_screenshot kw) (st_screenshot s);
     st_is_finished := default (st_is_finished s) (kw_step_is_finished kw);
     event_history := event_history s |}.

Definition add_event (e : loc) (s : Step) : Step :=
  {| st_state := st_state s; st_action := st_action s; st_goal := st_goal s;
     st_eval_score := st_eval_score s;
     st_eval_description := st_eval_description s;
     st_screenshot := st_screenshot s; st_is_finished := st_is_finished s;
     event_history := event_history s ++ [e] |}.

(** Modelled from the spec: [Step.update_step] (step.py is
    missing): a partial update of the Step object, pushed to the backend. *)
Definition update_step (self : loc) (kw : step_kwargs) : M World unit :=
  modify (fun w => set_steps (<[self := updated kw (steps w !!! self)]> (steps w)) w) ;;;
  send (UpdateStep self kw).

(** Modelled from the spec: [Step.create_event] (step.py is
    missing): fails with InvalidOperation if the owning Step is finished,
    otherwise appends a new Event to the Step's history and returns it. *)
Definition create_event (self : loc) (kw : event_kwargs) : M World loc :=
  st <- gets (fun w => steps w !!! self) ;;
  if st_is_finished st
  then raise (InvalidOperationError "Cannot create event in a finished step")
  else
    e <- gets (fun w => length (events w)) ;;
    modify (fun w => set_events (events w ++ [Event.init kw]) w) ;;;
    modify (fun w => set_steps (<[self := add_event e (steps w !!! self)]> (steps w)) w) ;;;
    send (InitEvent e) ;;;
    ret e.

End Step.

(** *** class Session *)

Module Session.

(** Modelled from the spec: the constructor of [Session] (session.py is
    missing): a new Session is unfinished, without Steps. *)
Definition init (name : string) (task mass_sim_id : option string)
    (rubrics tags : option (list string)) : Session :=
  {| session_name := name; se_task := task; se_mass_sim_id := mass_sim_id;
     se_rubrics := rubrics; se_tags := tags; se_eval := None;
     se_eval_reason := None; se_is_successful := None;
     se_is_successful_reason := None; se_is_finished := false;
     step_history := []; active_step := None |}.

Definition updated (kw : session_kwargs) (s : Session) : Session :=
  {| session_name := session_name s;
     se_task := upd (kw_task kw) (se_task s);
     se_mass_sim_id := se_mass_sim_id s;
     se_rubrics := se_rubrics s;
     se_tags := se_tags s;
     se_eval := upd (kw_session_eval kw) (se_eval s);
     se_eval_reason := upd (kw_session_eval_reason kw) (se_eval_reason s);
     se_is_successful := upd (kw_session_is_successful kw) (se_is_successful s);
     se_is_successful_reason := upd (kw_is_successful_reason kw) (se_is_successful_reason s);
     se_is_finished := default (se_is_finished s) (kw_session_is_finished kw);
     step_history := step_history s;
     active_step := active_step s |}.

Definition set_active_step (a : option loc) (s : Session) : Session :=
  {| session_name := session_name s; se_task := se_task s;
     se_mass_sim_id := se_mass_sim_id s; se_rubrics := se_rubrics s;
     se_tags := se_tags s; se_eval := se_eval s;
     se_eval_reason := se_eval_reason s;
     se_is_successful := se_is_successful s;
     se_is_successful_reason := se_is_successful_reason s;
     se_is_finished := se_is_finished s;
     step_history := step_history s; active_step := a |}.

Definition push_step (l : loc) (s : Session) : Session :=
  {| session_name := session_name s; se_task := se_task s;
     se_mass_sim_id := se_mass_sim_id s; se_rubrics := se_rubrics s;
     se_tags := se_tags s; se_eval := se_eval s;
     se_eval_reason := se_eval_reason s;
     se_is_successful := se_is_successful s;
     se_is_successful_reason := se_is_successful_reason s;
     se_is_finished := se_is_finished s;
     step_history := step_history s ++ [Some l]; active_step := Some l |}.

(** The Session object is held by the client only: a mutation of it is a
    mutation of [client.session]. *)
Definition mutate (f : Session -> Session) : M World unit :=
  modify (fun w =>
    set_client ((fun c => set_session (f <$> session c) c) <$> client w) w).

(** Modelled from the spec: [Session.update_session] (session.py is
    missing): a partial update of the mutable attributes, pushed to the
    backend. *)
Definition update_session (kw : session_kwargs) : M World unit :=
  mutate (updated kw) ;;;
  send (UpdateSession kw).

(** Modelled from the spec: [Session.end_session] (session.py is missing):
    the final update, called by the facade with [is_finished=True]. *)
Definition end_session (kw : session_kwargs) : M World unit :=
  mutate (updated kw) ;;;
  send (UpdateSession kw).

(** Modelled from the spec: [Session.create_step] (session.py is missing):
    fails with InvalidOperation while the current Step is unfinished,
    otherwise appends a new active Step. *)
Definition create_step (self : Session) (kw : step_kwargs) : M World loc :=
  match active_step self with
  | Some _ =>
      raise (InvalidOperationError "Previous step must be finished to create a new step")
  | None =>
      l <- gets (fun w => length (steps w)) ;;
      modify (fun w => set_steps (steps w ++ [Step.init kw]) w) ;;;
      mutate (push_step l) ;;;
      send (InitStep l) ;;;
      ret l
  end.

(** Modelled from the spec: [Session.update_step] (session.py is missing):
    operates on the current active Step, fails with InvalidOperation if there
    is none; ending the Step leaves the Session without an active Step. *)
Definition update_step (self : Session) (kw : step_kwargs) : M World unit :=
  match active_step self with
  | None => raise (InvalidOperationError "No active step")
  | Some l =>
      Step.update_step l kw ;;;
      match kw_step_is_finished kw with
      | Some true => mutate (set_active_step None)
      | _ => ret tt
      end
  end.

End Session.

(** *** class Client (process-wide singleton) *)

Module Client.

(** Modelled from the spec: [Client()] without arguments (client.py is
    missing). It returns the singleton, and raises [NotInitialized] when the
    facade is used before any [init]; [init] and [cleanup] in
    [__init__.py] catch exactly that exception around this call. *)
Definition call : M World Client :=
  w <- get ;;
  match client w with
  | Some c => ret c
  | None => raise LucidicNotInitializedError
  end.

(** Modelled from the spec: [Client(lucidic_api_key=..., agent_id=...)]
    (client.py is missing): creates the singleton, without a Session. The
    verification of the credentials by the backend, and its failure, are
    not modelled. *)
Definition new (key agent : string) : M World Client :=
  let c := {| lucidic_api_key := key; agent_id := agent; session := None;
              cl_provider := None; prompt_cache := ∅ |} in
  modify (set_client (Some c)) ;;;
  ret c.

Definition mutate (f : Client -> Client) : M World unit :=
  modify (fun w => set_client (f <$> client w) w).

(** Modelled from the spec: [Client.set_provider] (client.py is missing). *)
Definition set_provider (p : provider) : M World unit :=
  mutate (set_cl_provider (Some p)).

(** Modelled from the spec: [Client.init_session] (client.py is missing):
    creates the Session through the backend and makes it the facade's
    current Session. *)
Definition init_session (name : string) (mass_sim_id task : option string)
    (rubrics tags : option (list string)) : M World unit :=
  send (InitSession name) ;;;
  mutate (set_session (Some (Session.init name task mass_sim_id rubrics tags))).

(** Modelled from the spec: [Client.clear_session] (client.py is missing):
    detaches the Session from the facade. *)
Definition clear_session : M World unit :=
  mutate (set_session None).

(** Modelled from the spec: a cache entry is valid iff its TTL is negative
    or it is younger than its TTL (client.py is missing). *)
Definition entry_valid (now : Z) (e : cache_entry) : bool :=
  (ce_ttl e <? 0) || (now - ce_created e <? ce_ttl e).

(** Modelled from the spec: [Client.get_prompt(name, ttl, label)] (client.py
    is missing): a valid cached entry is returned; on miss or expiry the
    template is fetched from the backend and stored with the current time
    and the given TTL; a TTL of 0 disables caching. *)
Definition get_prompt (name : string) (cache_ttl : Z) (label : string)
    : M World string :=
  c <- call ;;
  now <- gets clock ;;
  let fetch : M World string :=
    send (GetPrompt name label) ;;;
    text <- gets (fun w => prompt_db w name label) ;;
    (if cache_ttl =? 0 then ret tt
     else mutate (fun c =>
            set_prompt_cache
              (<[(name, label) :=
                   {| ce_text := text; ce_created := now; ce_ttl := cache_ttl |}]>
                 (prompt_cache c)) c)) ;;;
    ret text in
  if cache_ttl =? 0 then fetch
  else match prompt_cache c !! (name, label) with
       | Some e => if entry_valid now e then ret (ce_text e) else fetch
       | None => fetch
       end.

(** Modelled from the spec: [Client.init_mass_sim] (client.py is missing):
    the backend creates a mass-simulation group and answers with its
    identifier; [answer] is that identifier. *)
Definition init_mass_sim (answer mass_sim_name : string) (total_num_sims : Z)
    (task : option string) (tags : option (list string)) : M World string :=
  ret answer.

End Client.

(** ** lucidicai/__init__.py: the facade functions *)

Module lucidicai.

(** [except LucidicNotInitializedError:] catches that exception only. *)
Definition except_not_initialized {A} (body recover : M World A) : M World A :=
  try_except body (fun e =>
    match e with
    | LucidicNotInitializedError => recover
    | _ => raise e
    end).

Definition init (session_name : string)
    (lucidic_api_key agent_id task provider mass_sim_id : option string)
    (rubrics tags : option (list string)) : M World unit :=
  lucidic_api_key <-
    match lucidic_api_key with
    | Some k => ret k
    | None =>
        k <- getenv "LUCIDIC_API_KEY" ;;
        match k with
        | Some k => ret k
        | None => raise (APIKeyVerificationError
            "Make sure to either pass your API key into lai.init() or set the LUCIDIC_API_KEY environment variable.")
        end
    end ;;
  agent_id <-
    match agent_id with
    | Some a => ret a
    | None =>
        a <- getenv "LUCIDIC_AGENT_ID" ;;
        match a with
        | Some a => ret a
        | None => raise (APIKeyVerificationError
            "Lucidic agent ID not specified. Make sure to either pass your agent ID into lai.init() or set the LUCIDIC_AGENT_ID environment variable.")
        end
    end ;;
  except_not_initialized
    (client <- Client.call ;;
     match session client with
     | Some _ => raise (InvalidOperationError
         "[Lucidic] Session already in progress. Please call lai.reset() first.")
     | None => ret tt
     end)
    (Client.new lucidic_api_key agent_id ;;; ret tt) ;;;
  (if bool_decide (provider = Some "openai")
   then Client.set_provider OpenAIHandler
   else if bool_decide (provider = Some "anthropic")
   then Client.set_provider AnthropicHandler
   else if bool_decide (provider = Some "langchain")
   then print "[Lucidic] For LangChain, make sure to create a handler and attach it to your top-level Agent class."
   else ret tt) ;;;
  Client.init_session session_name mass_sim_id task rubrics tags ;;;
  print "[Lucidic] Session initialized successfully".

(** The keyword arguments that [**locals()] passes on. *)
Definition session_locals (task : option string) (session_eval : option Q)
    (session_eval_reason : option string) (is_successful : option bool)
    (is_successful_reason : option string) (is_finished : option bool)
    : session_kwargs :=
  {| kw_task := task; kw_session_eval := session_eval;
     kw_session_eval_reason := session_eval_reason;
     kw_session_is_successful := is_successful;
     kw_is_successful_reason := is_successful_reason;
     kw_session_is_finished := is_finished |}.

Definition update_session (task : option string) (session_eval : option Q)
    (session_eval_reason : option string) (is_successful : option bool)
    (is_successful_reason : option string) : M World unit :=
  client <- Client.call ;;
  match session client with
  | None =>
      print "[Lucidic] Warning: update_session called when session not initialized. Please call lai.init() first."
  | Some _ =>
      Session.update_session
        (session_locals task session_eval session_eval_reason is_successful
           is_successful_reason None)
  end.

Definition end_session (session_eval : option Q)
    (session_eval_reason : option string) (is_successful : option bool)
    (is_successful_reason : option string) : M World unit :=
  client <- Client.call ;;
  match session client with
  | None =>
      print "[Lucidic] Warning: end_session called when session not initialized. Please call lai.init() first."
  | Some _ =>
      Session.end_session
        (session_locals None session_eval session_eval_reason is_successful
           is_successful_reason (Some true)) ;;;
      Client.clear_session
  end.

Definition step_locals (state action goal : option string)
    (eval_score : option Q) (eval_description screenshot screenshot_path : option string)
    (is_finished : option bool) : step_kwargs :=
  {| kw_state := state; kw_action := action; kw_goal := goal;
     kw_eval_score := eval_score; kw_eval_description := eval_description;
     kw_screenshot := screenshot; kw_screenshot_path := screenshot_path;
     kw_step_is_finished := is_finished |}.

Definition create_step (state action goal : option string)
    (eval_score : option Q) (eval_description screenshot screenshot_path : option string)
    : M World unit :=
  client <- Client.call ;;
  match session client with
  | None =>
      print "[Lucidic] Warning: create_step called when session not initialized. Please call lai.init() first."
  | Some s =>
      Session.create_step s
        (step_locals state action goal eval_score eval_description screenshot
           screenshot_path None) ;;;
      ret tt
  end.

Definition update_step (state action goal : option string)
    (eval_score : option Q) (eval_description screenshot screenshot_path : option string)
    : M World unit :=
  client <- Client.call ;;
  match session client with
  | None =>
      print "[Lucidic] Warning: update_step called when session not initialized. Please call lai.init() first."
  | Some s =>
      match active_step s with
      | None => raise (InvalidOperationError "No active step to update")
      | Some _ =>
          Session.update_step s
            (step_locals state action goal eval_score eval_description
               screenshot screenshot_path None)
      end
  end.

Definition update_previous_step (index : Z) (state action goal : option string)
    (eval_score : option Q) (eval_description screenshot screenshot_path : option string)
    : M World unit :=
  client <- Client.call ;;
  match session client with
  | None =>
      print "[Lucidic] Warning: update_previous_step called when session not initialized. Please call lai.init() first."
  | Some s =>
      if index >=? 0
      then raise (InvalidOperationError
        "Index must be negative, -1 is the latest step, -2 is the second latest, etc.")
      else if index <? - Z.of_nat (length (step_history s))
      then raise (InvalidOperationError "Index out of bounds")
      else
        slot <- getitem (step_history s) index ;;
        match slot with
        | None =>
            print "[Lucidic] Warning: update_previous_step called on an empty step. Please check your index."
        | Some l =>
            Step.update_step l
              (step_locals state action goal eval_score eval_description
                 screenshot screenshot_path None)
        end
  end.

Definition end_step (state action goal : option string)
    (eval_score : option Q) (eval_description screenshot screenshot_path : option string)
    : M World unit :=
  client <- Client.call ;;
  match session client with
  | None =>
      print "[Lucidic] Warning: end_step called when session not initialized. Please call lai.init() first."
  | Some s =>
      match active_step s with
      | None => raise (InvalidOperationError "No active step to end")
      | Some _ =>
          Session.update_step s
            (step_locals state action goal eval_score eval_description
               screenshot screenshot_path (Some true))
      end
  end.

Definition event_locals (description result : option string)
    (cost_added : option Q) (model : option string)
    (screenshots : option (list string)) (is_finished : option bool)
    : event_kwargs :=
  {| kw_description := DescStr <$> description; kw_result := result;
     kw_cost_added := cost_added; kw_model := model;
     kw_screenshots := screenshots; kw_is_finished := is_finished;
     kw_is_successful := None |}.

Definition create_event (description result : option string)
    (cost_added : option Q) (model : option string)
    (screenshots : option (list string)) : M World unit :=
  client <- Client.call ;;
  match session client with
  | None =>
      print "[Lucidic] Warning: create_event called when session not initialized. Please call lai.init() first."
  | Some s =>
      match active_step s with
      | None => raise (InvalidOperationError "No active step to create event in")
      | Some l =>
          Step.create_event l
            (event_locals description result cost_added model screenshots None) ;;;
          ret tt
      end
  end.

Definition update_event (description result : option string)
    (cost_added : option Q) (model : option string)
    (screenshots : option (list string)) : M World unit :=
  client <- Client.call ;;
  match session client with
  | None =>
      print "[Lucidic] Warning: update_event called when session not initialized. Please call lai.init() first."
  | Some s =>
      match active_step s with
      | None => raise (InvalidOperationError "No active step to update event in")
      | Some l =>
          history <- gets (fun w => event_history (steps w !!! l)) ;;
          match history with
          | [] => raise (InvalidOperationError "No events exist in the current step")
          | _ =>
              e <- getitem history (-1) ;;
              Event.update_event e
                (event_locals description result cost_added model screenshots None)
          end
      end
  end.

Definition update_previous_event (index : Z) (description result : option string)
    (cost_added : option Q) (model : option string)
    (screenshots : option (list string)) : M World unit :=
  client <- Client.call ;;
  match session client with
  | None =>
      print "[Lucidic] Warning: update_previous_event called when session not initialized. Please call lai.init() first."
  | Some s =>
      match active_step s with
      | None =>
          raise (InvalidOperationError "No active step to update previous event in")
      | Some l =>
          history <- gets (fun w => event_history (steps w !!! l)) ;;
          match history with
          | [] => raise (InvalidOperationError "No events exist in the current step")
          | _ =>
              if index >=? 0
              then raise (InvalidOperationError
                "Index must be negative, -1 is the latest event, -2 is the second latest, etc.")
              else if index <? - Z.of_nat (length history)
              then raise (InvalidOperationError "Index out of bounds")
              else
                e <- getitem history index ;;
                Event.update_event e
                  (event_locals description result cost_added model screenshots None)
          end
      end
  end.

Definition end_event (description result : option string)
    (cost_added : option Q) (model : option string)
    (screenshots : option (list string)) : M World unit :=
  client <- Client.call ;;
  match session client with
  | None =>
      print "[Lucidic] Warning: end_event called when session not initialized. Please call lai.init() first."
  | Some s =>
      match active_step s with
      | None => raise (InvalidOperationError "No active step to end event in")
      | Some l =>
          history <- gets (fun w => event_history (steps w !!! l)) ;;
          match history with
          | [] => raise (InvalidOperationError "No events exist in the current step")
          | _ =>
              latest_event <- getitem history (-1) ;;
              finished <- gets (fun w => ev_is_finished (events w !!! latest_event)) ;;
              if finished
              then raise (InvalidOperationError "Latest event is already finished")
              else
                Event.update_event latest_event
                  (event_locals description result cost_added model screenshots
                     (Some true))
          end
      end
  end.

(** The token of a variable: the key between doubled braces. *)
Definition token (key : string) : string := "{{" ++ key ++ "}}".

(** The loop of [get_prompt] over [variables.items()]; the values are
    given as the strings [str(val)]. *)
Fixpoint substitute (items : list (string * string)) (prompt : string)
    : M World string :=
  match items with
  | [] => ret prompt
  | (key, val) :: rest =>
      let index := find prompt (token key) in
      if index =? -1
      then raise (PromptError "Supplied variable not found in prompt")
      else substitute rest (replace prompt (token key) val)
  end.

(** [variables] is a dict in insertion order, or [None]. *)
Definition get_prompt (prompt_name : string)
    (variables : option (list (string * string))) (cache_ttl : Z)
    (label : string) : M World string :=
  client <- Client.call ;;
  match session client with
  | None =>
      print "[Lucidic] Warning: get_prompt called when session not initialized, and will return an empty string. Please call lai.init() first." ;;;
      ret ""
  | Some _ =>
      prompt <- Client.get_prompt prompt_name cache_ttl label ;;
      prompt <-
        match variables with
        | Some ((_ :: _) as items) => substitute items prompt
        | _ => ret prompt
        end ;;
      (if contains prompt "{{" && contains prompt "}}"
          && (find prompt "{{" <? find prompt "}}")
       then print "[Lucidic] Warning: Unreplaced variable(s) left in prompt. Please check your prompt."
       else ret tt) ;;;
      ret prompt
  end.

(** [answer] is the identifier the backend gives to the new group. *)
Definition create_mass_sim (answer mass_sim_name : string)
    (total_num_sessions : Z) (lucidic_api_key agent_id task : option string)
    (tags : option (list string)) : M World string :=
  lucidic_api_key <-
    match lucidic_api_key with
    | Some k => ret k
    | None =>
        k <- getenv "LUCIDIC_API_KEY" ;;
        match k with
        | Some k => ret k
        | None => raise (APIKeyVerificationError
            "Make sure to either pass your API key into lai.init() or set the LUCIDIC_API_KEY environment variable.")
        end
    end ;;
  agent_id <-
    match agent_id with
    | Some a => ret a
    | None =>
        a <- getenv "LUCIDIC_AGENT_ID" ;;
        match a with
        | Some a => ret a
        | None => raise (APIKeyVerificationError
            "Lucidic agent ID not specified. Make sure to either pass your agent ID into lai.init() or set the LUCIDIC_AGENT_ID environment variable.")
        end
    end ;;
  except_not_initialized
    (Client.call ;;; ret tt)
    (Client.new lucidic_api_key agent_id ;;; ret tt) ;;;
  mass_sim_id <-
    Client.init_mass_sim answer mass_sim_name total_num_sessions task tags ;;
  print ("[Lucidic] Created mass simulation with ID: " ++ mass_sim_id) ;;;
  ret mass_sim_id.

(** What [signal.getsignal] reports for SIGINT: the default, ignore, a
    Python callable, or [None] for a handler that was not installed from
    Python. *)
Inductive sigint_handler :=
  | SIG_DFL
  | SIG_IGN
  | Handler_function (id : nat)
  | Handler_none.

(** The process with its SIGINT disposition, and whether the caller runs in
    the main thread of the main interpreter, for the exit handler. *)
Record Process := {
  process : World;
  sigint : sigint_handler;
  main_thread : bool
}.

Definition in_process {A} (m : M World A) : M Process A :=
  fun p => match m (process p) with
           | (r, w') =>
               (r, {| process := w'; sigint := sigint p;
                      main_thread := main_thread p |})
           end.

(** [signal.signal(signal.SIGINT, handler)]: installs [handler] and returns
    the previous one. It raises ValueError outside the main thread, and
    TypeError for a [handler] that is [None]. *)
Definition signal_sigint (handler : sigint_handler) : M Process sigint_handler :=
  fun p =>
    if negb (main_thread p)
    then (Raised (ValueError "signal only works in main thread of the main interpreter"), p)
    else match handler with
         | Handler_none =>
             (Raised (TypeError "signal handler must be signal.SIG_IGN, signal.SIG_DFL, or a callable object"), p)
         | _ =>
             (Returned (sigint p),
              {| process := process p; sigint := handler;
                 main_thread := main_thread p |})
         end.

(** [try: body finally: final]. *)
Definition try_finally {S A} (body : M S A) (final : M S unit) : M S A :=
  fun s => match body s with
           | (r, s') =>
               match final s' with
               | (Returned _, s'') => (r, s'')
               | (Raised e, s'') => (Raised e, s'')
               end
           end.

(** The function registered with [atexit]. *)
Definition cleanup : M Process unit :=
  original_handler <- signal_sigint SIG_IGN ;;
  try_finally
    (in_process (print "[Lucidic] Cleanup: This should only take a few seconds...") ;;;
     in_process
       (except_not_initialized
          (client <- Client.call ;;
           match session client with
           | Some _ => end_session None None None None
           | None => ret tt
           end)
          (ret tt)))
    (signal_sigint original_handler ;;; ret tt).

End lucidicai.

(** ** lucidicai/providers/langchain.py: the callback handler *)

(** *** Payloads of the provider framework *)

(** An element of [prompts]: a string, a dict, or anything else. *)
Inductive prompt :=
  | PromptStr (s : string)
  | PromptDict (d : gmap string string)
  | PromptOther.

(** The value under the key ["image_url"] of a content block: a dict (which
    has [.get]) or a plain URL string (which has not). *)
Inductive image_ref :=
  | ImageDict (d : gmap string string)
  | ImageStr (s : string).

(** A dict block of a message content, by the three keys the handler reads. *)
Record block_dict := {
  b_type : option string;
  b_text : option string;
  b_image_url : option image_ref
}.

Inductive block :=
  | BlockDict (d : block_dict)
  | BlockOther.

Inductive content :=
  | ContentStr (s : string)
  | ContentList (l : list block).

Record BaseMessage := { msg_content : content }.

Record usage := {
  input_tokens : Z;
  output_tokens : Z;
  total_tokens : Z
}.

Record AIMessage := {
  usage_metadata : option usage;
  pretty_repr : string
}.

(** [LLMResult.generations] holds [Generation] objects (text completion,
    no [message] attribute) or [ChatGeneration] objects. *)
Inductive generation :=
  | Generation (text : string)
  | ChatGeneration (message : AIMessage).

Record LLMResult := { generations : list (list generation) }.

(** The keyword arguments a callback receives besides the named ones. *)
Record callback_kwargs := {
  invocation_params : option (gmap string string);
  kw_run_id : option string
}.

(** *** The handler object *)

Record Handler := {
  run_to_model : gmap string string;
  run_to_event : gmap string loc
}.

(** A method of the handler runs on the handler object and the process. *)
Record Env := {
  world : World;
  self : Handler
}.

Module LucidicLangchainHandler.

Definition lift {A} (m : M World A) : M Env A :=
  fun s => match m (world s) with
           | (r, w') => (r, {| world := w'; self := self s |})
           end.

Definition modify_self (f : Handler -> Handler) : M Env unit :=
  modify (fun s => {| world := world s; self := f (self s) |}).

Definition set_run_to_model (m : gmap string string) (h : Handler) : Handler :=
  {| run_to_model := m; run_to_event := run_to_event h |}.

Definition set_run_to_event (m : gmap string loc) (h : Handler) : Handler :=
  {| run_to_model := run_to_model h; run_to_event := m |}.

(** [__init__]. *)
Definition init : M World Handler :=
  print "[Lucidic] Initialized LucidicLangchainHandler" ;;;
  ret {| run_to_model := ∅; run_to_event := ∅ |}.

Definition _get_model_name (serialized : option (gmap string string))
    (kwargs : callback_kwargs) : string :=
  match invocation_params kwargs ≫= (.!! "model") with
  | Some m => m
  | None =>
      match serialized ≫= (.!! "model_name") with
      | Some m => m
      | None =>
          match serialized ≫= (.!! "name") with
          | Some m => m
          | None => "unknown_model"
          end
      end
  end.

(** [Client().session and Client().session.active_step]. *)
Definition session_and_active_step : M Env (option loc) :=
  c <- lift Client.call ;;
  match session c with
  | None => ret None
  | Some _ =>
      c' <- lift Client.call ;;
      ret (session c' ≫= active_step)
  end.

(** [Client().session.active_step], dereferenced. *)
Definition the_active_step : M Env loc :=
  c <- lift Client.call ;;
  match session c with
  | None => raise (AttributeError "'NoneType' object has no attribute 'active_step'")
  | Some s =>
      match active_step s with
      | None => raise (AttributeError "'NoneType' object has no attribute 'create_event'")
      | Some l => ret l
      end
  end.

Definition handler_kwargs (description : option desc) (screenshots : option (list string))
    : event_kwargs :=
  {| kw_description := description; kw_result := None; kw_cost_added := None;
     kw_model := None; kw_screenshots := screenshots; kw_is_finished := None;
     kw_is_successful := None |}.

(** The two lists [text] and [images] filled by the loop over [prompts]. *)
Fixpoint split_prompts (prompts : list prompt) : list string * list string :=
  match prompts with
  | [] => ([], [])
  | p :: rest =>
      let '(text, images) := split_prompts rest in
      match p with
      | PromptStr s => (s :: text, images)
      | PromptDict d =>
          match d !! "image" with
          | Some i => (text, i :: images)
          | None => (text, images)
          end
      | PromptOther => (text, images)
      end
  end.

Definition on_llm_start (serialized : option (gmap string string))
    (prompts : list prompt) (run_id : string) (kwargs : callback_kwargs)
    : M Env unit :=
  lift (print "[Lucidic] Starting LLM call in Langchain Handler, creating event...") ;;;
  let run_str := run_id in
  let model := _get_model_name serialized kwargs in
  modify_self (fun h => set_run_to_model (<[run_str := model]> (run_to_model h)) h) ;;;
  let '(text, images) := split_prompts prompts in
  active <- session_and_active_step ;;
  match active with
  | None => lift (print "[Lucidic] Cannot create event - no active session or step")
  | Some _ =>
      try_except
        (step <- the_active_step ;;
         event <- lift (Step.create_event step
                          (handler_kwargs (Some (DescList text)) (Some images))) ;;
         modify_self (fun h => set_run_to_event (<[run_str := event]> (run_to_event h)) h))
        (fun e =>
           lift (print ("[Lucidic] Error creating event: " ++ exn_str e)) ;;;
           lift (print_traceback e))
  end.

Definition of_outcome {S A} (o : outcome A) : M S A :=
  match o with
  | Returned a => ret a
  | Raised e => raise e
  end.

(** One content block of a chat message, appended to [text] or
    [images_b64]. [block.get("image_url", "")] is a string when the key is
    absent or holds a plain URL, and a string has no [.get]. *)
Definition scan_block (b : block) (acc : list string * list string)
    : outcome (list string * list string) :=
  let '(text, images_b64) := acc in
  match b with
  | BlockOther => Returned acc
  | BlockDict d =>
      if bool_decide (b_type d = Some "text")
      then Returned ((text ++ [default "" (b_text d)])%list, images_b64)
      else if bool_decide (b_type d = Some "image_url")
      then
        match b_image_url d with
        | Some (ImageDict image_url) =>
            let image_str := default "" (image_url !! "url") in
            Returned (text,
                      (images_b64 ++
                         [drop_str (Z.to_nat (find image_str "," + 1)) image_str])%list)
        | Some (ImageStr _) | None =>
            Raised (AttributeError "'str' object has no attribute 'get'")
        end
      else Returned acc
  end.

Fixpoint scan_blocks (bs : list block) (acc : list string * list string)
    : outcome (list string * list string) :=
  match bs with
  | [] => Returned acc
  | b :: rest =>
      match scan_block b acc with
      | Returned acc' => scan_blocks rest acc'
      | Raised e => Raised e
      end
  end.

Fixpoint scan_messages (msgs : list BaseMessage) (acc : list string * list string)
    : outcome (list string * list string) :=
  match msgs with
  | [] => Returned acc
  | msg :: rest =>
      let step :=
        match msg_content msg with
        | ContentStr s => Returned ((fst acc ++ [s])%list, snd acc)
        | ContentList bs => scan_blocks bs acc
        end in
      match step with
      | Returned acc' => scan_messages rest acc'
      | Raised e => Raised e
      end
  end.

Definition on_chat_model_start (serialized : option (gmap string string))
    (messages : list (list BaseMessage)) (run_id : string)
    (kwargs : callback_kwargs) : M Env unit :=
  lift (print "[Lucidic] Starting LLM call in Langchain Handler, creating event...") ;;;
  let run_str := run_id in
  let model := _get_model_name serialized kwargs in
  modify_self (fun h => set_run_to_model (<[run_str := model]> (run_to_model h)) h) ;;;
  scanned <-
    match messages with
    | first :: _ => of_outcome (scan_messages first ([], []))
    | [] => ret ([], [])
    end ;;
  let '(text, images_b64) := scanned in
  active <- session_and_active_step ;;
  match active with
  | None => lift (print "[Lucidic] Cannot create event - no active session or step")
  | Some _ =>
      try_except
        (step <- the_active_step ;;
         event <- lift (Step.create_event step
                          (handler_kwargs (Some (DescList text)) (Some images_b64))) ;;
         modify_self (fun h => set_run_to_event (<[run_str := event]> (run_to_event h)) h))
        (fun e => lift (print ("[Lucidic] Error creating event: " ++ exn_str e)))
  end.

(** A local variable that is assigned on one branch only. *)
Definition read_local {S A} (name : string) (v : option A) : M S A :=
  match v with
  | Some a => ret a
  | None => raise (UnboundLocalError name)
  end.

(** [calculate_cost] of [lucidicai.model_pricing] is not among the sources:
    it is a parameter, what the call returns or raises for a model and a
    usage. *)
Definition on_llm_end (calculate_cost : string -> option usage -> outcome Q)
    (response : LLMResult) (run_id : string) : M Env unit :=
  lift (print "[Lucidic] Ending LLM call in Langchain Handler, ending event...") ;;;
  let run_str := run_id in
  model <- gets (fun s => default "unknown" (run_to_model (self s) !! run_str)) ;;
  (* [message] is bound, and [cost] computed, only under this condition *)
  bound <-
    match generations response with
    | (g :: _) :: _ =>
        match g with
        | ChatGeneration message =>
            cost <- of_outcome (calculate_cost model (usage_metadata message)) ;;
            ret (Some cost, Some message)
        | Generation _ =>
            raise (AttributeError "'Generation' object has no attribute 'message'")
        end
    | _ => ret (None, None)
    end ;;
  let '(cost, message) := bound in
  active <- session_and_active_step ;;
  match active with
  | None => lift (print "[Lucidic] Cannot end event - no active session or step")
  | Some _ =>
      try_except
        (h <- gets self ;;
         match run_to_event h !! run_str with
         | Some event =>
             finished <- gets (fun s => ev_is_finished (events (world s) !!! event)) ;;
             (if negb finished
              then
                message <- read_local "message" message ;;
                let result := Some (pretty_repr message) in
                lift (Event.update_event event
                        {| kw_description := None; kw_result := result;
                           kw_cost_added := cost; kw_model := Some model;
                           kw_screenshots := None; kw_is_finished := Some true;
                           kw_is_successful := Some true |})
              else lift (print "[Lucidic] Event already finished")) ;;;
             modify_self (fun h => set_run_to_event (delete run_str (run_to_event h)) h)
         | None => lift (print "[Lucidic] No event found")
         end)
        (fun e =>
           lift (print ("[Lucidic] Error in event ending: " ++ exn_str e)) ;;;
           lift (print_traceback e)) ;;;
      modify_self (fun h => set_run_to_model (delete run_str (run_to_model h)) h)
  end.

Definition on_llm_error (run_id : string) : M Env unit :=
  lift (print "[Lucidic] Handling LLM error in Langchain Handler, ending event...") ;;;
  let run_str := run_id in
  model <- gets (fun s => default "unknown" (run_to_model (self s) !! run_str)) ;;
  active <- session_and_active_step ;;
  match active with
  | None => lift (print "[Lucidic] Cannot end event - no active session or step")
  | Some _ =>
      try_except
        (h <- gets self ;;
         match run_to_event h !! run_str with
         | Some event =>
             finished <- gets (fun s => ev_is_finished (events (world s) !!! event)) ;;
             (if negb finished
              then
                lift (Event.update_event event
                        {| kw_description := None; kw_result := None;
                           kw_cost_added := None; kw_model := Some model;
                           kw_screenshots := None; kw_is_finished := Some true;
                           kw_is_successful := None |}) ;;;
                lift (print "[Lucidic] Ended event with error")
              else ret tt) ;;;
             modify_self (fun h => set_run_to_event (delete run_str (run_to_event h)) h)
         | None => lift (print "[Lucidic] No event found for")
         end)
        (fun e => lift (print ("[Lucidic] Error ending event: " ++ exn_str e))) ;;;
      modify_self (fun h => set_run_to_model (delete run_str (run_to_model h)) h)
  end.

(** [str(kwargs.get("run_id", "unknown"))]. *)
Definition run_id_of (kwargs : callback_kwargs) : string :=
  default "unknown" (kw_run_id kwargs).

(** [serialized.get(key, otherwise)], for a [serialized] that can be
    [None]. *)
Definition serialized_get {S} (serialized : option (gmap string string))
    (key otherwise : string) : M S string :=
  match serialized with
  | Some d => ret (default otherwise (d !! key))
  | None => raise (AttributeError "'NoneType' object has no attribute 'get'")
  end.

Definition on_tool_start (serialized : option (gmap string string))
    (input_str : string) (kwargs : callback_kwargs) : M Env unit :=
  lift (print "[Lucidic] Starting tool execution in Langchain Handler, creating event...") ;;;
  let run_id := run_id_of kwargs in
  tool_name <- serialized_get serialized "name" "Unknown Tool" ;;
  let description :=
    "Tool Call (" ++ tool_name ++ "): " ++ take_str 100 input_str ++ "..." in
  active <- session_and_active_step ;;
  match active with
  | None => lift (print "[Lucidic] Cannot create event - no active session or step")
  | Some _ =>
      try_except
        (step <- the_active_step ;;
         event <- lift (Step.create_event step
                          (handler_kwargs (Some (DescStr description)) None)) ;;
         modify_self (fun h => set_run_to_event (<[run_id := event]> (run_to_event h)) h))
        (fun e => lift (print ("[Lucidic] Error creating tool event: " ++ exn_str e)))
  end.

(** The body shared, up to the printed texts, by [on_chain_error],
    [on_tool_error] and [on_retriever_error]. *)
Definition end_with_failure (what : string) (kwargs : callback_kwargs) : M Env unit :=
  let run_id := run_id_of kwargs in
  active <- session_and_active_step ;;
  match active with
  | None => lift (print "[Lucidic] Cannot end event - no active session or step")
  | Some _ =>
      try_except
        (h <- gets self ;;
         match run_to_event h !! run_id with
         | Some event =>
             finished <- gets (fun s => ev_is_finished (events (world s) !!! event)) ;;
             (if negb finished
              then
                lift (Event.update_event event
                        {| kw_description := None; kw_result := None;
                           kw_cost_added := None; kw_model := None;
                           kw_screenshots := None; kw_is_finished := Some true;
                           kw_is_successful := Some false |})
              else ret tt) ;;;
             modify_self (fun h => set_run_to_event (delete run_id (run_to_event h)) h)
         | None => lift (print "[Lucidic] No event found")
         end)
        (fun e => lift (print ("[Lucidic] Error ending " ++ what ++ " event: " ++ exn_str e)))
  end.

Definition on_chain_error (kwargs : callback_kwargs) : M Env unit :=
  lift (print "[Lucidic] Handling chain error in Langchain Handler, ending event...") ;;;
  end_with_failure "chain" kwargs.

Definition on_tool_error (kwargs : callback_kwargs) : M Env unit :=
  lift (print "[Lucidic] Handling tool error in Langchain Handler, ending event...") ;;;
  end_with_failure "tool" kwargs.

Definition on_retriever_error (kwargs : callback_kwargs) : M Env unit :=
  lift (print "[Lucidic] Handling retriever error in Langchain Handler, ending event...") ;;;
  end_with_failure "retriever" kwargs.

(** *** The remaining callbacks *)


(** A value of [outputs], by what [on_chain_end] asks of it: its
    truthiness and the text [str(dumps(value, pretty=True))]. *)
Record output_value := {
  truthy : bool;
  dumped : string
}.

(** A retrieved document: the text of [page_content] if the attribute
    exists, and [str(document)]. *)
Record document := {
  page_content : option string;
  document_str : string
}.

(** The attribute [tool_input] of an agent action: a dict, or another value
    with its truthiness and [str]. *)
Inductive tool_input_value :=
  | ToolInputDict (items : list (string * string))
  | ToolInputOther (is_truthy : bool) (repr : string).

(** An agent action, by the two attributes [on_agent_action] reads. *)
Record AgentAction := {
  tool : option string;
  tool_input : option tool_input_value
}.

(** [str(n)] for a length. *)
Definition str_of_nat (n : nat) : string :=
  NilEmpty.string_of_uint (Nat.to_uint n).

(** [sep.join(parts)]. *)
Fixpoint join (sep : string) (parts : list string) : string :=
  match parts with
  | [] => ""
  | [p] => p
  | p :: rest => p ++ sep ++ join sep rest
  end.

(** The body shared, up to the printed texts, by [on_chain_end],
    [on_tool_end] and [on_retriever_end]: the Session check, then the
    statements that compute the result, which are outside the [try] and
    give [result] or raise, then the [try]. *)
Definition end_with_success (what : string) (result : outcome (option string))
    (kwargs : callback_kwargs) : M Env unit :=
  let run_id := run_id_of kwargs in
  active <- session_and_active_step ;;
  match active with
  | None => lift (print "[Lucidic] Cannot end event - no active session or step")
  | Some _ =>
      result <- of_outcome result ;;
      try_except
        (h <- gets self ;;
         match run_to_event h !! run_id with
         | Some event =>
             finished <- gets (fun s => ev_is_finished (events (world s) !!! event)) ;;
             (if negb finished
              then
                lift (Event.update_event event
                        {| kw_description := None; kw_result := result;
                           kw_cost_added := None; kw_model := None;
                           kw_screenshots := None; kw_is_finished := Some true;
                           kw_is_successful := Some true |})
              else ret tt) ;;;
             modify_self (fun h => set_run_to_event (delete run_id (run_to_event h)) h)
         | None => lift (print "[Lucidic] No event found")
         end)
        (fun e => lift (print ("[Lucidic] Error ending " ++ what ++ " event: " ++ exn_str e)))
  end.

(** The argument [outputs]: a dict in insertion order whose values can be
    [None], or another value, with its truthiness and what
    [outputs[next(iter(outputs))]] gives or raises for it (for a string,
    whose first character is not an index, a TypeError). *)
Inductive chain_outputs :=
  | OutputsDict (items : list (string * option output_value))
  | OutputsOther (is_truthy : bool) (first_value : outcome (option output_value)).

(** [str(dumps(output_value, pretty=True)) if output_value else None],
    under [if output_value is not None]. *)
Definition dumped_if_truthy (output_value : option output_value) : option string :=
  match output_value with
  | None => None
  | Some v => if truthy v then Some (dumped v) else None
  end.

(** The result that [on_chain_end] extracts from [outputs], or the
    exception of the extraction. *)
Definition chain_result (outputs : chain_outputs) : outcome (option string) :=
  match outputs with
  | OutputsDict [] => Returned None
  | OutputsDict ((first_key, output_value) :: _) =>
      Returned (dumped_if_truthy output_value)
  | OutputsOther false _ => Returned None
  | OutputsOther true (Returned output_value) =>
      Returned (dumped_if_truthy output_value)
  | OutputsOther true (Raised e) => Raised e
  end.

Definition on_chain_end (outputs : chain_outputs)
    (kwargs : callback_kwargs) : M Env unit :=
  lift (print "[Lucidic] Ending chain execution in Langchain Handler, ending event...") ;;;
  end_with_success "chain" (chain_result outputs) kwargs.

(** [output] is [None] or the text [str(output)]. *)
Definition on_tool_end (output : option string) (kwargs : callback_kwargs)
    : M Env unit :=
  lift (print "[Lucidic] Ending tool execution in Langchain Handler, ending event...") ;;;
  end_with_success "tool" (Returned (take_str 1000 <$> output)) kwargs.

Definition on_retriever_start (serialized : option (gmap string string))
    (query : string) (kwargs : callback_kwargs) : M Env unit :=
  lift (print "[Lucidic] Starting retriever execution in Langchain Handler, creating event...") ;;;
  let run_id := run_id_of kwargs in
  retriever_type <- serialized_get serialized "name" "Unknown Retriever" ;;
  let description :=
    "Retriever (" ++ retriever_type ++ "): " ++ take_str 100 query ++ "..." in
  active <- session_and_active_step ;;
  match active with
  | None => lift (print "[Lucidic] Cannot create event - no active session or step")
  | Some _ =>
      try_except
        (step <- the_active_step ;;
         event <- lift (Step.create_event step
                          (handler_kwargs (Some (DescStr description)) None)) ;;
         modify_self (fun h => set_run_to_event (<[run_id := event]> (run_to_event h)) h))
        (fun e => lift (print ("[Lucidic] Error creating retriever event: " ++ exn_str e)))
  end.

(** The summary that [on_retriever_end] makes of the documents. *)
Definition retriever_result (documents : list document) : option string :=
  match documents with
  | [] => None
  | first :: _ =>
      let doc_count := length documents in
      let sample :=
        match page_content first with
        | Some text => take_str 200 text
        | None => take_str 200 (document_str first)
        end in
      Some ("Retrieved " ++ str_of_nat doc_count ++ " documents. Sample: "
              ++ sample ++ "...")
  end.

Definition on_retriever_end (documents : list document)
    (kwargs : callback_kwargs) : M Env unit :=
  lift (print "[Lucidic] Ending retriever execution in Langchain Handler, ending event...") ;;;
  end_with_success "retriever" (Returned (retriever_result documents)) kwargs.

(** The text that [on_agent_action] records as the result. *)
Definition action_result (action : AgentAction) : string :=
  let tool := default "unknown_tool" (tool action) in
  match tool_input action with
  | Some (ToolInputDict ((_ :: _) as items)) =>
      let input_str :=
        join ", " (map (fun kv => fst kv ++ ": " ++ snd kv) items) in
      "Using tool '" ++ tool ++ "' with inputs: " ++ input_str
  | Some (ToolInputOther true repr) =>
      "Using tool '" ++ tool ++ "' with input: " ++ repr
  | _ => "Using tool '" ++ tool ++ "'"
  end.

Definition on_agent_action (action : AgentAction) (kwargs : callback_kwargs)
    : M Env unit :=
  lift (print "[Lucidic] Starting agent action in Langchain Handler, creating event...") ;;;
  let run_id := run_id_of kwargs in
  let tool := default "unknown_tool" (tool action) in
  let description := "Agent Action: " ++ tool in
  active <- session_and_active_step ;;
  match active with
  | None => lift (print "[Lucidic] Cannot create event - no active session or step")
  | Some _ =>
      let result := Some (action_result action) in
      try_except
        (step <- the_active_step ;;
         event <- lift (Step.create_event step
                          (handler_kwargs (Some (DescStr description)) None)) ;;
         modify_self (fun h => set_run_to_event (<[run_id := event]> (run_to_event h)) h) ;;;
         finished <- gets (fun s => ev_is_finished (events (world s) !!! event)) ;;
         (if negb finished
          then
            lift (Event.update_event event
                    {| kw_description := None; kw_result := result;
                       kw_cost_added := None; kw_model := None;
                       kw_screenshots := None; kw_is_finished := Some true;
                       kw_is_successful := Some true |})
          else ret tt) ;;;
         modify_self (fun h => set_run_to_event (delete run_id (run_to_event h)) h) ;;;
         lift (print "[Lucidic] Processed agent action"))
        (fun e => lift (print ("[Lucidic] Error processing agent action: " ++ exn_str e)))
  end.

End LucidicLangchainHandler.

(** *** The host object graph seen by [attach_to_llms] *)

(** A registered callback: an instance of [LucidicLangchainHandler], or of
    another class. *)
Inductive callback :=
  | Lucidic (id : nat)
  | Foreign (id : nat).

(** [isinstance(callback, LucidicLangchainHandler)]. *)
Definition is_lucidic (cb : callback) : bool :=
  match cb with
  | Lucidic _ => true
  | Foreign _ => false
  end.

(** The attribute [callbacks] of an object: absent, [None], or a list
    object (lists are shared by reference). *)
Inductive callbacks_attr :=
  | NoAttribute
  | IsNone
  | ListAt (l : loc).

(** What [getattr(obj, name)] gives: an exception, an object of the graph,
    or a value without an attribute [callbacks]. *)
Inductive attr_value :=
  | GetattrRaises (e : exn)
  | Object (o : loc)
  | Plain.

Record Obj := {
  class_name : string;
  callbacks : callbacks_attr;
  dir : list (string * attr_value)
}.

#[global] Instance Obj_inhabited : Inhabited Obj :=
  populate {| class_name := "object"; callbacks := NoAttribute; dir := [] |}.

Record Heap := {
  objects : list Obj;
  cb_lists : list (list callback);
  printed : list line
}.

Module Attach.

Definition say (s : string) : M Heap unit :=
  modify (fun h => {| objects := objects h; cb_lists := cb_lists h;
                      printed := printed h ++ [Line s] |}).

Definition set_callbacks (o : loc) (a : callbacks_attr) : M Heap unit :=
  modify (fun h =>
    let ob := objects h !!! o in
    {| objects := <[o := {| class_name := class_name ob; callbacks := a;
                            dir := dir ob |}]> (objects h);
       cb_lists := cb_lists h; printed := printed h |}).

(** A new list object holding [cbs]. *)
Definition new_list (cbs : list callback) : M Heap loc :=
  l <- gets (fun h => length (cb_lists h)) ;;
  modify (fun h => {| objects := objects h; cb_lists := cb_lists h ++ [cbs];
                      printed := printed h |}) ;;;
  ret l.

(** [callbacks.append(cb)] on the list object at [l]. *)
Definition append (l : loc) (cb : callback) : M Heap unit :=
  modify (fun h => {| objects := objects h;
                      cb_lists := <[l := ((cb_lists h !!! l) ++ [cb])%list]> (cb_lists h);
                      printed := printed h |}).

(** The block run on the host and on each attribute that has [callbacks]:
    [callbacks = x.callbacks or []], then append unless a handler is there.
    [None] and the empty list are both falsy, so a fresh list is used. *)
Definition attach_one (self : nat) (o : loc) (attached already : string)
    : M Heap unit :=
  ob <- gets (fun h => objects h !!! o) ;;
  match callbacks ob with
  | NoAttribute => ret tt
  | IsNone =>
      l <- new_list [] ;;
      append l (Lucidic self) ;;;
      set_callbacks o (ListAt l) ;;;
      say attached
  | ListAt l0 =>
      cbs <- gets (fun h => cb_lists h !!! l0) ;;
      l <- match cbs with
           | [] => new_list []
           | _ => ret l0
           end ;;
      callbacks <- gets (fun h => cb_lists h !!! l) ;;
      if negb (existsb is_lucidic callbacks)
      then
        append l (Lucidic self) ;;;
        set_callbacks o (ListAt l) ;;;
        say attached
      else say already
  end.

(** [attr_name.startswith('_')]. *)
Definition startswith_underscore (name : string) : bool :=
  String.prefix "_" name.

Definition attach_attr (self : nat) (entry : string * attr_value) : M Heap unit :=
  let '(attr_name, v) := entry in
  try_except
    (if startswith_underscore attr_name then ret tt
     else
       match v with
       | GetattrRaises e => raise e
       | Plain => ret tt
       | Object a =>
           cls <- gets (fun h => class_name (objects h !!! a)) ;;
           attach_one self a
             ("[Lucidic] Successfully attached to " ++ cls ++ " in " ++ attr_name)
             ("[Lucidic] Already attached to " ++ cls ++ " in " ++ attr_name)
       end)
    (fun e =>
       say ("[Lucidic] Warning: Could not attach to " ++ attr_name ++ ": " ++ exn_str e)).

(** [self.attach_to_llms(llm_or_chain_or_agent)]: [self] is the identity
    of the handler, the host is an object of the graph. *)
Definition attach_to_llms (self : nat) (llm_or_chain_or_agent : loc) : M Heap unit :=
  cls <- gets (fun h => class_name (objects h !!! llm_or_chain_or_agent)) ;;
  say ("[Lucidic] Attempting to attach to " ++ cls) ;;;
  attach_one self llm_or_chain_or_agent
    ("[Lucidic] Successfully attached to " ++ cls)
    ("[Lucidic] Already attached to " ++ cls) ;;;
  names <- gets (fun h => dir (objects h !!! llm_or_chain_or_agent)) ;;
  for_each names (attach_attr self).

End Attach.

(** ** Vocabulary of the properties, and sample states *)

Local Open Scope list_scope.

(** The call returns having printed one warning and changed nothing else. *)
Definition warns (m : M World unit) (w : World) : Prop :=
  exists msg,
    String.prefix "[Lucidic] Warning:" msg = true /\
    m w = (Returned tt, set_stdout (stdout w ++ [Line msg]) w).

(** The call raises InvalidOperation and changes nothing. *)
Definition rejects (m : M World unit) (w : World) : Prop :=
  exists msg, m w = (Raised (InvalidOperationError msg), w).

Module Sample.

(** A process in which the facade was never used. *)
Definition fresh : World :=
  {| client := None; steps := []; events := []; environ := ∅; stdout := [];
     requests := []; prompt_db := fun _ _ => "Hello {{name}}"; clock := 0 |}.

(** After [init("demo", lucidic_api_key="key", agent_id="agent")]. *)
Definition in_session : World :=
  snd (lucidicai.init "demo" (Some "key") (Some "agent") None None None None None fresh).

(** ... then [create_step()]. *)
Definition in_step : World :=
  snd (lucidicai.create_step None None None None None None None in_session).

(** ... then [create_event(description="look")]. *)
Definition with_event : World :=
  snd (lucidicai.create_event (Some "look") None None None None in_step).

(** [init] then [end_session()]: a client without a Session. *)
Definition ended : World :=
  snd (lucidicai.end_session None None None None in_session).

End Sample.

(** A credential: the argument if given, else the environment variable. *)
Definition resolve (arg : option string) (name : string) (w : World)
    : option string :=
  match arg with
  | Some v => Some v
  | None => environ w !! name
  end.

(** [sub] occurs in [s]. *)
Definition occurs (sub s : string) : Prop :=
  exists a b, s = (a ++ sub ++ b)%string.




(** An opening pair of braces is followed, later in [text], by a closing
    pair: a token [{{key}}] remains. *)
Definition pair_remains (text : string) : Prop :=
  exists a key b, text = (a ++ "{{" ++ key ++ "}}" ++ b)%string.

(** After [init], a process whose backend serves a template in which a
    token follows a closing pair of braces. *)
Definition stray : World :=
  {| client := client Sample.in_session; steps := []; events := [];
     environ := ∅; stdout := []; requests := [];
     prompt_db := fun _ _ => "}} {{x}}"; clock := 0 |}.

(** Sample payloads and handler states. *)
Module Payload.

Definition no_kwargs : callback_kwargs :=
  {| invocation_params := None; kw_run_id := None |}.

Definition for_run (run_id : string) : callback_kwargs :=
  {| invocation_params := None; kw_run_id := Some run_id |}.

(** A new handler in a process with an active Session and Step. *)
Definition listening : Env :=
  {| world := Sample.in_step;
     self := {| run_to_model := ∅; run_to_event := ∅ |} |}.

(** A new handler in a process whose Session was ended. *)
Definition idle : Env :=
  {| world := Sample.ended;
     self := {| run_to_model := ∅; run_to_event := ∅ |} |}.

(** [LLMResult(generations=[])]. *)
Definition no_generations : LLMResult := {| generations := [] |}.

Definition reply : AIMessage :=
  {| usage_metadata := Some {| input_tokens := 12; output_tokens := 30;
                               total_tokens := 42 |};
     pretty_repr := "Paris" |}.

Definition chat_result : LLMResult :=
  {| generations := [[ChatGeneration reply]] |}.

(** A pricing function standing for [calculate_cost]. *)
Definition per_token (model : string) (u : option usage) : outcome Q :=
  match u with
  | Some u => Returned (inject_Z (total_tokens u) / 1000)%Q
  | None => Returned 0%Q
  end.

(** A human message whose image block gives the URL as a plain string:
    [content=[{"type": "image_url", "image_url": "https://example.com/cat.png"}]]. *)
Definition image_by_url : BaseMessage :=
  {| msg_content :=
       ContentList
         [BlockDict {| b_type := Some "image_url"; b_text := None;
                       b_image_url := Some (ImageStr "https://example.com/cat.png") |}] |}.

End Payload.

(** The number of [LucidicLangchainHandler] instances in a callback list. *)
Definition count_lucidic (cbs : list callback) : nat :=
  length (filter (fun cb => is_lucidic cb = true) cbs).

(** From [h] to [h']: no list object holds more handler instances than
    before, except that a list without any may have got one. A location
    that holds no list yet counts as the empty list. *)
Definition politely (h h' : Heap) : Prop :=
  forall l : loc,
    (count_lucidic (cb_lists h' !!! l) <= Nat.max 1 (count_lucidic (cb_lists h !!! l)))%nat.

(** A computation that moves every heap along the relation [R]. *)
Definition along (R : Heap -> Heap -> Prop) {A} (m : M Heap A) : Prop :=
  forall h, R h (snd (m h)).

(** An object with its attribute [callbacks] set. *)
Definition with_callbacks (a : callbacks_attr) (ob : Obj) : Obj :=
  {| class_name := class_name ob; callbacks := a; dir := dir ob |}.

(** The object has no attribute [callbacks], or a list with a handler. *)
Definition attached (h : Heap) (o : loc) : Prop :=
  match callbacks (objects h !!! o) with
  | NoAttribute => True
  | IsNone => False
  | ListAt l => existsb is_lucidic (cb_lists h !!! l) = true
  end.

(** From [h] to [h']: attached objects stay attached, and the objects keep
    their attributes. *)
Definition settling (h h' : Heap) : Prop :=
  (forall o, attached h o -> attached h' o) /\
  (forall o, dir (objects h' !!! o) = dir (objects h !!! o)).

(** The same objects and the same lists (the printed lines may differ). *)
Definition same_graph (h h' : Heap) : Prop :=
  objects h' = objects h /\ cb_lists h' = cb_lists h.

(** The objects that [attach_to_llms] reaches through the attributes
    [names]: those under a name that does not start with an underscore. *)
Definition visited (names : list (string * attr_value)) (a : loc) : Prop :=
  exists name,
    (name, Object a) ∈ names /\ Attach.startswith_underscore name = false.

Module Hosts.

(** An agent whose [callbacks] list holds a foreign callback, with an LLM
    (reachable as [llm] and as [_llm]) whose [callbacks] is [None], and a
    property that raises. *)
Definition agent : Heap :=
  {| objects :=
       [ {| class_name := "AgentExecutor"; callbacks := ListAt 0;
            dir := [("_llm", Object 1%nat);
                    ("broken", GetattrRaises (AttributeError "no such thing"));
                    ("llm", Object 1%nat);
                    ("name", Plain)] |};
         {| class_name := "ChatOpenAI"; callbacks := IsNone; dir := [] |} ];
     cb_lists := [[Foreign 0]];
     printed := [] |}.

(** An LLM on which two handlers were registered by hand. *)
Definition crowded : Heap :=
  {| objects :=
       [ {| class_name := "ChatOpenAI"; callbacks := ListAt 0; dir := [] |} ];
     cb_lists := [[Lucidic 1; Lucidic 2]];
     printed := [] |}.

End Hosts.

(** The handler after the first statements of a start callback: the model
    of the run is recorded. *)
Definition started_model (serialized : option (gmap string string))
    (kwargs : callback_kwargs) (run_id : string) (h : Handler) : Handler :=
  LucidicLangchainHandler.set_run_to_model
    (<[run_id := LucidicLangchainHandler._get_model_name serialized kwargs]>
       (run_to_model h)) h.

(** The world after [Step.create_event] on the unfinished Step [l]. *)
Definition created (l : loc) (kw : event_kwargs) (w : World) : World :=
  set_requests (requests w ++ [InitEvent (length (events w))])
    (set_steps (<[l := Step.add_event (length (events w)) (steps w !!! l)]> (steps w))
       (set_events (events w ++ [Event.init kw]) w)).

(** The keyword arguments of the [update_event] calls that end an Event. *)
Definition finishing (model : option string) (cost : option Q)
    (result : option string) (ok : option bool) : event_kwargs :=
  {| kw_description := None; kw_result := result; kw_cost_added := cost;
     kw_model := model; kw_screenshots := None; kw_is_finished := Some true;
     kw_is_successful := ok |}.

(** The handler without the entries of a run. *)
Definition forgotten (run_id : string) (h : Handler) : Handler :=
  {| run_to_model := delete run_id (run_to_model h);
     run_to_event := delete run_id (run_to_event h) |}.

(** [response.generations[0][0]], if it exists. *)
Definition first_generation (r : LLMResult) : option generation :=
  match generations r with
  | (g :: _) :: _ => Some g
  | _ => None
  end.

(** What [on_llm_end] binds before the Session check: the cost and the
    message of the first generation, or the exception of those statements. *)
Definition first_bound (calculate_cost : string -> option usage -> outcome Q)
    (model : string) (r : LLMResult) : outcome (option Q * option AIMessage) :=
  match first_generation r with
  | None => Returned (None, None)
  | Some (Generation _) =>
      Raised (AttributeError "'Generation' object has no attribute 'message'")
  | Some (ChatGeneration message) =>
      match calculate_cost model (usage_metadata message) with
      | Returned cost => Returned (Some cost, Some message)
      | Raised e => Raised e
      end
  end.

(** What the loop of [on_chat_model_start] over [messages[0]] gives. *)
Definition scanned (messages : list (list BaseMessage))
    : outcome (list string * list string) :=
  match messages with
  | first :: _ => LucidicLangchainHandler.scan_messages first ([], [])
  | [] => Returned ([], [])
  end.

(** The two lines of a start callback that finds no active Step. *)
Definition start_refused (w : World) : World :=
  set_stdout
    ((stdout w ++
        [Line "[Lucidic] Starting LLM call in Langchain Handler, creating event..."]) ++
       [Line "[Lucidic] Cannot create event - no active session or step"]) w.

(** The first line of [on_llm_start] and [on_chat_model_start]. *)
Definition start_announced (w : World) : World :=
  set_stdout
    (stdout w ++
       [Line "[Lucidic] Starting LLM call in Langchain Handler, creating event..."]) w.

(** The first line of [on_llm_end]. *)
Definition end_announced (w : World) : World :=
  set_stdout
    (stdout w ++
       [Line "[Lucidic] Ending LLM call in Langchain Handler, ending event..."]) w.

(** The first line of [on_llm_error]. *)
Definition error_announced (w : World) : World :=
  set_stdout
    (stdout w ++
       [Line "[Lucidic] Handling LLM error in Langchain Handler, ending event..."]) w.

(** ** Vocabulary of the further properties *)

(** The provider handler of the client after [init(provider=name)]. *)
Definition provider_after (name : option string) (old : option provider)
    : option provider :=
  if bool_decide (name = Some "openai") then Some OpenAIHandler
  else if bool_decide (name = Some "anthropic") then Some AnthropicHandler
  else old.

(** The statements of [init] and [create_mass_sim] that resolve one
    credential. *)
Definition credential (arg : option string) (name msg : string) : M World string :=
  match arg with
  | Some k => ret k
  | None =>
      k <- getenv name ;;
      match k with
      | Some k => ret k
      | None => raise (APIKeyVerificationError msg)
      end
  end.

(** The call raises NotInitialized and changes nothing. *)
Definition uninitialized {A} (m : M World A) (w : World) : Prop :=
  m w = (Raised LucidicNotInitializedError, w).

(** The outcome [r] of a call on [w] left the finished flag of the Event
    [e] and of the Step [l] as they were, and the active Step too. *)
Definition quiet_update (w : World) (e l : loc) (r : outcome unit * World)
    : Prop :=
  ev_is_finished (events (snd r) !!! e) = ev_is_finished (events w !!! e) /\
  st_is_finished (steps (snd r) !!! l) = st_is_finished (steps w !!! l) /\
  (client (snd r) ≫= session) ≫= active_step
  = (client w ≫= session) ≫= active_step.

(** The outcome [r] of an end or error callback on [env] that was refused:
    it returned after the refusal line, and the handler, the Events, the
    Steps and the requests are as before. *)
Definition refused_end (env : Env) (r : outcome unit * Env) : Prop :=
  fst r = Returned tt /\
  self (snd r) = self env /\
  events (world (snd r)) = events (world env) /\
  steps (world (snd r)) = steps (world env) /\
  requests (world (snd r)) = requests (world env) /\
  last (stdout (world (snd r)))
  = Some (Line "[Lucidic] Cannot end event - no active session or step").

(** The outcome [r] of an end or error callback on [env] that finished the
    Event [e] of the run with the keyword arguments [kw]: one update of that
    Event, sent once; the run left [run_to_event] and nothing else. *)
Definition ended_with (kw : event_kwargs) (e : loc) (run_id : string)
    (env : Env) (r : outcome unit * Env) : Prop :=
  fst r = Returned tt /\
  events (world (snd r))
  = <[e := Event.updated kw (events (world env) !!! e)]> (events (world env)) /\
  requests (world (snd r)) = requests (world env) ++ [UpdateEvent e kw] /\
  steps (world (snd r)) = steps (world env) /\
  run_to_event (self (snd r)) = delete run_id (run_to_event (self env)) /\
  run_to_model (self (snd r)) = run_to_model (self env).

(** The outcome [r] of an end or error callback on [env] that found the
    Event of the run finished: nothing was updated or sent, and the run
    left [run_to_event]. *)
Definition dropped_quietly (run_id : string) (env : Env)
    (r : outcome unit * Env) : Prop :=
  fst r = Returned tt /\
  events (world (snd r)) = events (world env) /\
  requests (world (snd r)) = requests (world env) /\
  steps (world (snd r)) = steps (world env) /\
  run_to_event (self (snd r)) = delete run_id (run_to_event (self env)).

(** The descriptions that [on_tool_start] and [on_retriever_start] give
    to their Event. *)
Definition tool_description (serialized : gmap string string)
    (input_str : string) : string :=
  ("Tool Call (" ++ default "Unknown Tool" (serialized !! "name") ++ "): "
     ++ take_str 100 input_str ++ "...")%string.

Definition retriever_description (serialized : gmap string string)
    (query : string) : string :=
  ("Retriever (" ++ default "Unknown Retriever" (serialized !! "name") ++ "): "
     ++ take_str 100 query ++ "...")%string.

(** What [on_llm_start] keeps of a prompt: the text of a string, the value
    under ["image"] of a dict. *)
Definition prompt_text (p : prompt) : option string :=
  match p with
  | PromptStr s => Some s
  | _ => None
  end.

Definition prompt_image (p : prompt) : option string :=
  match p with
  | PromptDict d => d !! "image"
  | _ => None
  end.

(** A content block that the scan of [on_chat_model_start] cannot read: an
    image block whose [image_url] is not a dict. *)
Definition unreadable (b : block) : bool :=
  match b with
  | BlockDict d =>
      bool_decide (b_type d = Some "image_url") &&
      match b_image_url d with
      | Some (ImageDict _) => false
      | _ => true
      end
  | BlockOther => false
  end.

Definition unreadable_message (m : BaseMessage) : bool :=
  match msg_content m with
  | ContentList bs => existsb unreadable bs
  | ContentStr _ => false
  end.

(** Only the first batch of [messages] is scanned. *)
Definition unreadable_batch (messages : list (list BaseMessage)) : bool :=
  match messages with
  | first :: _ => existsb unreadable_message first
  | [] => false
  end.

(** The callbacks that the object [o] holds: those of the list that its
    attribute [callbacks] names, none when the attribute is absent or
    [None]. *)
Definition held (h : Heap) (o : loc) : list callback :=
  match callbacks (objects h !!! o) with
  | ListAt l => cb_lists h !!! l
  | _ => []
  end.

(** From [h] to [h']: every list object, and the callbacks that every
    object holds through its attribute, still start with what they held, in
    the same order, and what was appended are handler instances; the
    objects keep their class and their attributes, and an object without an
    attribute [callbacks] is not given one. A location that holds no list
    yet counts as the empty list. *)
Definition grown (h h' : Heap) : Prop :=
  (forall l : loc,
     exists added,
       cb_lists h' !!! l = cb_lists h !!! l ++ added /\
       forallb is_lucidic added = true) /\
  (forall o : loc,
     exists added,
       held h' o = held h o ++ added /\
       forallb is_lucidic added = true) /\
  (forall o : loc,
     class_name (objects h' !!! o) = class_name (objects h !!! o) /\
     dir (objects h' !!! o) = dir (objects h !!! o) /\
     (callbacks (objects h !!! o) = NoAttribute ->
      callbacks (objects h' !!! o) = NoAttribute)).

(** Further sample states. *)
Module Scene.

(** [Sample.ended] (a client without a Session) in a process that has both
    credentials in its environment. *)
Definition configured : World :=
  {| client := client Sample.ended; steps := steps Sample.ended;
     events := events Sample.ended;
     environ := {[ "LUCIDIC_API_KEY" := "env-key"; "LUCIDIC_AGENT_ID" := "env-agent" ]};
     stdout := stdout Sample.ended; requests := requests Sample.ended;
     prompt_db := prompt_db Sample.ended; clock := clock Sample.ended |}.

(** A process that exits with a Session, a Step and an Event still open,
    and a handler of its own for SIGINT. *)
Definition exiting : lucidicai.Process :=
  {| lucidicai.process := Sample.with_event;
     lucidicai.sigint := lucidicai.Handler_function 3;
     lucidicai.main_thread := true |}.

(** [Sample.with_event], then [end_step()], [create_step()] and two
    [create_event] calls: two Steps, the second active with two Events. *)
Definition busy : World :=
  snd (lucidicai.create_event (Some "type") None None None None
    (snd (lucidicai.create_event (Some "click") None None None None
      (snd (lucidicai.create_step None None None None None None None
        (snd (lucidicai.end_step None None None None None None None
                Sample.with_event))))))).

(** A handler that saw the start of the run ["run-1"], in a process whose
    Step was ended before the run finished. *)
Definition abandoned : Env :=
  Eval vm_compute in
  let started :=
    snd (LucidicLangchainHandler.on_llm_start None [PromptStr "hello"] "run-1"
           Payload.no_kwargs Payload.listening) in
  {| world := snd (lucidicai.end_step None None None None None None None
                     (world started));
     self := self started |}.

(** A handler that saw the start of the tool run ["tool-1"]. *)
Definition tool_running : Env :=
  Eval vm_compute in
  snd (LucidicLangchainHandler.on_tool_start (Some {[ "name" := "calculator" ]})
         "6 * 7" (Payload.for_run "tool-1") Payload.listening).

(** ... and whose Event was then ended through the facade. *)
Definition ended_by_hand : Env :=
  Eval vm_compute in
  {| world := snd (lucidicai.end_event None (Some "by hand") None None None
                     (world tool_running));
     self := self tool_running |}.


(** A chat request with a system message and a human message that holds a
    text block and an image block given as a data URL in a dict. *)
Definition vision_chat : list (list BaseMessage) :=
  [[ {| msg_content := ContentStr "You are a helpful assistant." |};
     {| msg_content :=
          ContentList
            [BlockDict {| b_type := Some "text"; b_text := Some "What is this?";
                          b_image_url := None |};
             BlockDict {| b_type := Some "image_url"; b_text := None;
                          b_image_url :=
                            Some (ImageDict
                                    {[ "url" := "data:image/png;base64,iVBOR" ]}) |}] |} ]].

(** An agent without callbacks of its own that holds one LLM under a
    private name and another under a public name. *)
Definition two_llms : Heap :=
  {| objects :=
       [ {| class_name := "Agent"; callbacks := NoAttribute;
            dir := [("_fallback", Object 1%nat); ("llm", Object 2%nat)] |};
         {| class_name := "ChatAnthropic"; callbacks := IsNone; dir := [] |};
         {| class_name := "ChatOpenAI"; callbacks := ListAt 0; dir := [] |} ];
     cb_lists := [[Foreign 4]];
     printed := [] |}.

End Scene.

(** Unfolds the monad operations and the printing primitives. *)
Ltac run :=
  unfold bind, ret, raise, gets, get, modify, print, send, getitem,
    try_except in *;
  cbn [fst snd] in *.

(** * Properties *)

(** ** Running the monad *)

Lemma bind_returned {S A B} (m : M S A) (k : A -> M S B) s a s' :
  m s = (Returned a, s') -> bind m k s = k a s'.
Proof. unfold bind. intros ->. reflexivity. Qed.

Lemma bind_raised {S A B} (m : M S A) (k : A -> M S B) s e s' :
  m s = (Raised e, s') -> bind m k s = (Raised e, s').
Proof. unfold bind. intros ->. reflexivity. Qed.

Lemma call_initialized w c :
  client w = Some c -> Client.call w = (Returned c, w).
Proof. unfold Client.call, bind, get. intros ->. reflexivity. Qed.

Lemma call_uninitialized w :
  client w = None -> Client.call w = (Raised LucidicNotInitializedError, w).
Proof. unfold Client.call, bind, get. intros ->. reflexivity. Qed.

(** Enters a facade function [f] whose first statement is [client = Client()]. *)
Ltac enter H :=
  rewrite (bind_returned _ _ _ _ _ (call_initialized _ _ H)).

(** ** Facade entry points with an initialised client *)

Section Facade.

Variables (w : World) (c : Client).
Hypothesis Hclient : client w = Some c.

Section NoSession.

Hypothesis Hsession : session c = None.

Lemma update_session_no_session task ev evr ok okr :
  warns (lucidicai.update_session task ev evr ok okr) w.
Proof.
  eexists. split; [|unfold lucidicai.update_session; enter Hclient;
                    rewrite Hsession; reflexivity].
  reflexivity.
Qed.

Lemma end_session_no_session ev evr ok okr :
  warns (lucidicai.end_session ev evr ok okr) w.
Proof.
  eexists. split; [|unfold lucidicai.end_session; enter Hclient;
                    rewrite Hsession; reflexivity].
  reflexivity.
Qed.

Lemma update_step_no_session st ac go es ed sc sp :
  warns (lucidicai.update_step st ac go es ed sc sp) w.
Proof.
  eexists. split; [|unfold lucidicai.update_step; enter Hclient;
                    rewrite Hsession; reflexivity].
  reflexivity.
Qed.

Lemma end_step_no_session st ac go es ed sc sp :
  warns (lucidicai.end_step st ac go es ed sc sp) w.
Proof.
  eexists. split; [|unfold lucidicai.end_step; enter Hclient;
                    rewrite Hsession; reflexivity].
  reflexivity.
Qed.

Lemma update_event_no_session de re co mo ss :
  warns (lucidicai.update_event de re co mo ss) w.
Proof.
  eexists. split; [|unfold lucidicai.update_event; enter Hclient;
                    rewrite Hsession; reflexivity].
  reflexivity.
Qed.

Lemma end_event_no_session de re co mo ss :
  warns (lucidicai.end_event de re co mo ss) w.
Proof.
  eexists. split; [|unfold lucidicai.end_event; enter Hclient;
                    rewrite Hsession; reflexivity].
  reflexivity.
Qed.

End NoSession.

Section NoStep.

Variable s : Session.
Hypothesis Hsession : session c = Some s.
Hypothesis Hstep : active_step s = None.

Lemma update_step_no_step st ac go es ed sc sp :
  rejects (lucidicai.update_step st ac go es ed sc sp) w.
Proof.
  eexists. unfold lucidicai.update_step. enter Hclient.
  rewrite Hsession, Hstep. reflexivity.
Qed.

Lemma end_step_no_step st ac go es ed sc sp :
  rejects (lucidicai.end_step st ac go es ed sc sp) w.
Proof.
  eexists. unfold lucidicai.end_step. enter Hclient.
  rewrite Hsession, Hstep. reflexivity.
Qed.

Lemma update_event_no_step de re co mo ss :
  rejects (lucidicai.update_event de re co mo ss) w.
Proof.
  eexists. unfold lucidicai.update_event. enter Hclient.
  rewrite Hsession, Hstep. reflexivity.
Qed.

Lemma end_event_no_step de re co mo ss :
  rejects (lucidicai.end_event de re co mo ss) w.
Proof.
  eexists. unfold lucidicai.end_event. enter Hclient.
  rewrite Hsession, Hstep. reflexivity.
Qed.

End NoStep.

Section NoEvents.

Variables (s : Session) (l : loc).
Hypothesis Hsession : session c = Some s.
Hypothesis Hstep : active_step s = Some l.
Hypothesis Hevents : event_history (steps w !!! l) = [].

Lemma update_event_no_events de re co mo ss :
  rejects (lucidicai.update_event de re co mo ss) w.
Proof.
  eexists. unfold lucidicai.update_event. enter Hclient.
  rewrite Hsession, Hstep. run. rewrite Hevents. reflexivity.
Qed.

Lemma end_event_no_events de re co mo ss :
  rejects (lucidicai.end_event de re co mo ss) w.
Proof.
  eexists. unfold lucidicai.end_event. enter Hclient.
  rewrite Hsession, Hstep. run. rewrite Hevents. reflexivity.
Qed.

End NoEvents.

End Facade.

(** Before any [init] there is no client: [Client()] raises, and the facade
    functions pass the exception on (only [init] and [cleanup] catch it). *)
Lemma facade_before_init w task ev evr ok okr name variables ttl label :
  client w = None ->
  lucidicai.update_session task ev evr ok okr w
  = (Raised LucidicNotInitializedError, w) /\
  lucidicai.end_session ev evr ok okr w
  = (Raised LucidicNotInitializedError, w) /\
  lucidicai.get_prompt name variables ttl label w
  = (Raised LucidicNotInitializedError, w).
Proof.
  intros Hc.
  unfold lucidicai.update_session, lucidicai.end_session, lucidicai.get_prompt.
  rewrite !(bind_raised _ _ _ _ _ (call_uninitialized _ Hc)).
  repeat split; reflexivity.
Qed.

(** ** Update and end calls when nothing is active *)

(** C3, as stated, fails: with a Session but no active Step, [update_step]
    raises InvalidOperation to the caller instead of warning. *)
Lemma update_step_without_step_raises :
  (exists c s, client Sample.in_session = Some c /\ session c = Some s /\
               active_step s = None) /\
  lucidicai.update_step None None None None None None None Sample.in_session
  = (Raised (InvalidOperationError "No active step to update"), Sample.in_session).
Proof. split; [do 2 eexists; repeat split|]; reflexivity. Qed.

(** C3 (amended): with an initialised client, the six update and end calls
    warn and do nothing when no Session is active; when a Session is active
    without an active Step, [update_step], [end_step], [update_event] and
    [end_event] raise InvalidOperation and change nothing; and with an active
    Step that has no Event, [update_event] and [end_event] raise
    InvalidOperation and change nothing. *)
Theorem update_end_when_inactive (w : World) (c : Client)
    (task : option string) (session_eval : option Q)
    (session_eval_reason : option string) (is_successful : option bool)
    (is_successful_reason state action goal : option string)
    (eval_score : option Q)
    (eval_description screenshot screenshot_path description result : option string)
    (cost_added : option Q) (model : option string)
    (screenshots : option (list string)) :
  client w = Some c ->
  match session c with
  | None =>
      warns (lucidicai.update_session task session_eval session_eval_reason
               is_successful is_successful_reason) w /\
      warns (lucidicai.end_session session_eval session_eval_reason
               is_successful is_successful_reason) w /\
      warns (lucidicai.update_step state action goal eval_score
               eval_description screenshot screenshot_path) w /\
      warns (lucidicai.end_step state action goal eval_score
               eval_description screenshot screenshot_path) w /\
      warns (lucidicai.update_event description result cost_added model
               screenshots) w /\
      warns (lucidicai.end_event description result cost_added model
               screenshots) w
  | Some s =>
      match active_step s with
      | None =>
          rejects (lucidicai.update_step state action goal eval_score
                     eval_description screenshot screenshot_path) w /\
          rejects (lucidicai.end_step state action goal eval_score
                     eval_description screenshot screenshot_path) w /\
          rejects (lucidicai.update_event description result cost_added model
                     screenshots) w /\
          rejects (lucidicai.end_event description result cost_added model
                     screenshots) w
      | Some l =>
          match event_history (steps w !!! l) with
          | [] =>
              rejects (lucidicai.update_event description result cost_added
                         model screenshots) w /\
              rejects (lucidicai.end_event description result cost_added
                         model screenshots) w
          | _ :: _ => True
          end
      end
  end.
Proof.
  intros Hc.
  destruct (session c) as [s|] eqn:Hs.
  - destruct (active_step s) as [l|] eqn:Ha.
    + destruct (event_history (steps w !!! l)) eqn:He; [|exact I].
      split; eauto using update_event_no_events, end_event_no_events.
    + repeat split;
        eauto using update_step_no_step, end_step_no_step,
          update_event_no_step, end_event_no_step.
  - repeat split;
      eauto using update_session_no_session, end_session_no_session,
        update_step_no_session, end_step_no_session,
        update_event_no_session, end_event_no_session.
Qed.

Lemma update_end_when_inactive_witness :
  warns (lucidicai.update_session None None None None None) Sample.ended /\
  warns (lucidicai.end_session None None None None) Sample.ended /\
  warns (lucidicai.update_step None None None None None None None) Sample.ended /\
  warns (lucidicai.end_step None None None None None None None) Sample.ended /\
  warns (lucidicai.update_event None None None None None) Sample.ended /\
  warns (lucidicai.end_event None None None None None) Sample.ended.
Proof.
  exact (update_end_when_inactive Sample.ended
           {| lucidic_api_key := "key"; agent_id := "agent"; session := None;
              cl_provider := None; prompt_cache := ∅ |}
           None None None None None None None None None None None None None
           None None None None eq_refl).
Defined.

(** ** get_prompt without a Session *)

(** C10, as stated, fails: before any [init] no Session is active either,
    and there [get_prompt] raises NotInitialized instead of returning the
    empty string. *)
Lemma get_prompt_before_init_raises :
  client Sample.fresh = None /\
  lucidicai.get_prompt "greeting" None 300 "production" Sample.fresh
  = (Raised LucidicNotInitializedError, Sample.fresh).
Proof. split; reflexivity. Qed.

(** C10 (amended): with an initialised client that has no Session,
    [get_prompt] prints the warning and returns the empty string; the
    backend receives nothing (the list of requests is unchanged), no
    substitution runs and nothing is raised. *)
Theorem get_prompt_no_session (w : World) (c : Client) (prompt_name : string)
    (variables : option (list (string * string))) (cache_ttl : Z)
    (label : string) :
  client w = Some c ->
  session c = None ->
  lucidicai.get_prompt prompt_name variables cache_ttl label w
  = (Returned "",
     set_stdout (stdout w ++ [Line "[Lucidic] Warning: get_prompt called when session not initialized, and will return an empty string. Please call lai.init() first."]) w).
Proof.
  intros Hc Hs. unfold lucidicai.get_prompt. enter Hc. rewrite Hs. reflexivity.
Qed.

Lemma get_prompt_no_session_witness :
  lucidicai.get_prompt "greeting" (Some [("city", "X")]) 300 "production"
    Sample.ended
  = (Returned "",
     set_stdout (stdout Sample.ended ++ [Line "[Lucidic] Warning: get_prompt called when session not initialized, and will return an empty string. Please call lai.init() first."]) Sample.ended).
Proof.
  exact (get_prompt_no_session Sample.ended
           {| lucidic_api_key := "key"; agent_id := "agent"; session := None;
              cl_provider := None; prompt_cache := ∅ |}
           "greeting" (Some [("city", "X")]) 300 "production" eq_refl eq_refl).
Defined.

(** ** init while a Session is active *)

(** C6, as stated, fails: the credential checks come first, so an [init]
    without credentials during a Session raises APIKeyVerificationError. *)
Lemma init_in_session_without_key :
  (exists c s, client Sample.in_session = Some c /\ session c = Some s) /\
  lucidicai.init "second" None None None None None None None Sample.in_session
  = (Raised (APIKeyVerificationError
       "Make sure to either pass your API key into lai.init() or set the LUCIDIC_API_KEY environment variable."),
     Sample.in_session).
Proof. split; [do 2 eexists; split|]; reflexivity. Qed.

(** C6 (amended): while a Session is active every call to [init] fails and
    changes nothing, so no second Session is created; it fails with
    InvalidOperation when the API key and the agent id are given or set in
    the environment, and with APIKeyVerificationError when one is missing. *)
Theorem init_while_session_active (w : World) (c : Client) (s : Session)
    (session_name : string)
    (lucidic_api_key agent_id task provider mass_sim_id : option string)
    (rubrics tags : option (list string)) :
  client w = Some c ->
  session c = Some s ->
  lucidicai.init session_name lucidic_api_key agent_id task provider
    mass_sim_id rubrics tags w
  = (Raised
       match resolve lucidic_api_key "LUCIDIC_API_KEY" w,
             resolve agent_id "LUCIDIC_AGENT_ID" w with
       | Some _, Some _ =>
           InvalidOperationError
             "[Lucidic] Session already in progress. Please call lai.reset() first."
       | Some _, None =>
           APIKeyVerificationError
             "Lucidic agent ID not specified. Make sure to either pass your agent ID into lai.init() or set the LUCIDIC_AGENT_ID environment variable."
       | None, _ =>
           APIKeyVerificationError
             "Make sure to either pass your API key into lai.init() or set the LUCIDIC_API_KEY environment variable."
       end,
     w).
Proof.
  intros Hc Hs. unfold lucidicai.init, resolve, getenv.
  destruct lucidic_api_key as [k|]; [|run; destruct (environ w !! _) as [k|]];
    try reflexivity;
    (destruct agent_id as [a|]; [|run; destruct (environ w !! _) as [a|]];
     try reflexivity);
    unfold lucidicai.except_not_initialized; run;
    rewrite (call_initialized _ _ Hc), Hs; reflexivity.
Qed.

Lemma init_while_session_active_witness :
  lucidicai.init "second" (Some "key") (Some "agent") None None None None None
    Sample.in_session
  = (Raised (InvalidOperationError
       "[Lucidic] Session already in progress. Please call lai.reset() first."),
     Sample.in_session).
Proof.
  exact (init_while_session_active Sample.in_session _ _ "second" (Some "key")
           (Some "agent") None None None None None eq_refl eq_refl).
Defined.

(** ** Negative indexing *)

Lemma getitem_last {S A} (h : list A) (x : A) (s : S) :
  getitem (h ++ [x]) (-1) s = (Returned x, s).
Proof.
  unfold getitem. rewrite length_app. cbn [length].
  replace (-1 <? 0) with true by reflexivity.
  destruct (Z.ltb_spec (-1) (- Z.of_nat (length h + 1))) as [Hlt|_]; [lia|].
  replace (Z.to_nat (Z.of_nat (length h + 1) + -1)) with (length h) by lia.
  rewrite list_lookup_middle by reflexivity. reflexivity.
Qed.

Lemma getitem_nonempty_last {S A} (l : list A) (s : S) :
  l <> [] -> exists h x, l = h ++ [x] /\ getitem l (-1) s = (Returned x, s).
Proof.
  intros Hne. destruct (exists_last Hne) as (h & x & ->).
  exists h, x. split; [reflexivity | apply getitem_last].
Qed.

(** ** Ending twice *)

Section EndEvent.

Variables (w : World) (c : Client) (s : Session) (l e : loc) (hist : list loc).
Hypothesis Hclient : client w = Some c.
Hypothesis Hsession : session c = Some s.
Hypothesis Hstep : active_step s = Some l.
Hypothesis Hhistory : event_history (steps w !!! l) = hist ++ [e].

Lemma end_event_runs de re co mo ss :
  lucidicai.end_event de re co mo ss w
  = if ev_is_finished (events w !!! e)
    then (Raised (InvalidOperationError "Latest event is already finished"), w)
    else Event.update_event e
           (lucidicai.event_locals de re co mo ss (Some true)) w.
Proof.
  unfold lucidicai.end_event. enter Hclient. rewrite Hsession, Hstep.
  unfold bind at 1. unfold gets at 1. rewrite Hhistory.
  destruct (hist ++ [e]) as [|x t] eqn:Hl; [destruct hist; discriminate|].
  rewrite <- Hl. rewrite (bind_returned _ _ _ _ _ (getitem_last _ _ _)).
  unfold bind, gets. destruct (ev_is_finished (events w !!! e)); reflexivity.
Qed.

Lemma end_event_finished de re co mo ss :
  ev_is_finished (events w !!! e) = true ->
  lucidicai.end_event de re co mo ss w
  = (Raised (InvalidOperationError "Latest event is already finished"), w).
Proof. intros Hf. rewrite end_event_runs, Hf. reflexivity. Qed.

End EndEvent.

Lemma update_event_world e kw w :
  Event.update_event e kw w
  = (Returned tt,
     set_requests (requests w ++ [UpdateEvent e kw])
       (set_events (<[e := Event.updated kw (events w !!! e)]> (events w)) w)).
Proof. reflexivity. Qed.

Lemma end_event_then_finished w c s l e hist de re co mo ss :
  client w = Some c -> session c = Some s -> active_step s = Some l ->
  event_history (steps w !!! l) = hist ++ [e] ->
  (e < length (events w))%nat ->
  ev_is_finished (events (snd (lucidicai.end_event de re co mo ss w)) !!! e) = true.
Proof.
  intros Hc Hs Ha Hh He.
  rewrite (end_event_runs w c s l e hist Hc Hs Ha Hh).
  destruct (ev_is_finished (events w !!! e)) eqn:Hf; [exact Hf|].
  rewrite update_event_world. cbn.
  rewrite list_lookup_total_insert_eq by exact He. reflexivity.
Qed.

Lemma end_event_keeps w c s l e hist de re co mo ss :
  client w = Some c -> session c = Some s -> active_step s = Some l ->
  event_history (steps w !!! l) = hist ++ [e] ->
  client (snd (lucidicai.end_event de re co mo ss w)) = client w /\
  steps (snd (lucidicai.end_event de re co mo ss w)) = steps w.
Proof.
  intros Hc Hs Ha Hh.
  rewrite (end_event_runs w c s l e hist Hc Hs Ha Hh).
  destruct (ev_is_finished (events w !!! e)); split; reflexivity.
Qed.

Lemma end_session_detaches w c s ev evr ok okr :
  client w = Some c -> session c = Some s ->
  fst (lucidicai.end_session ev evr ok okr w) = Returned tt /\
  exists c', client (snd (lucidicai.end_session ev evr ok okr w)) = Some c' /\
             session c' = None.
Proof.
  intros Hc Hs. unfold lucidicai.end_session. enter Hc. rewrite Hs.
  unfold Session.end_session, Client.clear_session, Session.mutate,
    Client.mutate, send.
  run. rewrite Hc. cbn. split; [reflexivity|]. eexists. split; reflexivity.
Qed.

(** C7: [end_event] on an Event that is already finished raises
    InvalidOperation and changes nothing, in particular when it follows an
    [end_event] on the same Event; [end_session] after the Session was ended
    returns normally, having only printed a warning. *)
Theorem ending_twice (w : World) (c : Client) (s : Session)
    (session_eval session_eval' : option Q)
    (session_eval_reason session_eval_reason' : option string)
    (is_successful is_successful' : option bool)
    (is_successful_reason is_successful_reason' : option string)
    (description description' result result' : option string)
    (cost_added cost_added' : option Q) (model model' : option string)
    (screenshots screenshots' : option (list string)) :
  client w = Some c ->
  session c = Some s ->
  (fst (lucidicai.end_session session_eval session_eval_reason is_successful
          is_successful_reason w) = Returned tt /\
   warns (lucidicai.end_session session_eval' session_eval_reason'
            is_successful' is_successful_reason')
     (snd (lucidicai.end_session session_eval session_eval_reason
             is_successful is_successful_reason w))) /\
  (forall (l e : loc) (hist : list loc),
     active_step s = Some l ->
     event_history (steps w !!! l) = hist ++ [e] ->
     (e < length (events w))%nat ->
     (ev_is_finished (events w !!! e) = true ->
      lucidicai.end_event description result cost_added model screenshots w
      = (Raised (InvalidOperationError "Latest event is already finished"), w)) /\
     let w1 := snd (lucidicai.end_event description result cost_added model
                      screenshots w) in
     lucidicai.end_event description' result' cost_added' model' screenshots' w1
     = (Raised (InvalidOperationError "Latest event is already finished"), w1)).
Proof.
  intros Hc Hs. split.
  - destruct (end_session_detaches w c s session_eval session_eval_reason
                is_successful is_successful_reason Hc Hs)
      as (Hret & c' & Hc' & Hs').
    split; [exact Hret|]. eapply end_session_no_session; eassumption.
  - intros l e hist Ha Hh He. split.
    + intros Hf. eapply end_event_finished; eassumption.
    + cbv zeta.
      destruct (end_event_keeps w c s l e hist description result cost_added
                  model screenshots Hc Hs Ha Hh) as [Hc1 Hst1].
      eapply end_event_finished.
      * rewrite Hc1. exact Hc.
      * exact Hs.
      * exact Ha.
      * rewrite Hst1. exact Hh.
      * eapply end_event_then_finished; eassumption.
Qed.

Lemma ending_twice_witness :
  (fst (lucidicai.end_session None None (Some true) None Sample.with_event)
   = Returned tt /\
   warns (lucidicai.end_session None None None None)
     (snd (lucidicai.end_session None None (Some true) None Sample.with_event))) /\
  lucidicai.end_event None None None None None
    (snd (lucidicai.end_event None (Some "done") None None None Sample.with_event))
  = (Raised (InvalidOperationError "Latest event is already finished"),
     snd (lucidicai.end_event None (Some "done") None None None Sample.with_event)).
Proof.
  destruct (ending_twice Sample.with_event _ _ None None None None
              (Some true) None None None None None (Some "done") None None None
              None None None None eq_refl eq_refl) as [Hsession Hevent].
  split; [exact Hsession|].
  exact (proj2 (Hevent 0%nat 0%nat [] eq_refl eq_refl (le_n 1))).
Defined.

(** ** Updating a previous Step or Event by index *)

Section PreviousStep.

Variables (w : World) (c : Client) (s : Session).
Hypothesis Hclient : client w = Some c.
Hypothesis Hsession : session c = Some s.
Variables (state action goal : option string) (eval_score : option Q)
  (eval_description screenshot screenshot_path : option string).

Local Abbreviation call index :=
  (lucidicai.update_previous_step index state action goal eval_score
     eval_description screenshot screenshot_path).

Lemma previous_step_nonnegative index :
  index >= 0 -> rejects (call index) w.
Proof.
  intros Hi. eexists. unfold lucidicai.update_previous_step.
  enter Hclient. rewrite Hsession.
  destruct (Z.geb_spec index 0) as [_|Hlt]; [reflexivity | lia].
Qed.

Lemma previous_step_out_of_bounds index :
  Z.abs index > Z.of_nat (length (step_history s)) -> rejects (call index) w.
Proof.
  intros Hi. destruct (Z_lt_ge_dec index 0) as [Hneg|Hpos];
    [|apply previous_step_nonnegative; exact Hpos].
  eexists. unfold lucidicai.update_previous_step.
  enter Hclient. rewrite Hsession.
  destruct (Z.geb_spec index 0) as [Hge|_]; [lia|].
  destruct (Z.ltb_spec index (- Z.of_nat (length (step_history s))))
    as [_|Hge]; [reflexivity | lia].
Qed.

Lemma previous_step_latest h slot :
  step_history s = h ++ [slot] ->
  call (-1) w
  = match slot with
    | Some l =>
        Step.update_step l
          (lucidicai.step_locals state action goal eval_score eval_description
             screenshot screenshot_path None) w
    | None =>
        print "[Lucidic] Warning: update_previous_step called on an empty step. Please check your index." w
    end.
Proof.
  intros Hh. unfold lucidicai.update_previous_step.
  enter Hclient. rewrite Hsession, Hh.
  replace (-1 >=? 0) with false by reflexivity.
  rewrite length_app. cbn [length].
  destruct (Z.ltb_spec (-1) (- Z.of_nat (length h + 1))) as [Hlt|_]; [lia|].
  rewrite (bind_returned _ _ _ _ _ (getitem_last _ _ _)).
  destruct slot; reflexivity.
Qed.

End PreviousStep.

Section PreviousEvent.

Variables (w : World) (c : Client) (s : Session).
Hypothesis Hclient : client w = Some c.
Hypothesis Hsession : session c = Some s.
Variables (description result : option string) (cost_added : option Q)
  (model : option string) (screenshots : option (list string)).

Local Abbreviation call index :=
  (lucidicai.update_previous_event index description result cost_added model
     screenshots).

Lemma previous_event_nonnegative index :
  index >= 0 -> rejects (call index) w.
Proof.
  intros Hi. unfold rejects, lucidicai.update_previous_event.
  enter Hclient. rewrite Hsession.
  destruct (active_step s) as [l|]; [|eexists; reflexivity].
  unfold bind at 1, gets at 1.
  destruct (event_history (steps w !!! l)); [eexists; reflexivity|].
  destruct (Z.geb_spec index 0) as [_|Hlt]; [eexists; reflexivity | lia].
Qed.

Lemma previous_event_out_of_bounds index l :
  active_step s = Some l ->
  Z.abs index > Z.of_nat (length (event_history (steps w !!! l))) ->
  rejects (call index) w.
Proof.
  intros Ha Hi. destruct (Z_lt_ge_dec index 0) as [Hneg|Hpos];
    [|apply previous_event_nonnegative; exact Hpos].
  unfold rejects, lucidicai.update_previous_event.
  enter Hclient. rewrite Hsession, Ha.
  unfold bind at 1, gets at 1.
  destruct (event_history (steps w !!! l)) as [|x t] eqn:Hh;
    [eexists; reflexivity|].
  destruct (Z.geb_spec index 0) as [Hge|_]; [lia|].
  destruct (Z.ltb_spec index (- Z.of_nat (length (x :: t)))) as [_|Hge];
    [eexists; reflexivity | lia].
Qed.

Lemma previous_event_latest l h e :
  active_step s = Some l ->
  event_history (steps w !!! l) = h ++ [e] ->
  call (-1) w
  = Event.update_event e
      (lucidicai.event_locals description result cost_added model screenshots
         None) w.
Proof.
  intros Ha Hh. unfold lucidicai.update_previous_event.
  enter Hclient. rewrite Hsession, Ha.
  unfold bind at 1, gets at 1. rewrite Hh.
  destruct (h ++ [e]) as [|x t] eqn:Hl; [destruct h; discriminate|].
  rewrite <- Hl.
  replace (-1 >=? 0) with false by reflexivity.
  rewrite length_app. cbn [length].
  destruct (Z.ltb_spec (-1) (- Z.of_nat (length h + 1))) as [Hlt|_]; [lia|].
  rewrite (bind_returned _ _ _ _ _ (getitem_last _ _ _)). reflexivity.
Qed.

End PreviousEvent.

(** C4: with a Session whose Step history has length L, and for the Event
    history of its active Step likewise, [update_previous_step] and
    [update_previous_event] raise InvalidOperation for every index >= 0
    and for every index with |index| > L, changing nothing; and index -1
    reaches the last item of the history, the one appended most recently
    (for a Step slot that is empty, the call only prints a warning). *)
Theorem previous_index (w : World) (c : Client) (s : Session) (index : Z)
    (state action goal : option string) (eval_score : option Q)
    (eval_description screenshot screenshot_path description result : option string)
    (cost_added : option Q) (model : option string)
    (screenshots : option (list string)) :
  client w = Some c ->
  session c = Some s ->
  let previous_step i :=
    lucidicai.update_previous_step i state action goal eval_score
      eval_description screenshot screenshot_path in
  let previous_event i :=
    lucidicai.update_previous_event i description result cost_added model
      screenshots in
  (index >= 0 -> rejects (previous_step index) w) /\
  (Z.abs index > Z.of_nat (length (step_history s)) ->
   rejects (previous_step index) w) /\
  (forall h slot,
     step_history s = h ++ [slot] ->
     previous_step (-1) w
     = match slot with
       | Some l =>
           Step.update_step l
             (lucidicai.step_locals state action goal eval_score
                eval_description screenshot screenshot_path None) w
       | None =>
           print "[Lucidic] Warning: update_previous_step called on an empty step. Please check your index." w
       end) /\
  (index >= 0 -> rejects (previous_event index) w) /\
  (forall l,
     active_step s = Some l ->
     Z.abs index > Z.of_nat (length (event_history (steps w !!! l))) ->
     rejects (previous_event index) w) /\
  (forall l h e,
     active_step s = Some l ->
     event_history (steps w !!! l) = h ++ [e] ->
     previous_event (-1) w
     = Event.update_event e
         (lucidicai.event_locals description result cost_added model
            screenshots None) w).
Proof.
  intros Hc Hs. cbv zeta. repeat split.
  - eapply previous_step_nonnegative; eassumption.
  - eapply previous_step_out_of_bounds; eassumption.
  - intros h slot. eapply previous_step_latest; eassumption.
  - eapply previous_event_nonnegative; eassumption.
  - intros l. eapply previous_event_out_of_bounds; eassumption.
  - intros l h e. eapply previous_event_latest; eassumption.
Qed.

Lemma previous_index_witness :
  rejects (lucidicai.update_previous_step 0 None None None None None None None)
    Sample.with_event /\
  rejects (lucidicai.update_previous_event (-2) None None None None None)
    Sample.with_event /\
  lucidicai.update_previous_step (-1) None (Some "click") None None None None
    None Sample.with_event
  = Step.update_step 0%nat
      (lucidicai.step_locals None (Some "click") None None None None None None)
      Sample.with_event /\
  lucidicai.update_previous_event (-1) None (Some "ok") None None None
    Sample.with_event
  = Event.update_event 0%nat
      (lucidicai.event_locals None (Some "ok") None None None None)
      Sample.with_event.
Proof.
  pose proof (previous_index Sample.with_event _ _ 0 None None None None None
                None None None None None None None eq_refl eq_refl) as Hzero.
  pose proof (previous_index Sample.with_event _ _ (-2) None None None None
                None None None None None None None None eq_refl eq_refl) as Htwo.
  pose proof (previous_index Sample.with_event _ _ (-1) None (Some "click")
                None None None None None None (Some "ok") None None None
                eq_refl eq_refl) as Hlast.
  cbv zeta in Hzero, Htwo, Hlast.
  destruct Hzero as (Hstep0 & _).
  destruct Htwo as (_ & _ & _ & _ & Hevent2 & _).
  destruct Hlast as (_ & _ & Hstep1 & _ & _ & Hevent1).
  split; [apply Hstep0; discriminate|].
  split; [apply (Hevent2 0%nat eq_refl); reflexivity|].
  split; [exact (Hstep1 [] (Some 0%nat) eq_refl)|].
  exact (Hevent1 0%nat [] 0%nat eq_refl eq_refl).
Defined.

(** ** Strings: what [find] and [replace] compute *)

Module StringFacts.

Local Open Scope string_scope.

Lemma append_nil (t : string) : "" ++ t = t.
Proof. reflexivity. Qed.

Lemma append_cons (c : ascii) (s t : string) :
  String c s ++ t = String c (s ++ t).
Proof. reflexivity. Qed.

Lemma append_empty_r (s : string) : s ++ "" = s.
Proof.
  induction s as [|c s IH]; [reflexivity | now rewrite append_cons, IH].
Qed.

Lemma append_assoc (a b c : string) : (a ++ b) ++ c = a ++ b ++ c.
Proof.
  induction a as [|x a IH]; [reflexivity | now rewrite !append_cons, IH].
Qed.

Lemma length_append (a b : string) :
  String.length (a ++ b) = (String.length a + String.length b)%nat.
Proof.
  induction a as [|x a IH]; [reflexivity|].
  rewrite append_cons. cbn. now rewrite IH.
Qed.

Lemma prefix_append (a b : string) : String.prefix a (a ++ b) = true.
Proof.
  induction a as [|x a IH].
  - rewrite append_nil. destruct b; reflexivity.
  - rewrite append_cons. cbn.
    destruct (ascii_dec x x) as [_|Hne]; [exact IH | contradiction].
Qed.

Lemma prefix_inv (a s : string) :
  String.prefix a s = true -> exists b, s = a ++ b.
Proof.
  revert s. induction a as [|x a IH]; intros s H.
  - exists s. reflexivity.
  - destruct s as [|y s]; cbn in H; [discriminate|].
    destruct (ascii_dec x y) as [->|_]; [|discriminate].
    destruct (IH s H) as [b ->]. exists b. reflexivity.
Qed.

Lemma occurs_here (sub s : string) :
  String.prefix sub s = true -> occurs sub s.
Proof. intros H. destruct (prefix_inv _ _ H) as [b ->]. now exists "", b. Qed.

Lemma occurs_later (sub s : string) (c : ascii) :
  occurs sub s -> occurs sub (String c s).
Proof. intros (a & b & ->). now exists (String c a), b. Qed.

Lemma occurs_cons (sub s : string) (c : ascii) :
  occurs sub (String c s) ->
  String.prefix sub (String c s) = true \/ occurs sub s.
Proof.
  intros (a & b & H). destruct a as [|x a].
  - left. rewrite H, append_nil. apply prefix_append.
  - right. rewrite append_cons in H. injection H as _ ->. now exists a, b.
Qed.

Lemma find_from_bounds (sub s : string) (i : Z) :
  find_from sub s i = -1 \/
  i <= find_from sub s i <= i + Z.of_nat (String.length s).
Proof.
  revert i. induction s as [|c s IH]; intros i; cbn [find_from].
  - destruct (String.prefix sub ""); [right; cbn; lia | now left].
  - destruct (String.prefix sub (String c s)); [right; cbn; lia|].
    destruct (IH (i + 1)) as [H|H]; [now left | right; cbn [String.length]; lia].
Qed.


Lemma find_from_absent (sub s : string) (i : Z) :
  0 <= i -> (find_from sub s i = -1 <-> ~ occurs sub s).
Proof.
  revert i. induction s as [|c s IH]; intros i Hi; cbn [find_from].
  - destruct (String.prefix sub "") eqn:Hp.
    + split; [lia | intros H; destruct H; now apply occurs_here].
    + split; [|reflexivity]. intros _ (a & b & H).
      destruct a; [|discriminate]. rewrite append_nil in H.
      destruct sub; [discriminate | discriminate].
  - destruct (String.prefix sub (String c s)) eqn:Hp.
    + split; [lia | intros H; destruct H; now apply occurs_here].
    + rewrite (IH (i + 1)) by lia. split.
      * intros Hn Ho. destruct (occurs_cons _ _ _ Ho) as [H|H];
          [congruence | contradiction].
      * intros Hn Ho. apply Hn. now apply occurs_later.
Qed.

(** [s.find(sub) == -1] exactly when [sub] does not occur in [s]. *)
Lemma find_absent (s sub : string) : find s sub = -1 <-> ~ occurs sub s.
Proof. unfold find. apply find_from_absent. lia. Qed.

Lemma find_from_present (sub s : string) (i : Z) :
  0 <= i -> find_from sub s i <> -1 -> occurs sub s.
Proof.
  revert i. induction s as [|c s IH]; intros i Hi; cbn [find_from].
  - destruct (String.prefix sub "") eqn:Hp;
      [intros _; now apply occurs_here | congruence].
  - destruct (String.prefix sub (String c s)) eqn:Hp;
      [intros _; now apply occurs_here|].
    intros Hf. apply occurs_later. apply (IH (i + 1)); [lia | exact Hf].
Qed.

(** [sub in s] exactly when [sub] occurs in [s]. *)
Lemma contains_occurs (s sub : string) : contains s sub = true <-> occurs sub s.
Proof.
  unfold contains. destruct (Z.eqb_spec (find s sub) (-1)) as [H|H]; cbn.
  - split; [discriminate|]. intros Ho. now apply find_absent in H.
  - split; [|reflexivity]. intros _.
    apply (find_from_present sub s 0); [lia | exact H].
Qed.










End StringFacts.

(** ** Prompt resolution *)






Lemma client_get_prompt_returns w c name ttl label :
  client w = Some c ->
  exists template w',
    Client.get_prompt name ttl label w = (Returned template, w') /\
    stdout w' = stdout w.
Proof.
  intros Hc. unfold Client.get_prompt. enter Hc. run.
  unfold Client.mutate. run.
  destruct (ttl =? 0); [do 2 eexists; split; reflexivity|].
  destruct (prompt_cache c !! (name, label)) as [e|];
    [destruct (Client.entry_valid (clock w) e)|];
    do 2 eexists; split; reflexivity.
Qed.



(** The last clause of C5 fails as well: a token that follows a stray
    closing pair remains in the result, and no warning is printed. *)
Lemma get_prompt_stray_pair_unreported :
  (exists c s, client stray = Some c /\ session c = Some s) /\
  prompt_db stray "greeting" "production" = "}} {{x}}" /\
  pair_remains "}} {{x}}" /\
  fst (lucidicai.get_prompt "greeting" None 300 "production" stray)
  = Returned "}} {{x}}" /\
  stdout (snd (lucidicai.get_prompt "greeting" None 300 "production" stray))
  = stdout stray.
Proof.
  split; [do 2 eexists; split; reflexivity|].
  split; [reflexivity|].
  split; [exists "}} "%string, "x"%string, ""%string; reflexivity|].
  split; reflexivity.
Qed.



(** ** The LangChain handler on sample runs *)

Import LucidicLangchainHandler.

(** C1, on the code: after [on_llm_start] for R1, an [on_llm_end] for R1
    whose response has no generations reads the local [message] that was
    never assigned; the exception is caught and printed, the Event stays
    unfinished and R1 stays in [run_to_event]. *)
Lemma llm_end_without_generations :
  let started :=
    snd (on_llm_start None [PromptStr "What is the capital of France?"] "R1"
           Payload.no_kwargs Payload.listening) in
  let ended := on_llm_end Payload.per_token Payload.no_generations "R1" started in
  run_to_event (self started) !! "R1" = Some 0%nat /\
  ev_is_finished (events (world started) !!! 0%nat) = false /\
  fst ended = Returned tt /\
  events (world (snd ended)) = events (world started) /\
  ev_is_finished (events (world (snd ended)) !!! 0%nat) = false /\
  ev_is_successful (events (world (snd ended)) !!! 0%nat) = None /\
  run_to_event (self (snd ended)) !! "R1" = Some 0%nat /\
  stdout (world (snd ended))
  = stdout (world started) ++
      [Line "[Lucidic] Ending LLM call in Langchain Handler, ending event...";
       Line "[Lucidic] Error in event ending: cannot access local variable 'message' where it is not associated with a value";
       Traceback (UnboundLocalError "message")].
Proof. cbv zeta. repeat split; vm_compute; reflexivity. Qed.

(** C2, on the code: [on_llm_error] for a started run ends the Event
    without a success flag (it stays unset instead of becoming false); no
    cost and no result are set, the model is, and the run is removed from
    both maps. *)
Lemma llm_error_leaves_success_unset :
  let started :=
    snd (on_llm_start None [PromptStr "What is the capital of France?"] "R1"
           Payload.no_kwargs Payload.listening) in
  let failed := on_llm_error "R1" started in
  run_to_event (self started) !! "R1" = Some 0%nat /\
  fst failed = Returned tt /\
  events (world (snd failed))
  = [{| ev_description := Some (DescList ["What is the capital of France?"]);
        ev_result := None; ev_cost_added := None;
        ev_model := Some "unknown_model"; ev_screenshots := Some [];
        ev_is_finished := true; ev_is_successful := None |}] /\
  last (requests (world (snd failed)))
  = Some (UpdateEvent 0%nat
            {| kw_description := None; kw_result := None;
               kw_cost_added := None; kw_model := Some "unknown_model";
               kw_screenshots := None; kw_is_finished := Some true;
               kw_is_successful := None |}) /\
  run_to_event (self (snd failed)) !! "R1" = None /\
  run_to_model (self (snd failed)) !! "R1" = None.
Proof. cbv zeta. repeat split; vm_compute; reflexivity. Qed.

(** The sibling [on_tool_error] does pass [is_successful=False]. *)
Lemma tool_error_sets_failure :
  let started :=
    snd (on_tool_start (Some ∅) "2 + 2" (Payload.for_run "T1") Payload.listening) in
  let failed := on_tool_error (Payload.for_run "T1") started in
  fst failed = Returned tt /\
  ev_is_finished (events (world (snd failed)) !!! 0%nat) = true /\
  ev_is_successful (events (world (snd failed)) !!! 0%nat) = Some false /\
  run_to_event (self (snd failed)) !! "T1" = None.
Proof. cbv zeta. repeat split; vm_compute; reflexivity. Qed.

(** C8, on the code: [on_chat_model_start] without an active Session, for
    a message whose image block gives the URL as a plain string, calls
    [.get] on that string before it reaches the Session check; the
    AttributeError leaves the callback. No Event is created. *)
Lemma chat_start_image_url_string :
  (exists c, client (world Payload.idle) = Some c /\ session c = None) /\
  fst (on_chat_model_start None [[Payload.image_by_url]] "R1"
         Payload.no_kwargs Payload.idle)
  = Raised (AttributeError "'str' object has no attribute 'get'") /\
  events (world (snd (on_chat_model_start None [[Payload.image_by_url]] "R1"
                        Payload.no_kwargs Payload.idle)))
  = events (world Payload.idle).
Proof. split; [eexists; split; reflexivity|]. split; vm_compute; reflexivity. Qed.

(** ** Attaching the handler to a host *)

Section Along.

Variable R : Heap -> Heap -> Prop.
Hypothesis R_refl : forall h, R h h.
Hypothesis R_trans : forall h1 h2 h3, R h1 h2 -> R h2 h3 -> R h1 h3.

Lemma along_ret {A} (a : A) : along R (ret a).
Proof. intros h. apply R_refl. Qed.

Lemma along_raise {A} (e : exn) : along R (@raise Heap A e).
Proof. intros h. apply R_refl. Qed.

Lemma along_gets {A} (f : Heap -> A) : along R (gets f).
Proof. intros h. apply R_refl. Qed.

Lemma along_bind {A B} (m : M Heap A) (k : A -> M Heap B) :
  along R m -> (forall a, along R (k a)) -> along R (bind m k).
Proof.
  intros Hm Hk h. unfold bind. specialize (Hm h).
  destruct (m h) as [[a|e] h']; cbn in *; [|exact Hm].
  eapply R_trans; [exact Hm | apply Hk].
Qed.

Lemma along_try_except {A} (body : M Heap A) (handler : exn -> M Heap A) :
  along R body -> (forall e, along R (handler e)) ->
  along R (try_except body handler).
Proof.
  intros Hb Hh h. unfold try_except. specialize (Hb h).
  destruct (body h) as [[a|e] h']; cbn in *; [exact Hb|].
  eapply R_trans; [exact Hb | apply Hh].
Qed.

Lemma along_for_each {A} (xs : list A) (body : A -> M Heap unit) :
  (forall x, along R (body x)) -> along R (for_each xs body).
Proof.
  intros Hb. induction xs as [|x xs IH]; cbn [for_each].
  - apply along_ret.
  - apply along_bind; [apply Hb | intros _; exact IH].
Qed.

Hypothesis R_say : forall s, along R (Attach.say s).
Hypothesis R_attach_one :
  forall self o yes no, along R (Attach.attach_one self o yes no).

Lemma along_attach_attr self entry : along R (Attach.attach_attr self entry).
Proof.
  destruct entry as [attr_name v]. unfold Attach.attach_attr.
  apply along_try_except; [|intros e; apply R_say].
  destruct (Attach.startswith_underscore attr_name); [apply along_ret|].
  destruct v as [e|a|].
  - apply along_raise.
  - apply along_bind; [apply along_gets | intros cls; apply R_attach_one].
  - apply along_ret.
Qed.

Lemma along_attach_to_llms self host : along R (Attach.attach_to_llms self host).
Proof.
  unfold Attach.attach_to_llms.
  apply along_bind; [apply along_gets | intros cls].
  apply along_bind; [apply R_say | intros _].
  apply along_bind; [apply R_attach_one | intros _].
  apply along_bind; [apply along_gets | intros names].
  apply along_for_each. intros entry. apply along_attach_attr.
Qed.

End Along.

Lemma politely_refl h : politely h h.
Proof. intros l. lia. Qed.

Lemma politely_trans h1 h2 h3 :
  politely h1 h2 -> politely h2 h3 -> politely h1 h3.
Proof. intros H12 H23 l. specialize (H12 l). specialize (H23 l). lia. Qed.

Lemma politely_say s : along politely (Attach.say s).
Proof. intros h l. cbn. lia. Qed.

Lemma count_lucidic_snoc cbs cb :
  count_lucidic (cbs ++ [cb])
  = (count_lucidic cbs + if is_lucidic cb then 1 else 0)%nat.
Proof.
  unfold count_lucidic. rewrite filter_app, length_app. f_equal.
  destruct cb; reflexivity.
Qed.

Lemma count_lucidic_none cbs :
  existsb is_lucidic cbs = false -> count_lucidic cbs = 0%nat.
Proof.
  unfold count_lucidic. induction cbs as [|cb cbs IH]; [reflexivity|].
  cbn [existsb]. intros H. apply orb_false_iff in H as [Hcb H].
  rewrite filter_cons.
  destruct (decide (is_lucidic cb = true)) as [E|_]; [congruence|].
  exact (IH H).
Qed.

Lemma lookup_total_insert {A} `{Inhabited A} (L : list A) (i j : nat) (x : A) :
  <[i := x]> L !!! j
  = if decide (i = j /\ (i < length L)%nat) then x else L !!! j.
Proof.
  destruct (decide (i = j /\ (i < length L)%nat)) as [[-> Hlt]|Hn].
  - now apply list_lookup_total_insert_eq.
  - destruct (decide (i = j)) as [->|Hne].
    + rewrite list_insert_ge by lia. reflexivity.
    + now apply list_lookup_total_insert_ne.
Qed.

Lemma lookup_total_snoc_empty {A} (L : list (list A)) (j : nat) :
  (L ++ [[]]) !!! j = L !!! j.
Proof.
  destruct (decide (j < length L)%nat) as [Hlt|Hge].
  - now apply lookup_total_app_l.
  - rewrite !list_lookup_total_alt.
    rewrite (lookup_ge_None_2 L j) by lia.
    destruct (decide (j = length L)) as [->|Hne].
    + rewrite list_lookup_middle by reflexivity. reflexivity.
    + rewrite lookup_ge_None_2; [reflexivity|]. rewrite length_app. cbn. lia.
Qed.

(** Appending the handler to a list that holds none. *)
Lemma count_after_append (L : list (list callback)) (l j : loc) (self : nat) :
  count_lucidic (L !!! l) = 0%nat ->
  (count_lucidic (<[l := L !!! l ++ [Lucidic self]]> L !!! j)
   <= Nat.max 1 (count_lucidic (L !!! j)))%nat.
Proof.
  intros H0. rewrite lookup_total_insert. case_decide; [|lia].
  rewrite count_lucidic_snoc, H0. cbn. lia.
Qed.

Lemma politely_attach_one self o attached already :
  along politely (Attach.attach_one self o attached already).
Proof.
  intros h l.
  unfold Attach.attach_one, Attach.new_list, Attach.append,
    Attach.set_callbacks, Attach.say.
  unfold bind, gets, modify, ret. cbn.
  assert (Hnew : (cb_lists h ++ [[]]) !!! length (cb_lists h) = []).
  { rewrite lookup_total_snoc_empty, list_lookup_total_alt.
    rewrite lookup_ge_None_2 by lia. reflexivity. }
  assert (Hfresh : forall j,
            (count_lucidic
               (<[length (cb_lists h) :=
                    (cb_lists h ++ [[]]) !!! length (cb_lists h) ++ [Lucidic self]]>
                  (cb_lists h ++ [[]]) !!! j)
             <= Nat.max 1 (count_lucidic (cb_lists h !!! j)))%nat).
  { intros j. rewrite <- (lookup_total_snoc_empty (cb_lists h) j).
    apply count_after_append. rewrite Hnew. reflexivity. }
  destruct (callbacks (objects h !!! o)) as [| |l0] eqn:Hcb; cbn.
  - lia.
  - apply Hfresh.
  - destruct (cb_lists h !!! l0) as [|cb cbs] eqn:Hl0; cbn.
    + replace (existsb is_lucidic
                 ((cb_lists h ++ [[]]) !!! length (cb_lists h)))
        with false by (rewrite Hnew; reflexivity).
      cbn. apply Hfresh.
    + rewrite ?Hl0.
      destruct (existsb is_lucidic (cb :: cbs)) eqn:Hex; cbn.
      * lia.
      * rewrite ?Hl0, <- Hl0. apply count_after_append.
        rewrite Hl0. now apply count_lucidic_none.
Qed.

Lemma politely_attach_to_llms self host :
  along politely (Attach.attach_to_llms self host).
Proof.
  exact (along_attach_to_llms politely politely_refl politely_trans
           politely_say politely_attach_one self host).
Qed.

Lemma fresh_list (L : list (list callback)) (cb : callback) :
  <[length L := (L ++ [[]]) !!! length L ++ [cb]]> (L ++ [[]]) = L ++ [[cb]].
Proof.
  rewrite list_lookup_total_middle by reflexivity.
  rewrite insert_app_r_alt by lia. rewrite Nat.sub_diag. reflexivity.
Qed.

(** How one attachment changes the object graph. *)
Lemma attach_one_cases self o yes no h :
  let h' := snd (Attach.attach_one self o yes no h) in
  fst (Attach.attach_one self o yes no h) = Returned tt /\
  ((objects h' = objects h /\ cb_lists h' = cb_lists h /\
    (callbacks (objects h !!! o) = NoAttribute \/
     exists l, callbacks (objects h !!! o) = ListAt l /\
               existsb is_lucidic (cb_lists h !!! l) = true)) \/
   ((callbacks (objects h !!! o) = IsNone \/
     exists l, callbacks (objects h !!! o) = ListAt l /\ cb_lists h !!! l = []) /\
    objects h'
    = <[o := with_callbacks (ListAt (length (cb_lists h))) (objects h !!! o)]>
        (objects h) /\
    cb_lists h' = cb_lists h ++ [[Lucidic self]]) \/
   (exists l,
      callbacks (objects h !!! o) = ListAt l /\
      cb_lists h !!! l <> [] /\
      existsb is_lucidic (cb_lists h !!! l) = false /\
      objects h' = <[o := with_callbacks (ListAt l) (objects h !!! o)]> (objects h) /\
      cb_lists h' = <[l := cb_lists h !!! l ++ [Lucidic self]]> (cb_lists h))).
Proof.
  cbv zeta.
  unfold Attach.attach_one, Attach.new_list, Attach.append,
    Attach.set_callbacks, Attach.say.
  unfold bind, gets, modify, ret. cbn.
  destruct (callbacks (objects h !!! o)) as [| |l0] eqn:Hcb; cbn.
  - split; [reflexivity|]. left. auto.
  - split; [reflexivity|]. right. left.
    split; [now left|]. split; [reflexivity | apply fresh_list].
  - destruct (cb_lists h !!! l0) as [|cb cbs] eqn:Hl0; cbn.
    + rewrite list_lookup_total_middle by reflexivity. cbn.
      split; [reflexivity|]. right. left.
      split; [right; eauto|]. split; [reflexivity|].
      rewrite <- (fresh_list (cb_lists h) (Lucidic self)).
      rewrite list_lookup_total_middle by reflexivity. reflexivity.
    + rewrite ?Hl0.
      destruct (existsb is_lucidic (cb :: cbs)) eqn:Hex; cbn.
      * split; [reflexivity|]. left. split; [reflexivity|]. split; [reflexivity|].
        right. exists l0. rewrite Hl0. auto.
      * split; [reflexivity|]. right. right. exists l0.
        rewrite ?Hl0. repeat split; try reflexivity; try discriminate. exact Hex.
Qed.

Lemma callbacks_in_range (h : Heap) (o : loc) :
  callbacks (objects h !!! o) <> NoAttribute -> (o < length (objects h))%nat.
Proof.
  intros H. destruct (decide (o < length (objects h))%nat) as [|Hge]; [assumption|].
  exfalso. apply H. rewrite list_lookup_total_alt.
  rewrite lookup_ge_None_2 by lia. reflexivity.
Qed.

Lemma handler_in_range (L : list (list callback)) (l : loc) :
  existsb is_lucidic (L !!! l) = true -> (l < length L)%nat.
Proof.
  intros H. destruct (decide (l < length L)%nat) as [|Hge]; [assumption|].
  exfalso. rewrite list_lookup_total_alt, lookup_ge_None_2 in H by lia.
  discriminate.
Qed.

Lemma nonempty_in_range (L : list (list callback)) (l : loc) :
  L !!! l <> [] -> (l < length L)%nat.
Proof.
  intros H. destruct (decide (l < length L)%nat) as [|Hge]; [assumption|].
  exfalso. apply H. rewrite list_lookup_total_alt, lookup_ge_None_2 by lia.
  reflexivity.
Qed.

Lemma existsb_snoc_lucidic cbs self :
  existsb is_lucidic (cbs ++ [Lucidic self]) = true.
Proof. rewrite existsb_app. cbn. apply orb_true_r. Qed.

Lemma callbacks_after_insert (objs : list Obj) (o o' : loc) (a : callbacks_attr) :
  callbacks (objs !!! o) <> NoAttribute ->
  callbacks (<[o := with_callbacks a (objs !!! o)]> objs !!! o')
  = if decide (o = o') then a else callbacks (objs !!! o').
Proof.
  intros Hin. rewrite lookup_total_insert.
  destruct (decide (o = o')) as [->|Hne].
  - destruct (decide (o' = o' /\ (o' < length objs)%nat)) as [_|Hn]; [reflexivity|].
    exfalso. apply Hn. split; [reflexivity|].
    destruct (decide (o' < length objs)%nat) as [|Hge]; [assumption|].
    exfalso. apply Hin. rewrite list_lookup_total_alt, lookup_ge_None_2 by lia.
    reflexivity.
  - destruct (decide (o = o' /\ (o < length objs)%nat)) as [[E _]|_];
      [contradiction | reflexivity].
Qed.

Lemma dir_after_insert (objs : list Obj) (o o' : loc) (a : callbacks_attr) :
  dir (<[o := with_callbacks a (objs !!! o)]> objs !!! o') = dir (objs !!! o').
Proof.
  rewrite lookup_total_insert.
  destruct (decide (o = o' /\ (o < length objs)%nat)) as [[-> _]|_]; reflexivity.
Qed.

(** After one attachment the object is attached, what was attached stays
    attached, and no object has other attributes than before. *)
Lemma attach_one_settles self o yes no h :
  let h' := snd (Attach.attach_one self o yes no h) in
  attached h' o /\
  (forall o', attached h o' -> attached h' o') /\
  (forall o', dir (objects h' !!! o') = dir (objects h !!! o')).
Proof.
  cbv zeta.
  destruct (attach_one_cases self o yes no h)
    as (_ & [(Hobj & Hl & Hwhy) | [(Hwhy & Hobj & Hl) | (l & Hcb & Hne & Hex & Hobj & Hl)]]);
    unfold attached; rewrite Hobj, Hl.
  - split; [|split; [tauto | reflexivity]].
    destruct Hwhy as [-> | (l & -> & Hex)]; [exact I | exact Hex].
  - assert (Hin : callbacks (objects h !!! o) <> NoAttribute).
    { destruct Hwhy as [-> | (l & -> & _)]; discriminate. }
    split; [|split].
    + rewrite callbacks_after_insert by exact Hin.
      rewrite decide_True by reflexivity.
      rewrite list_lookup_total_middle by reflexivity. reflexivity.
    + intros o'. rewrite callbacks_after_insert by exact Hin.
      destruct (decide (o = o')) as [<-|Hne].
      * intros _. rewrite list_lookup_total_middle by reflexivity. reflexivity.
      * destruct (callbacks (objects h !!! o')) as [| |l']; [tauto | tauto |].
        intros Hex. rewrite lookup_total_app_l by now apply handler_in_range.
        exact Hex.
    + intros o'. apply dir_after_insert.
  - assert (Hin : callbacks (objects h !!! o) <> NoAttribute)
      by (rewrite Hcb; discriminate).
    assert (Hl' : forall l', existsb is_lucidic (cb_lists h !!! l') = true ->
                  existsb is_lucidic
                    (<[l := cb_lists h !!! l ++ [Lucidic self]]> (cb_lists h) !!! l') = true).
    { intros l' H. rewrite lookup_total_insert. case_decide; [|exact H].
      apply existsb_snoc_lucidic. }
    split; [|split].
    + rewrite callbacks_after_insert by exact Hin.
      rewrite decide_True by reflexivity.
      rewrite lookup_total_insert.
      rewrite decide_True by (split; [reflexivity | now apply nonempty_in_range]).
      apply existsb_snoc_lucidic.
    + intros o'. rewrite callbacks_after_insert by exact Hin.
      destruct (decide (o = o')) as [<-|Hno].
      * rewrite Hcb. apply Hl'.
      * destruct (callbacks (objects h !!! o')) as [| |l']; [tauto | tauto |].
        apply Hl'.
    + intros o'. apply dir_after_insert.
Qed.

(** Attaching to an attached object changes nothing in the graph. *)
Lemma attach_one_attached self o yes no h :
  attached h o ->
  objects (snd (Attach.attach_one self o yes no h)) = objects h /\
  cb_lists (snd (Attach.attach_one self o yes no h)) = cb_lists h.
Proof.
  unfold attached. intros Hat.
  destruct (attach_one_cases self o yes no h)
    as (_ & [(Hobj & Hl & _) | [(Hwhy & _) | (l & Hcb & _ & Hex & _)]]).
  - split; assumption.
  - exfalso. destruct Hwhy as [E | (l & E & Hl)]; rewrite E in Hat;
      [exact Hat | rewrite Hl in Hat; discriminate].
  - exfalso. rewrite Hcb in Hat. congruence.
Qed.

Lemma settling_refl h : settling h h.
Proof. split; [tauto | reflexivity]. Qed.

Lemma settling_trans h1 h2 h3 : settling h1 h2 -> settling h2 h3 -> settling h1 h3.
Proof.
  intros [Ha Hd] [Ha' Hd']. split.
  - intros o H. apply Ha', Ha, H.
  - intros o. rewrite Hd', Hd. reflexivity.
Qed.

Lemma attached_same_graph h h' o :
  same_graph h h' -> attached h o -> attached h' o.
Proof. intros [Ho Hl]. unfold attached. rewrite Ho, Hl. tauto. Qed.

Lemma same_graph_settling h h' : same_graph h h' -> settling h h'.
Proof.
  intros Hg. split.
  - intros o. now apply attached_same_graph.
  - intros o. destruct Hg as [-> _]. reflexivity.
Qed.

Lemma settling_say s : along settling (Attach.say s).
Proof. intros h. apply same_graph_settling. split; reflexivity. Qed.

Lemma settling_attach_one self o yes no :
  along settling (Attach.attach_one self o yes no).
Proof.
  intros h. destruct (attach_one_settles self o yes no h) as (_ & Ha & Hd).
  split; assumption.
Qed.

Lemma returns_eq {S A} (m : M S A) (s : S) (a : A) :
  fst (m s) = Returned a -> m s = (Returned a, snd (m s)).
Proof. destruct (m s) as [r s']. cbn. intros ->. reflexivity. Qed.

Lemma attach_one_returns self o yes no h :
  fst (Attach.attach_one self o yes no h) = Returned tt.
Proof. apply attach_one_cases. Qed.

Lemma attach_attr_returns self entry h :
  fst (Attach.attach_attr self entry h) = Returned tt.
Proof.
  destruct entry as [attr_name v]. unfold Attach.attach_attr, try_except.
  destruct (Attach.startswith_underscore attr_name); [reflexivity|].
  destruct v as [e|a|]; [reflexivity | | reflexivity].
  unfold bind at 1, gets at 1.
  rewrite (returns_eq _ _ _ (attach_one_returns _ _ _ _ _)). reflexivity.
Qed.

Lemma for_each_attrs_step self entry names h :
  for_each (entry :: names) (Attach.attach_attr self) h
  = for_each names (Attach.attach_attr self)
      (snd (Attach.attach_attr self entry h)).
Proof.
  cbn [for_each].
  exact (bind_returned _ (fun _ => for_each names (Attach.attach_attr self)) h tt _
           (returns_eq _ _ _ (attach_attr_returns self entry h))).
Qed.

Lemma for_each_attrs_returns self names h :
  fst (for_each names (Attach.attach_attr self) h) = Returned tt.
Proof.
  revert h. induction names as [|entry names IH]; intros h; [reflexivity|].
  rewrite for_each_attrs_step. apply IH.
Qed.

Lemma attach_attr_object self name a h :
  Attach.startswith_underscore name = false ->
  snd (Attach.attach_attr self (name, Object a) h)
  = snd (Attach.attach_one self a
           ("[Lucidic] Successfully attached to " ++ class_name (objects h !!! a)
              ++ " in " ++ name)%string
           ("[Lucidic] Already attached to " ++ class_name (objects h !!! a)
              ++ " in " ++ name)%string h).
Proof.
  intros Hu. unfold Attach.attach_attr, try_except. rewrite Hu.
  unfold bind at 1, gets at 1.
  rewrite (returns_eq _ _ _ (attach_one_returns _ _ _ _ _)). reflexivity.
Qed.

Lemma settling_attrs self names :
  along settling (for_each names (Attach.attach_attr self)).
Proof.
  apply (along_for_each settling settling_refl settling_trans).
  intros entry.
  apply (along_attach_attr settling settling_refl settling_trans settling_say
           settling_attach_one).
Qed.

(** The loop over the attributes leaves every visited object attached. *)
Lemma for_each_attrs_establish self names h a :
  visited names a ->
  attached (snd (for_each names (Attach.attach_attr self) h)) a.
Proof.
  revert h. induction names as [|entry names IH]; intros h (name & Hin & Hu).
  - now apply elem_of_nil in Hin.
  - rewrite for_each_attrs_step.
    apply elem_of_cons in Hin as [<-|Hin].
    + destruct (settling_attrs self names
                  (snd (Attach.attach_attr self (name, Object a) h)))
        as [Hkeep _].
      apply Hkeep. rewrite attach_attr_object by exact Hu.
      exact (proj1 (attach_one_settles self a _ _ h)).
    + apply IH. exists name. split; assumption.
Qed.

(** The host is announced and attached, then its attributes are. *)
Lemma attach_to_llms_runs self host h :
  let cls := class_name (objects h !!! host) in
  let hs := snd (Attach.say ("[Lucidic] Attempting to attach to " ++ cls)%string h) in
  let ha := snd (Attach.attach_one self host
                   ("[Lucidic] Successfully attached to " ++ cls)%string
                   ("[Lucidic] Already attached to " ++ cls)%string hs) in
  Attach.attach_to_llms self host h
  = for_each (dir (objects ha !!! host)) (Attach.attach_attr self) ha.
Proof.
  cbv zeta. unfold Attach.attach_to_llms.
  unfold bind at 1, gets at 1.
  erewrite bind_returned by reflexivity.
  rewrite (bind_returned _ _ _ _ _
             (returns_eq _ _ _ (attach_one_returns _ _ _ _ _))).
  reflexivity.
Qed.

(** The first call: the host and every visited attribute end attached. *)
Lemma attach_establishes self host h :
  let h1 := snd (Attach.attach_to_llms self host h) in
  fst (Attach.attach_to_llms self host h) = Returned tt /\
  attached h1 host /\
  (forall a, visited (dir (objects h1 !!! host)) a -> attached h1 a).
Proof.
  cbv zeta. rewrite attach_to_llms_runs.
  set (hs := snd (Attach.say _ h)).
  set (ha := snd (Attach.attach_one self host _ _ hs)).
  set (names := dir (objects ha !!! host)).
  destruct (settling_attrs self names ha) as [Hkeep Hdir].
  split; [apply for_each_attrs_returns|]. split.
  - apply Hkeep. exact (proj1 (attach_one_settles self host _ _ hs)).
  - rewrite Hdir. fold names. intros a. apply for_each_attrs_establish.
Qed.

Lemma same_graph_refl h : same_graph h h.
Proof. split; reflexivity. Qed.

Lemma same_graph_trans h1 h2 h3 :
  same_graph h1 h2 -> same_graph h2 h3 -> same_graph h1 h3.
Proof. intros [Ho Hl] [Ho' Hl']. split; congruence. Qed.

Lemma attach_attr_attached self entry h :
  (forall a, visited [entry] a -> attached h a) ->
  same_graph h (snd (Attach.attach_attr self entry h)).
Proof.
  destruct entry as [name v]. intros Hat.
  unfold Attach.attach_attr, try_except.
  destruct (Attach.startswith_underscore name) eqn:Hu; [apply same_graph_refl|].
  destruct v as [e|a|]; [split; reflexivity | | apply same_graph_refl].
  unfold bind at 1, gets at 1.
  rewrite (returns_eq _ _ _ (attach_one_returns _ _ _ _ _)). cbn [snd].
  apply attach_one_attached. apply Hat.
  exists name. split; [apply list_elem_of_singleton; reflexivity | exact Hu].
Qed.

(** The loop over attributes that are all attached changes nothing. *)
Lemma for_each_attrs_attached self names h :
  (forall a, visited names a -> attached h a) ->
  same_graph h (snd (for_each names (Attach.attach_attr self) h)).
Proof.
  revert h. induction names as [|entry names IH]; intros h Hat.
  - apply same_graph_refl.
  - rewrite for_each_attrs_step.
    assert (Hhead : same_graph h (snd (Attach.attach_attr self entry h))).
    { apply attach_attr_attached. intros a (name & Hin & Hu). apply Hat.
      apply list_elem_of_singleton in Hin as <-.
      exists name. split; [apply elem_of_cons; now left | exact Hu]. }
    eapply same_graph_trans; [exact Hhead|].
    apply IH. intros a (name & Hin & Hu).
    apply (attached_same_graph h); [exact Hhead|].
    apply Hat. exists name. split; [apply elem_of_cons; now right | exact Hu].
Qed.

(** A call on a host that is attached, with its visited attributes. *)
Lemma attach_attached self host h :
  attached h host ->
  (forall a, visited (dir (objects h !!! host)) a -> attached h a) ->
  same_graph h (snd (Attach.attach_to_llms self host h)).
Proof.
  intros Hhost Hattrs. rewrite attach_to_llms_runs.
  set (hs := snd (Attach.say _ h)).
  set (ha := snd (Attach.attach_one self host _ _ hs)).
  assert (Hs : same_graph h hs) by (split; reflexivity).
  assert (Ha : same_graph hs ha).
  { apply attach_one_attached. now apply (attached_same_graph h). }
  assert (Hsa : same_graph h ha) by exact (same_graph_trans _ _ _ Hs Ha).
  eapply same_graph_trans; [exact Hsa|].
  apply for_each_attrs_attached. intros a Hv.
  apply (attached_same_graph h); [exact Hsa|]. apply Hattrs.
  destruct Hsa as [<- _]. exact Hv.
Qed.

(** The second of two calls changes neither an object nor a list. *)
Lemma attach_twice_same self host h :
  let h1 := snd (Attach.attach_to_llms self host h) in
  let h2 := snd (bind (Attach.attach_to_llms self host)
                   (fun _ => Attach.attach_to_llms self host) h) in
  objects h2 = objects h1 /\ cb_lists h2 = cb_lists h1.
Proof.
  cbv zeta. destruct (attach_establishes self host h) as (Hret & Hhost & Hattrs).
  rewrite (bind_returned _ _ _ _ _ (returns_eq _ _ _ Hret)).
  apply attach_attached; assumption.
Qed.

(** C9, as stated, fails: on a host whose callbacks already hold two
    handler instances, attaching twice leaves the two of them. *)
Lemma attach_keeps_two_handlers :
  count_lucidic (cb_lists Hosts.crowded !!! 0%nat) = 2%nat /\
  count_lucidic
    (cb_lists (snd (bind (Attach.attach_to_llms 1 0%nat)
                      (fun _ => Attach.attach_to_llms 1 0%nat) Hosts.crowded))
       !!! 0%nat) = 2%nat.
Proof. split; reflexivity. Qed.

(** C9 (amended): attachment is idempotent and adds no second handler.
    For every host object, the second of two calls of [attach_to_llms]
    with the same handler changes no object and no callbacks collection;
    and after the two calls every collection holds at most max(1, n)
    handler instances, where n is the number it held before them (0 for a
    collection the calls created): at most one in every collection that
    held at most one, since the handler is appended only where none is
    present. *)
Theorem attach_twice_adds_no_second (h : Heap) (self : nat) (host l : loc) :
  let h1 := snd (Attach.attach_to_llms self host h) in
  let h2 := snd (bind (Attach.attach_to_llms self host)
                   (fun _ => Attach.attach_to_llms self host) h) in
  (count_lucidic (cb_lists h2 !!! l)
   <= Nat.max 1 (count_lucidic (cb_lists h !!! l)))%nat /\
  objects h2 = objects h1 /\
  cb_lists h2 = cb_lists h1.
Proof.
  cbv zeta. split; [|apply attach_twice_same].
  revert l.
  apply (along_bind politely politely_trans (Attach.attach_to_llms self host)
           (fun _ => Attach.attach_to_llms self host)).
  - apply politely_attach_to_llms.
  - intros _. apply politely_attach_to_llms.
Qed.

(** On the sample agent both collections end with exactly one handler. *)
Lemma attach_twice_on_agent :
  let h' := snd (bind (Attach.attach_to_llms 7 0%nat)
                   (fun _ => Attach.attach_to_llms 7 0%nat) Hosts.agent) in
  cb_lists h' = [[Foreign 0; Lucidic 7]; [Lucidic 7]] /\
  callbacks (objects h' !!! 1%nat) = ListAt 1 /\
  snd (Attach.attach_to_llms 7 0%nat Hosts.agent)
  = {| objects := objects h'; cb_lists := cb_lists h';
       printed := printed (snd (Attach.attach_to_llms 7 0%nat Hosts.agent)) |}.
Proof. cbv zeta. repeat split; vm_compute; reflexivity. Qed.

(** ** The LangChain handler in general *)

Lemma lift_returned {A} (m : M World A) w h a w' :
  m w = (Returned a, w') ->
  lift m {| world := w; self := h |} = (Returned a, {| world := w'; self := h |}).
Proof. unfold lift. cbn. intros ->. reflexivity. Qed.

Lemma try_except_returned {S A} (body : M S A) handler s a s' :
  body s = (Returned a, s') -> try_except body handler s = (Returned a, s').
Proof. unfold try_except. intros ->. reflexivity. Qed.

Lemma try_except_raised {S A} (body : M S A) handler s e s' :
  body s = (Raised e, s') -> try_except body handler s = handler e s'.
Proof. unfold try_except. intros ->. reflexivity. Qed.

Lemma create_event_runs l kw w :
  st_is_finished (steps w !!! l) = false ->
  Step.create_event l kw w = (Returned (length (events w)), created l kw w).
Proof.
  intros Hf. unfold Step.create_event. unfold bind at 1, gets at 1.
  rewrite Hf. reflexivity.
Qed.

Section Callbacks.

Variables (w : World) (h : Handler) (c : Client).
Hypothesis Hclient : client w = Some c.

Lemma guard_runs :
  session_and_active_step {| world := w; self := h |}
  = (Returned (session c ≫= active_step), {| world := w; self := h |}).
Proof.
  unfold session_and_active_step.
  rewrite (bind_returned _ _ _ _ _
             (lift_returned _ _ _ _ _ (call_initialized _ _ Hclient))).
  destruct (session c) eqn:Hs; [|reflexivity].
  rewrite (bind_returned _ _ _ _ _
             (lift_returned _ _ _ _ _ (call_initialized _ _ Hclient))).
  rewrite Hs. reflexivity.
Qed.

Lemma the_active_step_runs s l :
  session c = Some s -> active_step s = Some l ->
  the_active_step {| world := w; self := h |}
  = (Returned l, {| world := w; self := h |}).
Proof.
  intros Hs Ha. unfold the_active_step.
  rewrite (bind_returned _ _ _ _ _
             (lift_returned _ _ _ _ _ (call_initialized _ _ Hclient))).
  rewrite Hs, Ha. reflexivity.
Qed.

End Callbacks.

(** Steps through [m;; k] when [m] returns; [tac] proves what it returns. *)
Ltac next_by tac := erewrite bind_returned by tac.
Ltac next := erewrite bind_returned by reflexivity.

Lemma on_llm_start_no_step w h c serialized prompts run_id kwargs :
  client w = Some c ->
  session c ≫= active_step = None ->
  on_llm_start serialized prompts run_id kwargs {| world := w; self := h |}
  = (Returned tt,
     {| world := start_refused w;
        self := started_model serialized kwargs run_id h |}).
Proof.
  intros Hc Hnone. unfold on_llm_start.
  destruct (split_prompts prompts) as [text images].
  next. next. next_by ltac:(apply (guard_runs _ _ c); exact Hc).
  rewrite Hnone. reflexivity.
Qed.

Lemma on_llm_start_creates w h c s l serialized prompts run_id kwargs :
  client w = Some c -> session c = Some s -> active_step s = Some l ->
  st_is_finished (steps w !!! l) = false ->
  on_llm_start serialized prompts run_id kwargs {| world := w; self := h |}
  = (Returned tt,
     {| world :=
          created l
            (handler_kwargs (Some (DescList (split_prompts prompts).1))
               (Some (split_prompts prompts).2))
            (start_announced w);
        self := set_run_to_event
                  (<[run_id := length (events w)]> (run_to_event h))
                  (started_model serialized kwargs run_id h) |}).
Proof.
  intros Hc Hs Ha Hf. unfold on_llm_start.
  destruct (split_prompts prompts) as [text images]. cbn [fst snd].
  next. next. next_by ltac:(apply (guard_runs _ _ c); exact Hc).
  rewrite Hs. cbn [mbind option_bind]. rewrite Ha.
  unfold try_except. cbn [world self].
  next_by ltac:(eapply the_active_step_runs; [exact Hc | exact Hs | exact Ha]).
  next_by ltac:(apply lift_returned, create_event_runs; exact Hf).
  reflexivity.
Qed.

Lemma chat_scan_runs (messages : list (list BaseMessage)) :
  match messages with
  | first :: _ => of_outcome (scan_messages first ([], []))
  | [] => ret ([], [])
  end = @of_outcome Env _ (scanned messages).
Proof. destruct messages; reflexivity. Qed.

Lemma on_chat_model_start_no_step w h c serialized messages run_id kwargs acc :
  client w = Some c ->
  session c ≫= active_step = None ->
  scanned messages = Returned acc ->
  on_chat_model_start serialized messages run_id kwargs {| world := w; self := h |}
  = (Returned tt,
     {| world := start_refused w;
        self := started_model serialized kwargs run_id h |}).
Proof.
  intros Hc Hnone Hscan. unfold on_chat_model_start.
  next. next. rewrite chat_scan_runs, Hscan. next.
  destruct acc as [text images_b64].
  next_by ltac:(apply (guard_runs _ _ c); exact Hc).
  rewrite Hnone. reflexivity.
Qed.

(** A content block that breaks the scan breaks the callback, whatever the
    state of the Session. *)
Lemma on_chat_model_start_raises w h serialized messages run_id kwargs e :
  scanned messages = Raised e ->
  on_chat_model_start serialized messages run_id kwargs {| world := w; self := h |}
  = (Raised e,
     {| world := start_announced w;
        self := started_model serialized kwargs run_id h |}).
Proof.
  intros Hscan. unfold on_chat_model_start.
  next. next. rewrite chat_scan_runs, Hscan. reflexivity.
Qed.

Section LlmEnd.

Variables (calculate_cost : string -> option usage -> outcome Q).
Variables (w : World) (h : Handler) (c : Client) (s : Session) (l : loc).
Variable run_id : string.
Hypothesis Hclient : client w = Some c.
Hypothesis Hsession : session c = Some s.
Hypothesis Hstep : active_step s = Some l.

Local Abbreviation model := (default "unknown" (run_to_model h !! run_id)).

(** The statements of [on_llm_end] before the Session check. *)
Lemma bound_runs (response : LLMResult) :
  match generations response with
  | (g :: _) :: _ =>
      match g with
      | ChatGeneration message =>
          cost <- of_outcome (calculate_cost model (usage_metadata message)) ;;
          ret (Some cost, Some message)
      | Generation _ =>
          raise (AttributeError "'Generation' object has no attribute 'message'")
      end
  | _ => ret (None, None)
  end = @of_outcome Env _ (first_bound calculate_cost model response).
Proof.
  unfold first_bound, first_generation.
  destruct (generations response) as [|[|[text|m] gs] others];
    try reflexivity.
  destruct (calculate_cost model (usage_metadata m)); reflexivity.
Qed.

Lemma bound_without_generation (response : LLMResult) :
  first_generation response = None ->
  first_bound calculate_cost model response = Returned (None, None).
Proof. unfold first_bound. intros ->. reflexivity. Qed.

Lemma on_llm_end_finishes e message rest others cost :
  run_to_event h !! run_id = Some e ->
  ev_is_finished (events w !!! e) = false ->
  calculate_cost model (usage_metadata message) = Returned cost ->
  on_llm_end calculate_cost
    {| generations := (ChatGeneration message :: rest) :: others |} run_id
    {| world := w; self := h |}
  = (Returned tt,
     {| world :=
          snd (Event.update_event e
                 (finishing (Some model) (Some cost)
                    (Some (pretty_repr message)) (Some true))
                 (end_announced w));
        self := forgotten run_id h |}).
Proof.
  intros He Hf Hcost. unfold on_llm_end.
  next. next. cbn [generations world self]. rewrite Hcost. next.
  cbv beta iota.
  next_by ltac:(apply (guard_runs _ _ c); exact Hclient).
  rewrite Hsession. cbn [mbind option_bind]. rewrite Hstep.
  erewrite bind_returned; cycle 1.
  { apply try_except_returned.
    next. cbn [world self]. rewrite He. next.
    cbn [world self events set_stdout]. rewrite Hf. cbn [negb].
    reflexivity. }
  reflexivity.
Qed.

Lemma on_llm_end_miss response bound :
  run_to_event h !! run_id = None ->
  first_bound calculate_cost model response = Returned bound ->
  on_llm_end calculate_cost response run_id {| world := w; self := h |}
  = (Returned tt,
     {| world :=
          set_stdout
            (stdout (end_announced w) ++ [Line "[Lucidic] No event found"]) w;
        self := set_run_to_model (delete run_id (run_to_model h)) h |}).
Proof.
  intros He Hb. unfold on_llm_end.
  next. next. cbn [world self]. rewrite bound_runs, Hb.
  next. destruct bound as [cost message]. cbv beta iota.
  next_by ltac:(apply (guard_runs _ _ c); exact Hclient).
  rewrite Hsession. cbn [mbind option_bind]. rewrite Hstep.
  erewrite bind_returned; cycle 1.
  { apply try_except_returned. next. cbn [world self]. rewrite He. reflexivity. }
  reflexivity.
Qed.

(** The run has an unfinished Event and the response no generation: the
    read of [message] fails, and the failure is only printed. *)
Lemma on_llm_end_unbound e response :
  run_to_event h !! run_id = Some e ->
  ev_is_finished (events w !!! e) = false ->
  first_generation response = None ->
  on_llm_end calculate_cost response run_id {| world := w; self := h |}
  = (Returned tt,
     {| world :=
          set_stdout
            ((stdout (end_announced w) ++
                [Line "[Lucidic] Error in event ending: cannot access local variable 'message' where it is not associated with a value"]) ++
               [Traceback (UnboundLocalError "message")]) w;
        self := set_run_to_model (delete run_id (run_to_model h)) h |}).
Proof.
  intros He Hf Hg. unfold on_llm_end.
  next. next. cbn [world self].
  rewrite bound_runs, (bound_without_generation response Hg).
  next. cbv beta iota.
  next_by ltac:(apply (guard_runs _ _ c); exact Hclient).
  rewrite Hsession. cbn [mbind option_bind]. rewrite Hstep.
  erewrite bind_returned; cycle 1.
  { erewrite try_except_raised; cycle 1.
    { next. cbn [world self]. rewrite He. next.
      cbn [world self events set_stdout]. rewrite Hf. cbn [negb].
      reflexivity. }
    reflexivity. }
  reflexivity.
Qed.

Lemma on_llm_error_finishes e :
  run_to_event h !! run_id = Some e ->
  ev_is_finished (events w !!! e) = false ->
  let w' := snd (Event.update_event e (finishing (Some model) None None None)
                   (error_announced w)) in
  on_llm_error run_id {| world := w; self := h |}
  = (Returned tt,
     {| world := set_stdout (stdout w' ++ [Line "[Lucidic] Ended event with error"]) w';
        self := forgotten run_id h |}).
Proof.
  intros He Hf. cbv zeta. unfold on_llm_error.
  next. next. cbn [world self].
  next_by ltac:(apply (guard_runs _ _ c); exact Hclient).
  rewrite Hsession. cbn [mbind option_bind]. rewrite Hstep.
  erewrite bind_returned; cycle 1.
  { apply try_except_returned.
    next. cbn [world self]. rewrite He. next.
    cbn [world self events set_stdout]. rewrite Hf. cbn [negb].
    reflexivity. }
  reflexivity.
Qed.

End LlmEnd.

Lemma forgotten_started serialized kwargs run_id e h :
  forgotten run_id
    (set_run_to_event (<[run_id := e]> (run_to_event h))
       (started_model serialized kwargs run_id h))
  = forgotten run_id h.
Proof.
  unfold forgotten, started_model. cbn.
  rewrite !delete_insert_eq. reflexivity.
Qed.

Lemma forgotten_twice run_id h :
  set_run_to_model (delete run_id (run_to_model (forgotten run_id h)))
    (forgotten run_id h)
  = forgotten run_id h.
Proof. unfold forgotten, set_run_to_model. cbn. rewrite delete_delete_eq. reflexivity. Qed.

(** A start and an end for the same run, when the response carries a chat
    generation whose cost the pricing gives: one Event is appended and
    finished with success, the run leaves both maps, and a further end for
    the run (whose statements before the Session check get through)
    changes nothing but the printed lines. *)
Theorem llm_start_end_end calculate_cost w h c s l serialized prompts run_id
    kwargs message rest others response cost bound :
  client w = Some c -> session c = Some s -> active_step s = Some l ->
  st_is_finished (steps w !!! l) = false ->
  calculate_cost (_get_model_name serialized kwargs) (usage_metadata message)
  = Returned cost ->
  first_bound calculate_cost "unknown" response = Returned bound ->
  let model := _get_model_name serialized kwargs in
  let started :=
    snd (on_llm_start serialized prompts run_id kwargs {| world := w; self := h |}) in
  let ended :=
    on_llm_end calculate_cost
      {| generations := (ChatGeneration message :: rest) :: others |} run_id
      started in
  let again := on_llm_end calculate_cost response run_id (snd ended) in
  fst ended = Returned tt /\
  events (world (snd ended))
  = events w ++
      [{| ev_description := Some (DescList (split_prompts prompts).1);
          ev_result := Some (pretty_repr message);
          ev_cost_added := Some cost;
          ev_model := Some model;
          ev_screenshots := Some (split_prompts prompts).2;
          ev_is_finished := true;
          ev_is_successful := Some true |}] /\
  self (snd ended) = forgotten run_id h /\
  fst again = Returned tt /\
  self (snd again) = self (snd ended) /\
  events (world (snd again)) = events (world (snd ended)) /\
  steps (world (snd again)) = steps (world (snd ended)) /\
  requests (world (snd again)) = requests (world (snd ended)).
Proof.
  intros Hc Hs Ha Hf Hcost Hb. cbv zeta.
  rewrite (on_llm_start_creates w h c s l _ _ _ _ Hc Hs Ha Hf). cbn [snd].
  set (kw := handler_kwargs _ _).
  set (h1 := set_run_to_event _ _).
  assert (He1 : run_to_event h1 !! run_id = Some (length (events w)))
    by apply lookup_insert_eq.
  assert (Hm1 : default "unknown" (run_to_model h1 !! run_id)
                = _get_model_name serialized kwargs).
  { unfold h1, started_model. cbn. rewrite lookup_insert_eq. reflexivity. }
  set (w1 := created l kw (start_announced w)).
  assert (Hc1 : client w1 = Some c) by exact Hc.
  assert (Hf1 : ev_is_finished (events w1 !!! length (events w)) = false).
  { cbn. rewrite list_lookup_total_middle by reflexivity. reflexivity. }
  assert (Hcost1 : calculate_cost (default "unknown" (run_to_model h1 !! run_id))
                     (usage_metadata message) = Returned cost)
    by (rewrite Hm1; exact Hcost).
  rewrite (on_llm_end_finishes calculate_cost w1 h1 c s l run_id Hc1 Hs Ha _
             message rest others cost He1 Hf1 Hcost1).
  cbn [fst snd world self]. rewrite Hm1.
  unfold h1. rewrite forgotten_started.
  set (w2 := snd (Event.update_event _ _ _)).
  assert (Hc2 : client w2 = Some c) by exact Hc.
  split; [reflexivity|]. split.
  { cbn. rewrite list_lookup_total_middle by reflexivity.
    rewrite insert_app_r_alt by lia. rewrite Nat.sub_diag. reflexivity. }
  split; [reflexivity|].
  assert (Hb2 : first_bound calculate_cost
                  (default "unknown" (run_to_model (forgotten run_id h) !! run_id))
                  response = Returned bound).
  { unfold forgotten. cbn [run_to_model]. rewrite lookup_delete_eq. exact Hb. }
  rewrite (on_llm_end_miss calculate_cost w2 (forgotten run_id h) c s l run_id
             Hc2 Hs Ha response bound (lookup_delete_eq _ _) Hb2).
  cbn [fst snd world self]. rewrite forgotten_twice.
  repeat split; reflexivity.
Qed.

(** A start and an end for the same run, when the response carries no
    generation: the Event that the start appended is still unfinished after
    the end, and the run is still in [run_to_event]. *)
Theorem llm_start_end_unbound calculate_cost w h c s l serialized prompts
    run_id kwargs response :
  client w = Some c -> session c = Some s -> active_step s = Some l ->
  st_is_finished (steps w !!! l) = false ->
  first_generation response = None ->
  let started :=
    snd (on_llm_start serialized prompts run_id kwargs {| world := w; self := h |}) in
  let ended := on_llm_end calculate_cost response run_id started in
  fst ended = Returned tt /\
  events (world (snd ended))
  = events w ++
      [Event.init (handler_kwargs (Some (DescList (split_prompts prompts).1))
                     (Some (split_prompts prompts).2))] /\
  ev_is_finished (events (world (snd ended)) !!! length (events w)) = false /\
  run_to_event (self (snd ended)) !! run_id = Some (length (events w)) /\
  run_to_model (self (snd ended)) !! run_id = None.
Proof.
  intros Hc Hs Ha Hf Hg. cbv zeta.
  rewrite (on_llm_start_creates w h c s l _ _ _ _ Hc Hs Ha Hf). cbn [snd].
  set (kw := handler_kwargs _ _).
  set (h1 := set_run_to_event _ _).
  set (w1 := created l kw (start_announced w)).
  assert (He1 : run_to_event h1 !! run_id = Some (length (events w)))
    by apply lookup_insert_eq.
  assert (Hc1 : client w1 = Some c) by exact Hc.
  assert (Hf1 : ev_is_finished (events w1 !!! length (events w)) = false).
  { cbn. rewrite list_lookup_total_middle by reflexivity. reflexivity. }
  rewrite (on_llm_end_unbound calculate_cost w1 h1 c s l run_id Hc1 Hs Ha _
             response He1 Hf1 Hg).
  cbn [fst snd world self]. repeat split.
  - exact Hf1.
  - exact He1.
  - apply lookup_delete_eq.
Qed.

(** A start and an error for the same run: the Event is finished, the
    model is set, and neither a result, a cost nor a success flag is. *)
Theorem llm_start_error w h c s l serialized prompts run_id kwargs :
  client w = Some c -> session c = Some s -> active_step s = Some l ->
  st_is_finished (steps w !!! l) = false ->
  let started :=
    snd (on_llm_start serialized prompts run_id kwargs {| world := w; self := h |}) in
  let failed := on_llm_error run_id started in
  fst failed = Returned tt /\
  events (world (snd failed))
  = events w ++
      [{| ev_description := Some (DescList (split_prompts prompts).1);
          ev_result := None;
          ev_cost_added := None;
          ev_model := Some (_get_model_name serialized kwargs);
          ev_screenshots := Some (split_prompts prompts).2;
          ev_is_finished := true;
          ev_is_successful := None |}] /\
  self (snd failed) = forgotten run_id h.
Proof.
  intros Hc Hs Ha Hf. cbv zeta.
  rewrite (on_llm_start_creates w h c s l _ _ _ _ Hc Hs Ha Hf). cbn [snd].
  set (kw := handler_kwargs _ _).
  set (h1 := set_run_to_event _ _).
  set (w1 := created l kw (start_announced w)).
  assert (He1 : run_to_event h1 !! run_id = Some (length (events w)))
    by apply lookup_insert_eq.
  assert (Hm1 : default "unknown" (run_to_model h1 !! run_id)
                = _get_model_name serialized kwargs).
  { unfold h1, started_model. cbn. rewrite lookup_insert_eq. reflexivity. }
  assert (Hc1 : client w1 = Some c) by exact Hc.
  assert (Hf1 : ev_is_finished (events w1 !!! length (events w)) = false).
  { cbn. rewrite list_lookup_total_middle by reflexivity. reflexivity. }
  rewrite (on_llm_error_finishes w1 h1 c s l run_id Hc1 Hs Ha _ He1 Hf1).
  cbn [fst snd world self]. rewrite Hm1.
  unfold h1. rewrite forgotten_started.
  split; [reflexivity|]. split; [|reflexivity].
  cbn. rewrite list_lookup_total_middle by reflexivity.
  rewrite insert_app_r_alt by lia. rewrite Nat.sub_diag. reflexivity.
Qed.

(** A start callback that finds no active Session or Step, with an
    initialised client: [on_llm_start] prints and returns without an Event
    or a request; so does [on_chat_model_start] when the scan of the
    messages gets through, and otherwise it raises what the scan raised. *)
Theorem start_without_step w h c serialized prompts messages run_id kwargs :
  client w = Some c ->
  session c ≫= active_step = None ->
  let quiet (r : outcome unit * Env) :=
    fst r = Returned tt /\
    events (world (snd r)) = events w /\
    steps (world (snd r)) = steps w /\
    requests (world (snd r)) = requests w /\
    run_to_event (self (snd r)) = run_to_event h /\
    stdout (world (snd r)) = stdout (start_refused w) in
  quiet (on_llm_start serialized prompts run_id kwargs {| world := w; self := h |}) /\
  match scanned messages with
  | Returned _ =>
      quiet (on_chat_model_start serialized messages run_id kwargs
               {| world := w; self := h |})
  | Raised e =>
      fst (on_chat_model_start serialized messages run_id kwargs
             {| world := w; self := h |}) = Raised e
  end.
Proof.
  intros Hc Hnone. cbv zeta. split.
  - rewrite (on_llm_start_no_step w h c _ _ _ _ Hc Hnone).
    repeat split; reflexivity.
  - destruct (scanned messages) as [acc|e] eqn:Hscan.
    + rewrite (on_chat_model_start_no_step w h c _ _ _ _ acc Hc Hnone Hscan).
      repeat split; reflexivity.
    + rewrite (on_chat_model_start_raises w h _ _ _ _ e Hscan). reflexivity.
Qed.

(** ** The item that index -1 reaches is the one created last *)

Lemma facade_create_event_runs w c s l de re co mo ss :
  client w = Some c -> session c = Some s -> active_step s = Some l ->
  st_is_finished (steps w !!! l) = false ->
  lucidicai.create_event de re co mo ss w
  = (Returned tt, created l (lucidicai.event_locals de re co mo ss None) w).
Proof.
  intros Hc Hs Ha Hf. unfold lucidicai.create_event. enter Hc.
  rewrite Hs, Ha.
  rewrite (bind_returned _ _ _ _ _ (create_event_runs l _ w Hf)).
  reflexivity.
Qed.

Lemma create_event_then_previous w c s l de re co mo ss de' re' co' mo' ss' :
  client w = Some c -> session c = Some s -> active_step s = Some l ->
  st_is_finished (steps w !!! l) = false ->
  (l < length (steps w))%nat ->
  let made := lucidicai.create_event de re co mo ss w in
  fst made = Returned tt /\
  events (snd made)
  = events w ++ [Event.init (lucidicai.event_locals de re co mo ss None)] /\
  lucidicai.update_previous_event (-1) de' re' co' mo' ss' (snd made)
  = Event.update_event (length (events w))
      (lucidicai.event_locals de' re' co' mo' ss' None) (snd made).
Proof.
  intros Hc Hs Ha Hf Hl. cbv zeta.
  rewrite (facade_create_event_runs w c s l _ _ _ _ _ Hc Hs Ha Hf).
  cbn [fst snd]. split; [reflexivity|]. split; [reflexivity|].
  eapply (previous_event_latest _ c s); [exact Hc | exact Hs | exact Ha |].
  cbn. rewrite list_lookup_total_insert_eq by exact Hl. reflexivity.
Qed.

Lemma facade_create_step_runs w c s st ac go es ed sc sp :
  client w = Some c -> session c = Some s -> active_step s = None ->
  lucidicai.create_step st ac go es ed sc sp w
  = (Returned tt,
     set_requests (requests w ++ [InitStep (length (steps w))])
       (set_client
          (Some (set_session (Some (Session.push_step (length (steps w)) s)) c))
          (set_steps
             (steps w ++ [Step.init (lucidicai.step_locals st ac go es ed sc sp None)])
             w))).
Proof.
  intros Hc Hs Ha. unfold lucidicai.create_step. enter Hc. rewrite Hs.
  unfold Session.create_step. rewrite Ha.
  unfold Session.mutate. run. cbn. rewrite Hc. cbn. rewrite Hs. reflexivity.
Qed.

Lemma create_step_then_previous w c s st ac go es ed sc sp st' ac' go' es' ed' sc' sp' :
  client w = Some c -> session c = Some s -> active_step s = None ->
  let made := lucidicai.create_step st ac go es ed sc sp w in
  fst made = Returned tt /\
  steps (snd made)
  = steps w ++ [Step.init (lucidicai.step_locals st ac go es ed sc sp None)] /\
  lucidicai.update_previous_step (-1) st' ac' go' es' ed' sc' sp' (snd made)
  = Step.update_step (length (steps w))
      (lucidicai.step_locals st' ac' go' es' ed' sc' sp' None) (snd made).
Proof.
  intros Hc Hs Ha. cbv zeta.
  rewrite (facade_create_step_runs w c s _ _ _ _ _ _ _ Hc Hs Ha).
  cbn [fst snd]. split; [reflexivity|]. split; [reflexivity|].
  set (w' := set_requests _ _).
  exact (previous_step_latest w'
           (set_session (Some (Session.push_step (length (steps w)) s)) c)
           (Session.push_step (length (steps w)) s) eq_refl eq_refl
           st' ac' go' es' ed' sc' sp' (step_history s)
           (Some (length (steps w))) eq_refl).
Qed.

(** * Further properties *)

(** ** Starting a Session, creating a mass simulation *)

Lemma credential_runs arg name msg w v :
  resolve arg name w = Some v -> credential arg name msg w = (Returned v, w).
Proof.
  unfold resolve, credential. destruct arg as [k|].
  - intros [= ->]. reflexivity.
  - intros Hv. unfold bind, getenv, gets. rewrite Hv. reflexivity.
Qed.

Lemma credential_fails arg name msg w :
  resolve arg name w = None ->
  credential arg name msg w = (Raised (APIKeyVerificationError msg), w).
Proof.
  unfold resolve, credential. destruct arg as [k|]; [discriminate|].
  intros Hv. unfold bind, getenv, gets. rewrite Hv. reflexivity.
Qed.

(** Reads the first two statements of [init] and [create_mass_sim] as
    [credential]. *)
Ltac credentials key agent :=
  change (match key with Some k0 => ret k0 | None => _ end)
    with (credential key "LUCIDIC_API_KEY"
            "Make sure to either pass your API key into lai.init() or set the LUCIDIC_API_KEY environment variable.");
  change (match agent with Some k0 => ret k0 | None => _ end)
    with (credential agent "LUCIDIC_AGENT_ID"
            "Lucidic agent ID not specified. Make sure to either pass your agent ID into lai.init() or set the LUCIDIC_AGENT_ID environment variable.").

Lemma init_runs w c name key agent task prov mass rubrics tags k a :
  resolve key "LUCIDIC_API_KEY" w = Some k ->
  resolve agent "LUCIDIC_AGENT_ID" w = Some a ->
  client w = Some c ->
  session c = None ->
  exists out,
    lucidicai.init name key agent task prov mass rubrics tags w
    = (Returned tt,
       set_stdout (out ++ [Line "[Lucidic] Session initialized successfully"])
         (set_requests (requests w ++ [InitSession name])
            (set_client
               (Some (set_session
                        (Some (Session.init name task mass rubrics tags))
                        (set_cl_provider
                           (provider_after prov (cl_provider c)) c)))
               w))).
Proof.
  intros Hk Ha Hc Hs. unfold lucidicai.init. credentials key agent.
  rewrite (bind_returned _ _ _ _ _ (credential_runs _ _ _ _ _ Hk)).
  rewrite (bind_returned _ _ _ _ _ (credential_runs _ _ _ _ _ Ha)).
  unfold provider_after.
  erewrite bind_returned; cycle 1.
  { apply try_except_returned. enter Hc. rewrite Hs. reflexivity. }
  cbn [default].
  destruct (bool_decide (prov = Some "openai")); [|
  destruct (bool_decide (prov = Some "anthropic")); [|
  destruct (bool_decide (prov = Some "langchain"))]];
    eexists; unfold Client.set_provider, Client.init_session, Client.mutate;
    run; cbn; rewrite Hc; cbn; reflexivity.
Qed.

(** X1: with an initialised client that has no Session, when both
    credentials resolve (argument first, environment variable second),
    [init] returns; the client now holds a new Session made of the
    arguments, one InitSession request was sent, and no Step or Event was
    touched. The client keeps its own credentials and prompt cache (the
    credentials passed to this call are not used), and its provider unless
    "openai" or "anthropic" is named. *)
Theorem init_starts_session (w : World) (c : Client) (session_name : string)
    (key agent task provider_name mass_sim_id : option string)
    (rubrics tags : option (list string)) (k a : string) :
  client w = Some c ->
  session c = None ->
  resolve key "LUCIDIC_API_KEY" w = Some k ->
  resolve agent "LUCIDIC_AGENT_ID" w = Some a ->
  let r := lucidicai.init session_name key agent task provider_name
             mass_sim_id rubrics tags w in
  fst r = Returned tt /\
  client (snd r)
  = Some (set_session
            (Some (Session.init session_name task mass_sim_id rubrics tags))
            (set_cl_provider (provider_after provider_name (cl_provider c)) c)) /\
  requests (snd r) = requests w ++ [InitSession session_name] /\
  steps (snd r) = steps w /\
  events (snd r) = events w /\
  last (stdout (snd r)) = Some (Line "[Lucidic] Session initialized successfully").
Proof.
  intros Hc Hs Hk Ha. cbv zeta.
  destruct (init_runs w c session_name key agent task provider_name
              mass_sim_id rubrics tags k a Hk Ha Hc Hs) as [out ->].
  cbn [fst snd]. split; [reflexivity|]. split; [reflexivity|].
  split; [reflexivity|]. split; [reflexivity|]. split; [reflexivity|].
  cbn. apply last_snoc.
Qed.

Lemma init_starts_session_witness :
  let r := lucidicai.init "again" None (Some "other-agent") (Some "book a flight")
             (Some "anthropic") None None (Some ["nightly"]) Scene.configured in
  fst r = Returned tt /\
  (lucidic_api_key <$> client (snd r)) = Some "key" /\
  (agent_id <$> client (snd r)) = Some "agent" /\
  (cl_provider <$> client (snd r)) = Some (Some AnthropicHandler) /\
  (client (snd r) ≫= session)
  = Some (Session.init "again" (Some "book a flight") None None (Some ["nightly"])) /\
  requests (snd r) = requests Scene.configured ++ [InitSession "again"] /\
  steps (snd r) = steps Scene.configured /\
  events (snd r) = events Scene.configured /\
  last (stdout (snd r)) = Some (Line "[Lucidic] Session initialized successfully").
Proof.
  destruct (init_starts_session Scene.configured
              {| lucidic_api_key := "key"; agent_id := "agent"; session := None;
                 cl_provider := None; prompt_cache := ∅ |}
              "again" None (Some "other-agent")
              (Some "book a flight") (Some "anthropic") None None (Some ["nightly"])
              "env-key" "other-agent" eq_refl eq_refl eq_refl eq_refl)
    as (H1 & H2 & H3 & H4 & H5 & H6).
  cbv zeta. rewrite H2.
  split; [exact H1|]. split; [reflexivity|]. split; [reflexivity|].
  split; [reflexivity|]. split; [reflexivity|]. split; [exact H3|].
  split; [exact H4|]. split; [exact H5|exact H6].
Defined.

(** X2: when the API key or the agent id is neither passed nor set in the
    environment, [init] and [create_mass_sim] raise APIKeyVerification with
    the same message and change nothing, whatever the state of the client
    (initialised or not, with or without a Session). *)
Theorem credentials_missing (w : World) (session_name : string)
    (key agent task provider_name mass_sim_id : option string)
    (rubrics tags : option (list string)) :
  resolve key "LUCIDIC_API_KEY" w = None \/
  resolve agent "LUCIDIC_AGENT_ID" w = None ->
  exists msg,
    lucidicai.init session_name key agent task provider_name mass_sim_id
      rubrics tags w
    = (Raised (APIKeyVerificationError msg), w) /\
    forall (answer mass_sim_name : string) (total_num_sessions : Z),
      lucidicai.create_mass_sim answer mass_sim_name total_num_sessions key
        agent task tags w
      = (Raised (APIKeyVerificationError msg), w).
Proof.
  intros Hmissing.
  unfold lucidicai.init, lucidicai.create_mass_sim. credentials key agent.
  destruct (resolve key "LUCIDIC_API_KEY" w) as [k|] eqn:Hk.
  - destruct Hmissing as [|Ha]; [discriminate|].
    eexists. split; [|intros answer mass_name total];
      rewrite (bind_returned _ _ _ _ _ (credential_runs _ _ _ _ _ Hk));
      rewrite (bind_raised _ _ _ _ _ (credential_fails _ _ _ _ Ha));
      reflexivity.
  - eexists. split; [|intros answer mass_name total];
      rewrite (bind_raised _ _ _ _ _ (credential_fails _ _ _ _ Hk));
      reflexivity.
Qed.

Lemma credentials_missing_witness :
  exists msg,
    lucidicai.init "again" (Some "key") None None None None None None
      Sample.with_event
    = (Raised (APIKeyVerificationError msg), Sample.with_event) /\
    forall (answer mass_sim_name : string) (total_num_sessions : Z),
      lucidicai.create_mass_sim answer mass_sim_name total_num_sessions
        (Some "key") None None None Sample.with_event
      = (Raised (APIKeyVerificationError msg), Sample.with_event).
Proof.
  apply (credentials_missing Sample.with_event "again" (Some "key") None None
           None None None None).
  right. reflexivity.
Defined.

Lemma create_mass_sim_runs w c answer mass_name total key agent task tags k a :
  resolve key "LUCIDIC_API_KEY" w = Some k ->
  resolve agent "LUCIDIC_AGENT_ID" w = Some a ->
  client w = Some c ->
  lucidicai.create_mass_sim answer mass_name total key agent task tags w
  = (Returned answer,
     set_stdout
       (stdout w ++ [Line ("[Lucidic] Created mass simulation with ID: " ++ answer)])
       w).
Proof.
  intros Hk Ha Hc. unfold lucidicai.create_mass_sim. credentials key agent.
  rewrite (bind_returned _ _ _ _ _ (credential_runs _ _ _ _ _ Hk)).
  rewrite (bind_returned _ _ _ _ _ (credential_runs _ _ _ _ _ Ha)).
  erewrite bind_returned; cycle 1.
  { apply try_except_returned. enter Hc. reflexivity. }
  unfold Client.init_mass_sim. run. reflexivity.
Qed.

(** X3: with an initialised client, with or without a Session in progress,
    when both credentials resolve, [create_mass_sim] returns what
    [Client.init_mass_sim] answered (the identifier given by the backend,
    which the model takes as [answer]) and prints it; it leaves the client,
    the Steps and the Events as they are, so a Session in progress is
    neither refused nor touched (unlike [init]); and when no Session is
    active, an [init] with that identifier then starts a Session that
    carries it. *)
Theorem create_mass_sim_then_init (w : World) (c : Client)
    (answer mass_sim_name : string)
    (total_num_sessions : Z) (key agent task : option string)
    (tags : option (list string)) (k a : string) :
  client w = Some c ->
  resolve key "LUCIDIC_API_KEY" w = Some k ->
  resolve agent "LUCIDIC_AGENT_ID" w = Some a ->
  let r := lucidicai.create_mass_sim answer mass_sim_name total_num_sessions
             key agent task tags w in
  fst r = Returned answer /\
  client (snd r) = Some c /\
  steps (snd r) = steps w /\
  events (snd r) = events w /\
  requests (snd r) = requests w /\
  stdout (snd r)
  = stdout w ++ [Line ("[Lucidic] Created mass simulation with ID: " ++ answer)] /\
  (session c = None ->
   forall (session_name : string) (provider_name : option string)
          (rubrics : option (list string)),
     let r' := lucidicai.init session_name key agent task provider_name
                 (Some answer) rubrics tags (snd r) in
     fst r' = Returned tt /\
     se_mass_sim_id <$> (client (snd r') ≫= session) = Some (Some answer)).
Proof.
  intros Hc Hk Ha. cbv zeta.
  rewrite (create_mass_sim_runs w c _ _ _ _ _ _ _ k a Hk Ha Hc). cbn [fst snd].
  split; [reflexivity|]. split; [exact Hc|]. split; [reflexivity|].
  split; [reflexivity|]. split; [reflexivity|]. split; [reflexivity|].
  intros Hs session_name provider_name rubrics.
  set (w1 := set_stdout _ _).
  assert (Hk1 : resolve key "LUCIDIC_API_KEY" w1 = Some k) by exact Hk.
  assert (Ha1 : resolve agent "LUCIDIC_AGENT_ID" w1 = Some a) by exact Ha.
  assert (Hc1 : client w1 = Some c) by exact Hc.
  destruct (init_runs w1 c session_name key agent task provider_name (Some answer)
              rubrics tags k a Hk1 Ha1 Hc1 Hs) as [out ->].
  split; reflexivity.
Qed.

Lemma create_mass_sim_then_init_witness :
  let r := lucidicai.create_mass_sim "ms-7" "sweep" 20 None None None None
             Scene.configured in
  fst r = Returned "ms-7" /\
  client (snd r) = client Scene.configured /\
  lucidicai.init "run 1" None None None None (Some "ms-7") None None (snd r)
  = (Returned tt,
     snd (lucidicai.init "run 1" None None None None (Some "ms-7") None None (snd r))) /\
  se_mass_sim_id
    <$> (client (snd (lucidicai.init "run 1" None None None None (Some "ms-7")
                        None None (snd r))) ≫= session)
  = Some (Some "ms-7").
Proof.
  destruct (create_mass_sim_then_init Scene.configured
              {| lucidic_api_key := "key"; agent_id := "agent"; session := None;
                 cl_provider := None; prompt_cache := ∅ |}
              "ms-7" "sweep" 20 None
              None None None "env-key" "env-agent" eq_refl eq_refl eq_refl)
    as (Hret & Hclient & _ & _ & _ & _ & Hinit).
  destruct (Hinit eq_refl "run 1" None None) as [Hret' Hid].
  cbv zeta. split; [exact Hret|]. split; [exact Hclient|].
  split; [|exact Hid].
  apply returns_eq. exact Hret'.
Defined.

(** ** Creating and updating when nothing is active *)

(** X4: with an initialised client and no Session, [create_step],
    [create_event], [update_previous_step] and [update_previous_event] only
    print a warning, whatever the index; with a Session that has no active
    Step, [create_event] and [update_previous_event] raise InvalidOperation
    and change nothing, whatever the index. *)
Theorem create_when_inactive (w : World) (c : Client) (index : Z)
    (state action goal : option string) (eval_score : option Q)
    (eval_description screenshot screenshot_path description result : option string)
    (cost_added : option Q) (model : option string)
    (screenshots : option (list string)) :
  client w = Some c ->
  (session c = None ->
   warns (lucidicai.create_step state action goal eval_score eval_description
            screenshot screenshot_path) w /\
   warns (lucidicai.create_event description result cost_added model
            screenshots) w /\
   warns (lucidicai.update_previous_step index state action goal eval_score
            eval_description screenshot screenshot_path) w /\
   warns (lucidicai.update_previous_event index description result cost_added
            model screenshots) w) /\
  (forall s, session c = Some s -> active_step s = None ->
   rejects (lucidicai.create_event description result cost_added model
              screenshots) w /\
   rejects (lucidicai.update_previous_event index description result
              cost_added model screenshots) w).
Proof.
  intros Hc. split.
  - intros Hs.
    unfold warns, lucidicai.create_step, lucidicai.create_event,
      lucidicai.update_previous_step, lucidicai.update_previous_event.
    repeat split; eexists; enter Hc; rewrite Hs; (split; [|reflexivity]);
      reflexivity.
  - intros s Hs Ha.
    unfold rejects, lucidicai.create_event, lucidicai.update_previous_event.
    split; eexists; enter Hc; rewrite Hs, Ha; reflexivity.
Qed.

Lemma create_when_inactive_witness :
  (warns (lucidicai.create_step None None (Some "log in") None None None None)
     Sample.ended /\
   warns (lucidicai.update_previous_event 5 None None None None None)
     Sample.ended) /\
  rejects (lucidicai.create_event (Some "look") None None None None)
    Sample.in_session /\
  rejects (lucidicai.update_previous_event (-1) None None None None None)
    Sample.in_session.
Proof.
  destruct (create_when_inactive Sample.ended _ 5 None None (Some "log in") None
              None None None None None None None None eq_refl)
    as [Hwarn _].
  destruct (create_when_inactive Sample.in_session _ (-1) None None None None
              None None None (Some "look") None None None None eq_refl)
    as [_ Hreject].
  destruct (Hwarn eq_refl) as (Hstep & _ & _ & Hevent).
  split; [split; [exact Hstep | exact Hevent]|].
  exact (Hreject _ eq_refl eq_refl).
Defined.

(** ** Negative indices in general *)

Lemma getitem_from_end {St A} (before after : list A) (x : A) (s : St) :
  getitem (before ++ x :: after) (- Z.of_nat (S (length after))) s
  = (Returned x, s).
Proof.
  unfold getitem. rewrite length_app. cbn [length].
  destruct (Z.ltb_spec (- Z.of_nat (S (length after))) 0) as [_|Hge]; [|lia].
  destruct (Z.ltb_spec (- Z.of_nat (S (length after)))
              (- Z.of_nat (length before + S (length after)))) as [Hlt|_]; [lia|].
  replace (Z.to_nat (Z.of_nat (length before + S (length after))
                     + - Z.of_nat (S (length after))))
    with (length before) by lia.
  rewrite list_lookup_middle by reflexivity. reflexivity.
Qed.

(** X5: [update_previous_step] and [update_previous_event] count from the
    end of the history: the index [-(n+1)] reaches the item that has exactly
    [n] items after it (for a Step slot that is empty, the call only prints a
    warning), and nothing else is updated by the call. *)
Theorem previous_item_reached (w : World) (c : Client) (s : Session)
    (state action goal : option string) (eval_score : option Q)
    (eval_description screenshot screenshot_path description result : option string)
    (cost_added : option Q) (model : option string)
    (screenshots : option (list string)) :
  client w = Some c ->
  session c = Some s ->
  (forall before slot after,
     step_history s = before ++ slot :: after ->
     lucidicai.update_previous_step (- Z.of_nat (S (length after))) state action
       goal eval_score eval_description screenshot screenshot_path w
     = match slot with
       | Some l =>
           Step.update_step l
             (lucidicai.step_locals state action goal eval_score
                eval_description screenshot screenshot_path None) w
       | None =>
           print "[Lucidic] Warning: update_previous_step called on an empty step. Please check your index." w
       end) /\
  (forall l before e after,
     active_step s = Some l ->
     event_history (steps w !!! l) = before ++ e :: after ->
     lucidicai.update_previous_event (- Z.of_nat (S (length after))) description
       result cost_added model screenshots w
     = Event.update_event e
         (lucidicai.event_locals description result cost_added model
            screenshots None) w).
Proof.
  intros Hc Hs. split.
  - intros before slot after Hh. unfold lucidicai.update_previous_step.
    enter Hc. rewrite Hs, Hh.
    destruct (Z.geb_spec (- Z.of_nat (S (length after))) 0) as [Hge|_]; [lia|].
    rewrite length_app. cbn [length].
    destruct (Z.ltb_spec (- Z.of_nat (S (length after)))
                (- Z.of_nat (length before + S (length after)))) as [Hlt|_];
      [lia|].
    rewrite (bind_returned _ _ _ _ _ (getitem_from_end _ _ _ _)).
    destruct slot; reflexivity.
  - intros l before e after Ha Hh. unfold lucidicai.update_previous_event.
    enter Hc. rewrite Hs, Ha.
    unfold bind at 1, gets at 1. rewrite Hh.
    destruct (before ++ e :: after) as [|x t] eqn:Hl;
      [destruct before; discriminate|].
    rewrite <- Hl.
    destruct (Z.geb_spec (- Z.of_nat (S (length after))) 0) as [Hge|_]; [lia|].
    rewrite length_app. cbn [length].
    destruct (Z.ltb_spec (- Z.of_nat (S (length after)))
                (- Z.of_nat (length before + S (length after)))) as [Hlt|_];
      [lia|].
    rewrite (bind_returned _ _ _ _ _ (getitem_from_end _ _ _ _)). reflexivity.
Qed.

Lemma previous_item_reached_witness :
  lucidicai.update_previous_step (-2) None None (Some "log in") None None None
    None Scene.busy
  = Step.update_step 0%nat
      (lucidicai.step_locals None None (Some "log in") None None None None None)
      Scene.busy /\
  lucidicai.update_previous_event (-2) None (Some "clicked") None None None
    Scene.busy
  = Event.update_event 1%nat
      (lucidicai.event_locals None (Some "clicked") None None None None)
      Scene.busy.
Proof.
  destruct (previous_item_reached Scene.busy _ _ None None (Some "log in") None
              None None None None (Some "clicked") None None None
              eq_refl eq_refl) as [Hstep Hevent].
  split.
  - exact (Hstep [] (Some 0%nat) [Some 1%nat] eq_refl).
  - exact (Hevent 1%nat [] 1%nat [2%nat] eq_refl eq_refl).
Defined.

(** X6: with an active Step, [update_previous_event] with index -1 is
    [update_event]: the two calls give the same outcome and the same state,
    also when they raise because the Step has no Event. *)
Theorem update_event_is_previous_latest (w : World) (c : Client) (s : Session)
    (l : loc) (description result : option string) (cost_added : option Q)
    (model : option string) (screenshots : option (list string)) :
  client w = Some c ->
  session c = Some s ->
  active_step s = Some l ->
  lucidicai.update_previous_event (-1) description result cost_added model
    screenshots w
  = lucidicai.update_event description result cost_added model screenshots w.
Proof.
  intros Hc Hs Ha.
  unfold lucidicai.update_previous_event, lucidicai.update_event.
  enter Hc. enter Hc. rewrite Hs, Ha. unfold bind, gets.
  destruct (event_history (steps w !!! l)) as [|x t]; [reflexivity|].
  replace (-1 >=? 0) with false by reflexivity.
  destruct (Z.ltb_spec (-1) (- Z.of_nat (length (x :: t)))) as [Hlt|_];
    [cbn [length] in Hlt; lia|].
  reflexivity.
Qed.

Lemma update_event_is_previous_latest_witness :
  lucidicai.update_previous_event (-1) None (Some "seen") None None None
    Sample.with_event
  = lucidicai.update_event None (Some "seen") None None None Sample.with_event /\
  lucidicai.update_previous_event (-1) None (Some "seen") None None None
    Sample.in_step
  = lucidicai.update_event None (Some "seen") None None None Sample.in_step.
Proof.
  split.
  - exact (update_event_is_previous_latest Sample.with_event _ _ 0%nat None
             (Some "seen") None None None eq_refl eq_refl eq_refl).
  - exact (update_event_is_previous_latest Sample.in_step _ _ 0%nat None
             (Some "seen") None None None eq_refl eq_refl eq_refl).
Defined.

(** ** The exit handler *)

(** X7: on the main thread [cleanup] ends the active Session if there is
    one: afterwards no Session is active; exactly one final update
    ([is_finished=True], nothing else set) was sent if a Session was active
    and nothing was sent otherwise; no client is created, and no Step or
    Event is touched. It then puts back the SIGINT handler it found and
    returns. When the handler it found was not installed from Python
    ([signal.signal] returned [None]), all of that is still done, but the
    [finally] clause raises TypeError and SIGINT stays ignored. Off the main
    thread the first statement raises ValueError and nothing is done. *)
Theorem cleanup_ends_session (p : lucidicai.Process) :
  let r := lucidicai.cleanup p in
  if lucidicai.main_thread p
  then
    fst r
    = match lucidicai.sigint p with
      | lucidicai.Handler_none =>
          Raised (TypeError "signal handler must be signal.SIG_IGN, signal.SIG_DFL, or a callable object")
      | _ => Returned tt
      end /\
    lucidicai.sigint (snd r)
    = match lucidicai.sigint p with
      | lucidicai.Handler_none => lucidicai.SIG_IGN
      | handler => handler
      end /\
    client (lucidicai.process (snd r)) ≫= session = None /\
    (client (lucidicai.process (snd r)) = None <->
     client (lucidicai.process p) = None) /\
    requests (lucidicai.process (snd r))
    = requests (lucidicai.process p) ++
        match client (lucidicai.process p) ≫= session with
        | Some _ =>
            [UpdateSession
               (lucidicai.session_locals None None None None None (Some true))]
        | None => []
        end /\
    steps (lucidicai.process (snd r)) = steps (lucidicai.process p) /\
    events (lucidicai.process (snd r)) = events (lucidicai.process p)
  else
    r = (Raised (ValueError "signal only works in main thread of the main interpreter"), p).
Proof.
  destruct p as [w handler [|]]; cbv zeta; cbn [lucidicai.main_thread];
    [|reflexivity].
  unfold lucidicai.cleanup, lucidicai.try_finally, lucidicai.in_process,
    lucidicai.signal_sigint, lucidicai.except_not_initialized,
    lucidicai.end_session, Client.call, Session.end_session,
    Client.clear_session, Session.mutate, Client.mutate.
  run. cbn.
  destruct (client w) as [c|] eqn:Hc; cbn.
  - destruct (session c) as [s|] eqn:Hs; cbn; rewrite ?Hc; cbn; rewrite ?Hs; cbn.
    + destruct handler; cbn; rewrite ?Hc; cbn;
        (split; [reflexivity|]); (split; [reflexivity|]);
        (split; [reflexivity|]); (split; [split; discriminate|]);
        repeat split; reflexivity.
    + rewrite app_nil_r. destruct handler; cbn; rewrite ?Hc, ?Hs; repeat split; auto.
  - rewrite app_nil_r. destruct handler; cbn; rewrite ?Hc; repeat split; auto.
Qed.

(** ** Before any [init] *)

(** X8: before any [init] (and any [create_mass_sim]) there is no client,
    and the eleven facade functions that start with [Client()] raise
    NotInitialized to the caller without changing anything. *)
Theorem facade_needs_client (w : World) (index ttl : Z)
    (task state action goal eval_description screenshot screenshot_path
       description result model reason : option string)
    (score cost_added : option Q) (ok : option bool)
    (screenshots : option (list string)) (name label : string)
    (variables : option (list (string * string))) :
  client w = None ->
  uninitialized (lucidicai.update_session task score reason ok reason) w /\
  uninitialized (lucidicai.end_session score reason ok reason) w /\
  uninitialized (lucidicai.create_step state action goal score eval_description
                   screenshot screenshot_path) w /\
  uninitialized (lucidicai.update_step state action goal score eval_description
                   screenshot screenshot_path) w /\
  uninitialized (lucidicai.update_previous_step index state action goal score
                   eval_description screenshot screenshot_path) w /\
  uninitialized (lucidicai.end_step state action goal score eval_description
                   screenshot screenshot_path) w /\
  uninitialized (lucidicai.create_event description result cost_added model
                   screenshots) w /\
  uninitialized (lucidicai.update_event description result cost_added model
                   screenshots) w /\
  uninitialized (lucidicai.update_previous_event index description result
                   cost_added model screenshots) w /\
  uninitialized (lucidicai.end_event description result cost_added model
                   screenshots) w /\
  uninitialized (lucidicai.get_prompt name variables ttl label) w.
Proof.
  intros Hc.
  unfold uninitialized, lucidicai.update_session, lucidicai.end_session,
    lucidicai.create_step, lucidicai.update_step,
    lucidicai.update_previous_step, lucidicai.end_step,
    lucidicai.create_event, lucidicai.update_event,
    lucidicai.update_previous_event, lucidicai.end_event,
    lucidicai.get_prompt.
  rewrite !(bind_raised _ _ _ _ _ (call_uninitialized _ Hc)).
  repeat split; reflexivity.
Qed.

Lemma facade_needs_client_witness :
  uninitialized (lucidicai.create_step None None None None None None None)
    Sample.fresh /\
  uninitialized (lucidicai.end_event None None None None None) Sample.fresh /\
  uninitialized (lucidicai.get_prompt "greeting" None 300 "production")
    Sample.fresh.
Proof.
  destruct (facade_needs_client Sample.fresh 0 300 None None None None None
              None None None None None None None None None None "greeting"
              "production" None eq_refl)
    as (_ & _ & Hstep & _ & _ & _ & _ & _ & _ & Hevent & Hprompt).
  repeat split; assumption.
Defined.


(** ** The life of a Step *)

Lemma facade_end_step_runs w c s l st ac go es ed sc sp :
  client w = Some c -> session c = Some s -> active_step s = Some l ->
  lucidicai.end_step st ac go es ed sc sp w
  = (Returned tt,
     set_client (Some (set_session (Some (Session.set_active_step None s)) c))
       (snd (Step.update_step l
               (lucidicai.step_locals st ac go es ed sc sp (Some true)) w))).
Proof.
  intros Hc Hs Ha. unfold lucidicai.end_step. enter Hc. rewrite Hs, Ha.
  unfold Session.update_step. rewrite Ha.
  unfold Step.update_step, Session.mutate. run. cbn. rewrite Hc. cbn.
  rewrite Hs. reflexivity.
Qed.

(** X9: the life of a Step, with the Session class as specified. In a
    Session without an active Step, [create_step] returns and appends an
    unfinished Step that is now active; a second [create_step] is then
    refused with InvalidOperation; [end_step] returns and marks that Step
    finished; after it, [update_step], [end_step] and [create_event] are
    refused with InvalidOperation and change nothing, and [create_step] is
    accepted again. *)
Theorem step_lifecycle (w : World) (c : Client) (s : Session)
    (state action goal : option string) (eval_score : option Q)
    (eval_description screenshot screenshot_path description result : option string)
    (cost_added : option Q) (model : option string)
    (screenshots : option (list string)) :
  client w = Some c ->
  session c = Some s ->
  active_step s = None ->
  let create :=
    lucidicai.create_step state action goal eval_score eval_description
      screenshot screenshot_path in
  let finish :=
    lucidicai.end_step state action goal eval_score eval_description
      screenshot screenshot_path in
  let w1 := snd (create w) in
  let w2 := snd (finish w1) in
  fst (create w) = Returned tt /\
  st_is_finished (steps w1 !!! length (steps w)) = false /\
  (client w1 ≫= session) ≫= active_step = Some (length (steps w)) /\
  (exists msg, create w1 = (Raised (InvalidOperationError msg), w1)) /\
  fst (finish w1) = Returned tt /\
  st_is_finished (steps w2 !!! length (steps w)) = true /\
  (client w2 ≫= session) ≫= active_step = None /\
  rejects (lucidicai.update_step state action goal eval_score eval_description
             screenshot screenshot_path) w2 /\
  rejects finish w2 /\
  rejects (lucidicai.create_event description result cost_added model
             screenshots) w2 /\
  fst (create w2) = Returned tt.
Proof.
  intros Hc Hs Ha. cbv zeta.
  rewrite (facade_create_step_runs w c s _ _ _ _ _ _ _ Hc Hs Ha).
  cbn [fst snd].
  set (s1 := Session.push_step (length (steps w)) s).
  set (c1 := set_session (Some s1) c).
  set (w1 := set_requests _ _).
  assert (Hc1 : client w1 = Some c1) by reflexivity.
  assert (Hs1 : session c1 = Some s1) by reflexivity.
  assert (Ha1 : active_step s1 = Some (length (steps w))) by reflexivity.
  rewrite (facade_end_step_runs w1 c1 s1 (length (steps w)) _ _ _ _ _ _ _
             Hc1 Hs1 Ha1).
  cbn [fst snd].
  set (s2 := Session.set_active_step None s1).
  set (c2 := set_session (Some s2) c1).
  set (w2 := set_client _ _).
  assert (Hc2 : client w2 = Some c2) by reflexivity.
  assert (Hs2 : session c2 = Some s2) by reflexivity.
  assert (Ha2 : active_step s2 = None) by reflexivity.
  split; [reflexivity|]. split.
  { cbn. rewrite list_lookup_total_middle by reflexivity. reflexivity. }
  split; [reflexivity|]. split.
  { eexists. unfold lucidicai.create_step. enter Hc1. rewrite Hs1.
    unfold Session.create_step. rewrite Ha1. reflexivity. }
  split; [reflexivity|]. split.
  { cbn. rewrite list_lookup_total_insert_eq
      by (rewrite length_app; cbn; lia).
    reflexivity. }
  split; [reflexivity|].
  split; [exact (update_step_no_step w2 c2 Hc2 s2 Hs2 Ha2 _ _ _ _ _ _ _)|].
  split; [exact (end_step_no_step w2 c2 Hc2 s2 Hs2 Ha2 _ _ _ _ _ _ _)|].
  split.
  { eexists. unfold lucidicai.create_event. enter Hc2. rewrite Hs2, Ha2.
    reflexivity. }
  rewrite (facade_create_step_runs w2 c2 s2 _ _ _ _ _ _ _ Hc2 Hs2 Ha2).
  reflexivity.
Qed.

Lemma step_lifecycle_witness :
  let create := lucidicai.create_step None None (Some "log in") None None None None in
  let finish := lucidicai.end_step None None (Some "log in") None None None None in
  fst (create Sample.in_session) = Returned tt /\
  fst (finish (snd (create Sample.in_session))) = Returned tt /\
  rejects finish (snd (finish (snd (create Sample.in_session)))) /\
  fst (create (snd (finish (snd (create Sample.in_session))))) = Returned tt.
Proof.
  destruct (step_lifecycle Sample.in_session _ _ None None (Some "log in") None
              None None None None None None None None eq_refl eq_refl eq_refl)
    as (Hcreate & _ & _ & _ & Hend & _ & _ & _ & Hagain & _ & Hnew).
  cbv zeta. repeat split; assumption.
Defined.

(** ** What the update calls leave alone *)

Lemma getitem_in_range {St A} (l : list A) (i : Z) (s : St) :
  i < 0 -> - Z.of_nat (length l) <= i ->
  exists x, getitem l i s = (Returned x, s).
Proof.
  intros Hneg Hlow. unfold getitem.
  destruct (Z.ltb_spec i 0) as [_|Hge]; [|lia].
  destruct (Z.ltb_spec i (- Z.of_nat (length l))) as [Hlt|_]; [lia|].
  destruct (lookup_lt_is_Some_2 l (Z.to_nat (Z.of_nat (length l) + i)))
    as [x Hx]; [lia|].
  exists x. rewrite Hx. reflexivity.
Qed.

Lemma event_flag_kept e kw w e' :
  kw_is_finished kw = None ->
  ev_is_finished (events (snd (Event.update_event e kw w)) !!! e')
  = ev_is_finished (events w !!! e').
Proof.
  intros Hkw. rewrite update_event_world. cbn.
  rewrite lookup_total_insert.
  destruct (decide (e = e' /\ (e < length (events w))%nat)) as [[-> _]|_];
    [|reflexivity].
  unfold Event.updated. cbn. rewrite Hkw. reflexivity.
Qed.

Lemma step_flag_kept l kw w l' :
  kw_step_is_finished kw = None ->
  st_is_finished (steps (snd (Step.update_step l kw w)) !!! l')
  = st_is_finished (steps w !!! l').
Proof.
  intros Hkw. cbn. rewrite lookup_total_insert.
  destruct (decide (l = l' /\ (l < length (steps w))%nat)) as [[-> _]|_];
    [|reflexivity].
  unfold Step.updated. cbn. rewrite Hkw. reflexivity.
Qed.

Section Updates.

Variable w : World.
Variables (e l : loc).

Lemma quiet_same r : quiet_update w e l (r, w).
Proof. repeat split. Qed.

Lemma quiet_print r msg :
  quiet_update w e l (r, set_stdout (stdout w ++ [Line msg]) w).
Proof. repeat split. Qed.

Lemma quiet_event e0 kw :
  kw_is_finished kw = None -> quiet_update w e l (Event.update_event e0 kw w).
Proof.
  intros Hkw. split; [apply event_flag_kept, Hkw|]. split; reflexivity.
Qed.

Lemma quiet_step l0 kw :
  kw_step_is_finished kw = None -> quiet_update w e l (Step.update_step l0 kw w).
Proof.
  intros Hkw. split; [reflexivity|]. split; [apply step_flag_kept, Hkw|].
  reflexivity.
Qed.

Lemma quiet_update_step st ac go es ed sc sp :
  quiet_update w e l (lucidicai.update_step st ac go es ed sc sp w).
Proof.
  unfold lucidicai.update_step.
  destruct (client w) as [c|] eqn:Hc;
    [|rewrite (bind_raised _ _ _ _ _ (call_uninitialized _ Hc));
      apply quiet_same].
  enter Hc. destruct (session c) as [s|]; [|apply quiet_print].
  destruct (active_step s) as [l0|] eqn:Ha; [|apply quiet_same].
  unfold Session.update_step. rewrite Ha.
  change (quiet_update w e l
            (Step.update_step l0
               (lucidicai.step_locals st ac go es ed sc sp None) w)).
  apply quiet_step. reflexivity.
Qed.

Lemma quiet_update_previous_step index st ac go es ed sc sp :
  quiet_update w e l
    (lucidicai.update_previous_step index st ac go es ed sc sp w).
Proof.
  unfold lucidicai.update_previous_step.
  destruct (client w) as [c|] eqn:Hc;
    [|rewrite (bind_raised _ _ _ _ _ (call_uninitialized _ Hc));
      apply quiet_same].
  enter Hc. destruct (session c) as [s|]; [|apply quiet_print].
  destruct (Z.geb_spec index 0) as [_|Hneg]; [apply quiet_same|].
  destruct (Z.ltb_spec index (- Z.of_nat (length (step_history s))))
    as [_|Hlow]; [apply quiet_same|].
  destruct (getitem_in_range (step_history s) index w Hneg Hlow) as [slot Hg].
  rewrite (bind_returned _ _ _ _ _ Hg).
  destruct slot as [l0|]; [apply quiet_step; reflexivity | apply quiet_print].
Qed.

Lemma quiet_update_event de re co mo ss :
  quiet_update w e l (lucidicai.update_event de re co mo ss w).
Proof.
  unfold lucidicai.update_event.
  destruct (client w) as [c|] eqn:Hc;
    [|rewrite (bind_raised _ _ _ _ _ (call_uninitialized _ Hc));
      apply quiet_same].
  enter Hc. destruct (session c) as [s|]; [|apply quiet_print].
  destruct (active_step s) as [l0|]; [|apply quiet_same].
  unfold bind at 1, gets at 1.
  destruct (event_history (steps w !!! l0)) as [|x t] eqn:Hh;
    [apply quiet_same|].
  destruct (getitem_in_range (x :: t) (-1) w) as [e0 Hg];
    [lia | cbn [length]; lia|].
  rewrite (bind_returned _ _ _ _ _ Hg). apply quiet_event. reflexivity.
Qed.

Lemma quiet_update_previous_event index de re co mo ss :
  quiet_update w e l
    (lucidicai.update_previous_event index de re co mo ss w).
Proof.
  unfold lucidicai.update_previous_event.
  destruct (client w) as [c|] eqn:Hc;
    [|rewrite (bind_raised _ _ _ _ _ (call_uninitialized _ Hc));
      apply quiet_same].
  enter Hc. destruct (session c) as [s|]; [|apply quiet_print].
  destruct (active_step s) as [l0|]; [|apply quiet_same].
  unfold bind at 1, gets at 1.
  destruct (event_history (steps w !!! l0)) as [|x t] eqn:Hh;
    [apply quiet_same|].
  destruct (Z.geb_spec index 0) as [_|Hneg]; [apply quiet_same|].
  destruct (Z.ltb_spec index (- Z.of_nat (length (x :: t))))
    as [_|Hlow]; [apply quiet_same|].
  destruct (getitem_in_range (x :: t) index w Hneg Hlow) as [e0 Hg].
  rewrite (bind_returned _ _ _ _ _ Hg). apply quiet_event. reflexivity.
Qed.

End Updates.

(** X10: the four update calls of the facade for Steps and Events
    ([update_step], [update_previous_step], [update_event],
    [update_previous_event]) never finish or reopen anything: in every
    state and for every index, whether they return, warn or raise, each
    Event and each Step has the finished flag it had before, and the active
    Step of the Session is the same. *)
Theorem updates_keep_finished (w : World) (e l : loc) (index : Z)
    (state action goal : option string) (eval_score : option Q)
    (eval_description screenshot screenshot_path description result : option string)
    (cost_added : option Q) (model : option string)
    (screenshots : option (list string)) :
  quiet_update w e l
    (lucidicai.update_step state action goal eval_score eval_description
       screenshot screenshot_path w) /\
  quiet_update w e l
    (lucidicai.update_previous_step index state action goal eval_score
       eval_description screenshot screenshot_path w) /\
  quiet_update w e l
    (lucidicai.update_event description result cost_added model screenshots w) /\
  quiet_update w e l
    (lucidicai.update_previous_event index description result cost_added
       model screenshots w).
Proof.
  split; [apply quiet_update_step|].
  split; [apply quiet_update_previous_step|].
  split; [apply quiet_update_event | apply quiet_update_previous_event].
Qed.

(** ** The callbacks for chains, tools, retrievers and agent actions *)

Lemma try_except_total {St} (body : M St unit) handler s :
  (forall e s0, fst (handler e s0) = Returned tt) ->
  exists s', try_except body handler s = (Returned tt, s').
Proof.
  intros Hh. unfold try_except. destruct (body s) as [[[]|e] s1].
  - eexists. reflexivity.
  - exists (snd (handler e s1)). specialize (Hh e s1).
    destruct (handler e s1) as [r s2]. cbn in *. rewrite Hh. reflexivity.
Qed.

Section Guarded.

Variables (w : World) (h : Handler) (c : Client).
Hypothesis Hclient : client w = Some c.

(** The shape shared by the callbacks after their first line: the Session
    check, then a body whose exceptions are printed. *)
Lemma guarded_returns (refuse : string) (body : M Env unit)
    (handler : exn -> M Env unit) :
  (forall e s0, fst (handler e s0) = Returned tt) ->
  fst ((active <- session_and_active_step ;;
        match active with
        | None => lift (print refuse)
        | Some _ => try_except body handler
        end) {| world := w; self := h |}) = Returned tt.
Proof.
  intros Hh. rewrite (bind_returned _ _ _ _ _ (guard_runs w h c Hclient)).
  destruct (session c ≫= active_step); [|reflexivity].
  destruct (try_except_total body handler {| world := w; self := h |} Hh)
    as [s' ->].
  reflexivity.
Qed.

End Guarded.


Section EndWith.

Variables (w : World) (h : Handler) (c : Client) (s : Session) (l : loc).
Variables (what : string) (kwargs : callback_kwargs).
Hypothesis Hclient : client w = Some c.
Hypothesis Hsession : session c = Some s.
Hypothesis Hstep : active_step s = Some l.

Local Abbreviation run_id := (run_id_of kwargs).

Lemma end_with_success_finishes result e :
  run_to_event h !! run_id = Some e ->
  ev_is_finished (events w !!! e) = false ->
  end_with_success what (Returned result) kwargs {| world := w; self := h |}
  = (Returned tt,
     {| world := snd (Event.update_event e
                        (finishing None None result (Some true)) w);
        self := set_run_to_event (delete run_id (run_to_event h)) h |}).
Proof.
  intros He Hf. unfold end_with_success.
  next_by ltac:(apply (guard_runs _ _ c); exact Hclient).
  rewrite Hsession. cbn [mbind option_bind]. rewrite Hstep. next.
  apply try_except_returned.
  next. cbn [world self]. rewrite He. next.
  cbn [world self]. rewrite Hf. cbn [negb]. reflexivity.
Qed.

Lemma end_with_failure_finishes e :
  run_to_event h !! run_id = Some e ->
  ev_is_finished (events w !!! e) = false ->
  end_with_failure what kwargs {| world := w; self := h |}
  = (Returned tt,
     {| world := snd (Event.update_event e
                        (finishing None None None (Some false)) w);
        self := set_run_to_event (delete run_id (run_to_event h)) h |}).
Proof.
  intros He Hf. unfold end_with_failure.
  next_by ltac:(apply (guard_runs _ _ c); exact Hclient).
  rewrite Hsession. cbn [mbind option_bind]. rewrite Hstep.
  apply try_except_returned.
  next. cbn [world self]. rewrite He. next.
  cbn [world self]. rewrite Hf. cbn [negb]. reflexivity.
Qed.

Lemma end_with_success_finished result e :
  run_to_event h !! run_id = Some e ->
  ev_is_finished (events w !!! e) = true ->
  end_with_success what (Returned result) kwargs {| world := w; self := h |}
  = (Returned tt,
     {| world := w;
        self := set_run_to_event (delete run_id (run_to_event h)) h |}).
Proof.
  intros He Hf. unfold end_with_success.
  next_by ltac:(apply (guard_runs _ _ c); exact Hclient).
  rewrite Hsession. cbn [mbind option_bind]. rewrite Hstep. next.
  apply try_except_returned.
  next. cbn [world self]. rewrite He. next.
  cbn [world self]. rewrite Hf. cbn [negb]. reflexivity.
Qed.

Lemma end_with_failure_finished e :
  run_to_event h !! run_id = Some e ->
  ev_is_finished (events w !!! e) = true ->
  end_with_failure what kwargs {| world := w; self := h |}
  = (Returned tt,
     {| world := w;
        self := set_run_to_event (delete run_id (run_to_event h)) h |}).
Proof.
  intros He Hf. unfold end_with_failure.
  next_by ltac:(apply (guard_runs _ _ c); exact Hclient).
  rewrite Hsession. cbn [mbind option_bind]. rewrite Hstep.
  apply try_except_returned.
  next. cbn [world self]. rewrite He. next.
  cbn [world self]. rewrite Hf. cbn [negb]. reflexivity.
Qed.


Lemma end_with_failure_miss :
  run_to_event h !! run_id = None ->
  end_with_failure what kwargs {| world := w; self := h |}
  = (Returned tt,
     {| world := set_stdout (stdout w ++ [Line "[Lucidic] No event found"]) w;
        self := h |}).
Proof.
  intros He. unfold end_with_failure.
  next_by ltac:(apply (guard_runs _ _ c); exact Hclient).
  rewrite Hsession. cbn [mbind option_bind]. rewrite Hstep.
  apply try_except_returned.
  next. cbn [world self]. rewrite He. reflexivity.
Qed.

Lemma end_with_success_raises e :
  end_with_success what (Raised e) kwargs {| world := w; self := h |}
  = (Raised e, {| world := w; self := h |}).
Proof.
  unfold end_with_success.
  next_by ltac:(apply (guard_runs _ _ c); exact Hclient).
  rewrite Hsession. cbn [mbind option_bind]. rewrite Hstep. reflexivity.
Qed.

End EndWith.

Section EndWithout.

Variables (w : World) (h : Handler) (c : Client).
Variables (what : string) (kwargs : callback_kwargs).
Hypothesis Hclient : client w = Some c.
Hypothesis Hnone : session c ≫= active_step = None.

Lemma end_with_success_no_step result :
  end_with_success what result kwargs {| world := w; self := h |}
  = (Returned tt,
     {| world :=
          set_stdout
            (stdout w ++
               [Line "[Lucidic] Cannot end event - no active session or step"]) w;
        self := h |}).
Proof.
  unfold end_with_success.
  next_by ltac:(apply (guard_runs _ _ c); exact Hclient).
  rewrite Hnone. reflexivity.
Qed.

Lemma end_with_failure_no_step :
  end_with_failure what kwargs {| world := w; self := h |}
  = (Returned tt,
     {| world :=
          set_stdout
            (stdout w ++
               [Line "[Lucidic] Cannot end event - no active session or step"]) w;
        self := h |}).
Proof.
  unfold end_with_failure.
  next_by ltac:(apply (guard_runs _ _ c); exact Hclient).
  rewrite Hnone. reflexivity.
Qed.

End EndWithout.





Lemma on_llm_end_no_step calculate_cost w h c response run_id bound :
  client w = Some c ->
  session c ≫= active_step = None ->
  first_bound calculate_cost (default "unknown" (run_to_model h !! run_id)) response
  = Returned bound ->
  on_llm_end calculate_cost response run_id {| world := w; self := h |}
  = (Returned tt,
     {| world :=
          set_stdout
            (stdout (end_announced w) ++
               [Line "[Lucidic] Cannot end event - no active session or step"]) w;
        self := h |}).
Proof.
  intros Hc Hnone Hb. unfold on_llm_end.
  next. next. cbn [world self]. rewrite bound_runs, Hb.
  next. destruct bound as [cost message]. cbv beta iota.
  next_by ltac:(apply (guard_runs _ _ c); exact Hc).
  rewrite Hnone. reflexivity.
Qed.

Lemma on_llm_error_no_step w h c run_id :
  client w = Some c ->
  session c ≫= active_step = None ->
  on_llm_error run_id {| world := w; self := h |}
  = (Returned tt,
     {| world :=
          set_stdout
            (stdout (error_announced w) ++
               [Line "[Lucidic] Cannot end event - no active session or step"]) w;
        self := h |}).
Proof.
  intros Hc Hnone. unfold on_llm_error.
  next. next. cbn [world self].
  next_by ltac:(apply (guard_runs _ _ c); exact Hc).
  rewrite Hnone. reflexivity.
Qed.

(** X12: with an initialised client, an end or error callback that
    arrives when no Session or no Step is active (for instance after
    [end_step]) returns after its refusal line without doing its work: no
    Event is updated, no request is sent, and the call leaves the run in
    [run_to_model] and in [run_to_event]. For [on_llm_end] this is so when
    the statements before its Session check do not raise, that is when the
    response has no generation or its first generation is a chat generation
    for which [calculate_cost] returns. *)
Theorem end_without_step (calculate_cost : string -> option usage -> outcome Q)
    (w : World) (h : Handler) (c : Client) (response : LLMResult)
    (run_id : string) (kwargs : callback_kwargs)
    (outputs : chain_outputs) (output : option string)
    (documents : list document) (bound : option Q * option AIMessage) :
  client w = Some c ->
  session c ≫= active_step = None ->
  first_bound calculate_cost (default "unknown" (run_to_model h !! run_id)) response
  = Returned bound ->
  let env := {| world := w; self := h |} in
  refused_end env (on_llm_end calculate_cost response run_id env) /\
  refused_end env (on_llm_error run_id env) /\
  refused_end env (on_chain_end outputs kwargs env) /\
  refused_end env (on_chain_error kwargs env) /\
  refused_end env (on_tool_end output kwargs env) /\
  refused_end env (on_tool_error kwargs env) /\
  refused_end env (on_retriever_end documents kwargs env) /\
  refused_end env (on_retriever_error kwargs env).
Proof.
  intros Hc Hnone Hb. cbv zeta.
  assert (Hc' : forall out, client (set_stdout out w) = Some c)
    by (intros out; exact Hc).
  rewrite (on_llm_end_no_step _ w h c _ _ bound Hc Hnone Hb).
  rewrite (on_llm_error_no_step w h c _ Hc Hnone).
  unfold on_chain_end, on_chain_error, on_tool_end, on_tool_error,
    on_retriever_end, on_retriever_error.
  repeat (erewrite bind_returned by reflexivity). cbn [world self].
  rewrite !(end_with_success_no_step _ h c _ _ (Hc' _) Hnone).
  rewrite !(end_with_failure_no_step _ h c _ _ (Hc' _) Hnone).
  unfold refused_end. cbn [fst snd world self].
  repeat split; cbn; apply last_snoc.
Qed.

Lemma end_without_step_witness :
  refused_end Scene.abandoned
    (on_llm_end Payload.per_token Payload.chat_result "run-1" Scene.abandoned) /\
  refused_end Scene.abandoned
    (on_tool_error (Payload.for_run "run-1") Scene.abandoned) /\
  run_to_event (self Scene.abandoned) !! "run-1" = Some 0%nat.
Proof.
  destruct (end_without_step Payload.per_token (world Scene.abandoned)
              (self Scene.abandoned) _ Payload.chat_result "run-1"
              (Payload.for_run "run-1") (OutputsDict []) None [] _
              eq_refl eq_refl eq_refl)
    as (Hend & _ & _ & _ & _ & Herror & _).
  split; [exact Hend|]. split; [exact Herror|]. reflexivity.
Defined.

Section LlmFinished.

Variables (calculate_cost : string -> option usage -> outcome Q).
Variables (w : World) (h : Handler) (c : Client) (s : Session) (l e : loc).
Variable run_id : string.
Hypothesis Hclient : client w = Some c.
Hypothesis Hsession : session c = Some s.
Hypothesis Hstep : active_step s = Some l.
Hypothesis Hevent : run_to_event h !! run_id = Some e.
Hypothesis Hfinished : ev_is_finished (events w !!! e) = true.

Lemma on_llm_end_finished response bound :
  first_bound calculate_cost (default "unknown" (run_to_model h !! run_id)) response
  = Returned bound ->
  on_llm_end calculate_cost response run_id {| world := w; self := h |}
  = (Returned tt,
     {| world :=
          set_stdout
            (stdout (end_announced w) ++ [Line "[Lucidic] Event already finished"]) w;
        self := forgotten run_id h |}).
Proof.
  intros Hb. unfold on_llm_end.
  next. next. cbn [world self]. rewrite bound_runs, Hb.
  next. destruct bound as [cost message]. cbv beta iota.
  next_by ltac:(apply (guard_runs _ _ c); exact Hclient).
  rewrite Hsession. cbn [mbind option_bind]. rewrite Hstep.
  erewrite bind_returned; cycle 1.
  { apply try_except_returned.
    next. cbn [world self]. rewrite Hevent. next.
    cbn [world self events set_stdout]. rewrite Hfinished. cbn [negb].
    reflexivity. }
  reflexivity.
Qed.

Lemma on_llm_error_finished :
  on_llm_error run_id {| world := w; self := h |}
  = (Returned tt, {| world := error_announced w; self := forgotten run_id h |}).
Proof.
  unfold on_llm_error.
  next. next. cbn [world self].
  next_by ltac:(apply (guard_runs _ _ c); exact Hclient).
  rewrite Hsession. cbn [mbind option_bind]. rewrite Hstep.
  erewrite bind_returned; cycle 1.
  { apply try_except_returned.
    next. cbn [world self]. rewrite Hevent. next.
    cbn [world self events set_stdout]. rewrite Hfinished. cbn [negb].
    reflexivity. }
  reflexivity.
Qed.

End LlmFinished.

(** X13: with an initialised client, an active Step and an unfinished
    Event recorded for the run, [on_chain_end] (when the extraction of the
    first output does not raise), [on_tool_end] and [on_retriever_end]
    finish that Event with [is_successful=True] and their result (the
    dumped first output of the chain if it is truthy, at most 1000
    characters of the tool output, the summary of the documents), and
    [on_chain_error], [on_tool_error] and [on_retriever_error] finish it
    with [is_successful=False] and no result; each sends exactly one
    update, removes the run from [run_to_event] and leaves [run_to_model]
    alone. *)
Theorem nested_end_finishes (w : World) (h : Handler) (c : Client)
    (s : Session) (l e : loc) (kwargs : callback_kwargs)
    (outputs : chain_outputs) (result : option string) (output : option string)
    (documents : list document) :
  client w = Some c ->
  session c = Some s ->
  active_step s = Some l ->
  run_to_event h !! run_id_of kwargs = Some e ->
  ev_is_finished (events w !!! e) = false ->
  chain_result outputs = Returned result ->
  let env := {| world := w; self := h |} in
  let success result := finishing None None result (Some true) in
  let failure := finishing None None None (Some false) in
  ended_with (success result) e (run_id_of kwargs) env
    (on_chain_end outputs kwargs env) /\
  ended_with (success (take_str 1000 <$> output)) e (run_id_of kwargs) env
    (on_tool_end output kwargs env) /\
  ended_with (success (retriever_result documents)) e (run_id_of kwargs) env
    (on_retriever_end documents kwargs env) /\
  ended_with failure e (run_id_of kwargs) env (on_chain_error kwargs env) /\
  ended_with failure e (run_id_of kwargs) env (on_tool_error kwargs env) /\
  ended_with failure e (run_id_of kwargs) env (on_retriever_error kwargs env).
Proof.
  intros Hc Hs Ha He Hf Hr. cbv zeta.
  assert (Hc' : forall out, client (set_stdout out w) = Some c)
    by (intros out; exact Hc).
  unfold on_chain_end, on_chain_error, on_tool_end, on_tool_error,
    on_retriever_end, on_retriever_error.
  rewrite Hr.
  repeat (erewrite bind_returned by reflexivity). cbn [world self].
  rewrite !(end_with_success_finishes _ h c s l _ kwargs (Hc' _) Hs Ha _ e He Hf).
  rewrite !(end_with_failure_finishes _ h c s l _ kwargs (Hc' _) Hs Ha e He Hf).
  unfold ended_with. cbn [fst snd world self].
  repeat split.
Qed.

Lemma nested_end_finishes_witness :
  let env := Scene.tool_running in
  ended_with (finishing None None (Some "42") (Some true)) 0%nat "tool-1" env
    (on_tool_end (Some "42") (Payload.for_run "tool-1") env) /\
  ended_with (finishing None None None (Some false)) 0%nat "tool-1" env
    (on_tool_error (Payload.for_run "tool-1") env) /\
  ev_is_successful
    (events (world (snd (on_tool_error (Payload.for_run "tool-1") env))) !!! 0%nat)
  = Some false.
Proof.
  destruct (nested_end_finishes (world Scene.tool_running)
              (self Scene.tool_running) _ _ 0%nat 0%nat
              (Payload.for_run "tool-1") (OutputsDict []) None (Some "42") []
              eq_refl eq_refl eq_refl eq_refl eq_refl eq_refl)
    as (_ & Hend & _ & _ & Herror & _).
  cbv zeta. split; [exact Hend|]. split; [exact Herror|].
  vm_compute. reflexivity.
Defined.

(** X14: with an initialised client and an active Step, when the Event
    recorded for the run is already finished (for instance by [end_event]
    of the facade), the end and error callbacks do not update it again: no
    Event changes and no request is sent; they still remove the run from
    [run_to_event], and [on_llm_end] and [on_llm_error] from [run_to_model]
    as well. For [on_llm_end] and [on_chain_end] this is so when the
    statements they run outside their [try] do not raise: the first
    generation of the response, if any, is a chat generation for which
    [calculate_cost] returns, and the extraction of the first output of
    the chain returns. *)
Theorem end_of_finished_event (calculate_cost : string -> option usage -> outcome Q)
    (w : World) (h : Handler) (c : Client) (s : Session) (l e : loc)
    (kwargs : callback_kwargs) (response : LLMResult)
    (outputs : chain_outputs) (output : option string)
    (documents : list document) (bound : option Q * option AIMessage)
    (result : option string) :
  client w = Some c ->
  session c = Some s ->
  active_step s = Some l ->
  run_to_event h !! run_id_of kwargs = Some e ->
  ev_is_finished (events w !!! e) = true ->
  first_bound calculate_cost
    (default "unknown" (run_to_model h !! run_id_of kwargs)) response
  = Returned bound ->
  chain_result outputs = Returned result ->
  let env := {| world := w; self := h |} in
  let run_id := run_id_of kwargs in
  (dropped_quietly run_id env (on_llm_end calculate_cost response run_id env) /\
   self (snd (on_llm_end calculate_cost response run_id env))
   = forgotten run_id h) /\
  (dropped_quietly run_id env (on_llm_error run_id env) /\
   self (snd (on_llm_error run_id env)) = forgotten run_id h) /\
  dropped_quietly run_id env (on_chain_end outputs kwargs env) /\
  dropped_quietly run_id env (on_chain_error kwargs env) /\
  dropped_quietly run_id env (on_tool_end output kwargs env) /\
  dropped_quietly run_id env (on_tool_error kwargs env) /\
  dropped_quietly run_id env (on_retriever_end documents kwargs env) /\
  dropped_quietly run_id env (on_retriever_error kwargs env).
Proof.
  intros Hc Hs Ha He Hf Hb Hr. cbv zeta.
  assert (Hc' : forall out, client (set_stdout out w) = Some c)
    by (intros out; exact Hc).
  rewrite (on_llm_end_finished _ w h c s l e _ Hc Hs Ha He Hf _ bound Hb).
  rewrite (on_llm_error_finished w h c s l e _ Hc Hs Ha He Hf).
  unfold on_chain_end, on_chain_error, on_tool_end, on_tool_error,
    on_retriever_end, on_retriever_error.
  rewrite Hr.
  repeat (erewrite bind_returned by reflexivity). cbn [world self].
  rewrite !(end_with_success_finished _ h c s l _ kwargs (Hc' _) Hs Ha _ e He Hf).
  rewrite !(end_with_failure_finished _ h c s l _ kwargs (Hc' _) Hs Ha e He Hf).
  unfold dropped_quietly. cbn [fst snd world self].
  repeat split.
Qed.

Lemma end_of_finished_event_witness :
  let env := Scene.ended_by_hand in
  dropped_quietly "tool-1" env
    (on_tool_end (Some "42") (Payload.for_run "tool-1") env) /\
  dropped_quietly "tool-1" env
    (on_llm_end Payload.per_token Payload.chat_result "tool-1" env).
Proof.
  destruct (end_of_finished_event Payload.per_token (world Scene.ended_by_hand)
              (self Scene.ended_by_hand) _ _ 0%nat 0%nat
              (Payload.for_run "tool-1") Payload.chat_result (OutputsDict [])
              (Some "42") [] _ None
              eq_refl eq_refl eq_refl eq_refl eq_refl eq_refl eq_refl)
    as ((Hllm & _) & _ & _ & _ & Htool & _).
  cbv zeta. split; [exact Htool | exact Hllm].
Defined.

(** ** Start and end of the same run *)

Lemma take_str_chars (n : nat) (s : string) :
  (char_length (take_str n s) <= n)%nat.
Proof.
  revert n. induction s as [|a s IH]; intros n; cbn; [lia|].
  destruct (continuation a) eqn:Ha.
  - cbn. rewrite Ha. apply IH.
  - destruct n as [|n]; cbn; [lia|]. rewrite Ha. specialize (IH n). lia.
Qed.

Lemma created_keeps_step l kw w :
  st_is_finished (steps (created l kw w) !!! l) = st_is_finished (steps w !!! l).
Proof.
  cbn. rewrite lookup_total_insert.
  destruct (decide (l = l /\ (l < length (steps w))%nat)); reflexivity.
Qed.

Lemma created_event_unfinished l kw w :
  kw_is_finished kw = None ->
  ev_is_finished (events (created l kw w) !!! length (events w)) = false.
Proof.
  intros Hkw. cbn. rewrite list_lookup_total_middle by reflexivity.
  cbn. rewrite Hkw. reflexivity.
Qed.

Lemma started_event_unfinished l d out out' w :
  ev_is_finished
    (events (set_stdout out' (created l (handler_kwargs d None) (set_stdout out w)))
       !!! length (events w)) = false.
Proof. apply (created_event_unfinished l _ (set_stdout out w)). reflexivity. Qed.

Section NestedStart.

Variables (w : World) (h : Handler) (c : Client) (s : Session) (l : loc).
Variable kwargs : callback_kwargs.
Hypothesis Hclient : client w = Some c.
Hypothesis Hsession : session c = Some s.
Hypothesis Hstep : active_step s = Some l.
Hypothesis Hunfinished : st_is_finished (steps w !!! l) = false.

Lemma on_tool_start_creates serialized input_str :
  on_tool_start (Some serialized) input_str kwargs {| world := w; self := h |}
  = (Returned tt,
     {| world :=
          created l
            (handler_kwargs (Some (DescStr (tool_description serialized input_str)))
               None)
            (set_stdout
               (stdout w ++
                  [Line "[Lucidic] Starting tool execution in Langchain Handler, creating event..."])
               w);
        self := set_run_to_event
                  (<[run_id_of kwargs := length (events w)]> (run_to_event h)) h |}).
Proof.
  unfold on_tool_start. next. next.
  next_by ltac:(apply (guard_runs _ _ c); exact Hclient).
  rewrite Hsession. cbn [mbind option_bind]. rewrite Hstep.
  unfold try_except. cbn [world self].
  next_by ltac:(eapply the_active_step_runs;
                [exact Hclient | exact Hsession | exact Hstep]).
  next_by ltac:(apply lift_returned, create_event_runs; exact Hunfinished).
  reflexivity.
Qed.

Lemma on_retriever_start_creates serialized query :
  on_retriever_start (Some serialized) query kwargs {| world := w; self := h |}
  = (Returned tt,
     {| world :=
          created l
            (handler_kwargs (Some (DescStr (retriever_description serialized query)))
               None)
            (set_stdout
               (stdout w ++
                  [Line "[Lucidic] Starting retriever execution in Langchain Handler, creating event..."])
               w);
        self := set_run_to_event
                  (<[run_id_of kwargs := length (events w)]> (run_to_event h)) h |}).
Proof.
  unfold on_retriever_start. next. next.
  next_by ltac:(apply (guard_runs _ _ c); exact Hclient).
  rewrite Hsession. cbn [mbind option_bind]. rewrite Hstep.
  unfold try_except. cbn [world self].
  next_by ltac:(eapply the_active_step_runs;
                [exact Hclient | exact Hsession | exact Hstep]).
  next_by ltac:(apply lift_returned, create_event_runs; exact Hunfinished).
  reflexivity.
Qed.

End NestedStart.

Lemma started_then_deleted (run_id : string) (e : loc) (h : Handler) :
  set_run_to_event
    (delete run_id
       (run_to_event (set_run_to_event (<[run_id := e]> (run_to_event h)) h)))
    (set_run_to_event (<[run_id := e]> (run_to_event h)) h)
  = set_run_to_event (delete run_id (run_to_event h)) h.
Proof.
  unfold set_run_to_event. cbn. rewrite delete_insert_eq. reflexivity.
Qed.

Lemma finished_last kw kw' (L : list Event) :
  <[length L := Event.updated kw' ((L ++ [Event.init kw]) !!! length L)]>
    (L ++ [Event.init kw])
  = L ++ [Event.updated kw' (Event.init kw)].
Proof.
  rewrite list_lookup_total_middle by reflexivity.
  rewrite insert_app_r_alt by lia. rewrite Nat.sub_diag. reflexivity.
Qed.

(** X15: a tool start and the tool end of the same run, with an
    initialised client, an active unfinished Step and a [serialized] that
    is a dict: together they append exactly one Event, finished and
    successful, whose description names the tool and quotes at most 100
    characters of the input and whose result is at most 1000 characters of
    the output (no result when the output is [None]); the run is left in
    no map. The same holds for a retriever start and end, with the query in
    the description and the summary of the documents as the result. *)
Theorem nested_start_end (w : World) (h : Handler) (c : Client) (s : Session)
    (l : loc) (serialized : gmap string string) (input_str query : string)
    (output : option string) (documents : list document)
    (kwargs : callback_kwargs) :
  client w = Some c ->
  session c = Some s ->
  active_step s = Some l ->
  st_is_finished (steps w !!! l) = false ->
  let env := {| world := w; self := h |} in
  let finished_event description result :=
    {| ev_description := Some (DescStr description); ev_result := result;
       ev_cost_added := None; ev_model := None; ev_screenshots := None;
       ev_is_finished := true; ev_is_successful := Some true |} in
  let tool_run :=
    on_tool_end output kwargs (snd (on_tool_start (Some serialized) input_str kwargs env)) in
  let retriever_run :=
    on_retriever_end documents kwargs
      (snd (on_retriever_start (Some serialized) query kwargs env)) in
  (fst tool_run = Returned tt /\
   events (world (snd tool_run))
   = events w ++
       [finished_event
          ("Tool Call (" ++ default "Unknown Tool" (serialized !! "name") ++ "): "
             ++ take_str 100 input_str ++ "...")%string
          (take_str 1000 <$> output)] /\
   self (snd tool_run) = set_run_to_event (delete (run_id_of kwargs) (run_to_event h)) h /\
   (char_length (take_str 100 input_str) <= 100)%nat /\
   (forall result, take_str 1000 <$> output = Some result ->
                   (char_length result <= 1000)%nat)) /\
  (fst retriever_run = Returned tt /\
   events (world (snd retriever_run))
   = events w ++
       [finished_event
          ("Retriever (" ++ default "Unknown Retriever" (serialized !! "name")
             ++ "): " ++ take_str 100 query ++ "...")%string
          (retriever_result documents)] /\
   self (snd retriever_run)
   = set_run_to_event (delete (run_id_of kwargs) (run_to_event h)) h).
Proof.
  intros Hc Hs Ha Hf. cbv zeta.
  rewrite (on_tool_start_creates w h c s l kwargs Hc Hs Ha Hf).
  rewrite (on_retriever_start_creates w h c s l kwargs Hc Hs Ha Hf).
  cbn [snd].
  unfold on_tool_end, on_retriever_end.
  repeat (erewrite bind_returned by reflexivity). cbn [world self].
  split.
  - erewrite end_with_success_finishes;
      [ | exact Hc | exact Hs | exact Ha | apply lookup_insert_eq
        | apply started_event_unfinished ].
    cbn [fst snd world self]. rewrite started_then_deleted.
    split; [reflexivity|]. split.
    { rewrite update_event_world. cbn [snd events set_requests set_events].
      unfold created. cbn [events set_requests set_steps set_events set_stdout].
      rewrite finished_last. unfold Event.updated, tool_description. cbn.
      destruct output; reflexivity. }
    split; [reflexivity|]. split; [apply take_str_chars|].
    intros result Hr. apply fmap_Some in Hr as (o & _ & ->).
    apply take_str_chars.
  - erewrite end_with_success_finishes;
      [ | exact Hc | exact Hs | exact Ha | apply lookup_insert_eq
        | apply started_event_unfinished ].
    cbn [fst snd world self]. rewrite started_then_deleted.
    split; [reflexivity|]. split; [|reflexivity].
    rewrite update_event_world. cbn [snd events set_requests set_events].
    unfold created. cbn [events set_requests set_steps set_events set_stdout].
    rewrite finished_last. unfold Event.updated, retriever_description. cbn.
    destruct (retriever_result documents); reflexivity.
Qed.

Lemma nested_start_end_witness :
  let tool_run :=
    on_tool_end (Some "42") (Payload.for_run "tool-1")
      (snd (on_tool_start (Some {[ "name" := "calculator" ]}) "6 * 7"
              (Payload.for_run "tool-1") Payload.listening)) in
  fst tool_run = Returned tt /\
  events (world (snd tool_run))
  = [{| ev_description := Some (DescStr "Tool Call (calculator): 6 * 7...");
        ev_result := Some "42"; ev_cost_added := None; ev_model := None;
        ev_screenshots := None; ev_is_finished := true;
        ev_is_successful := Some true |}] /\
  run_to_event (self (snd tool_run)) !! "tool-1" = None.
Proof.
  destruct (nested_start_end (world Payload.listening) (self Payload.listening)
              _ _ 0%nat {[ "name" := "calculator" ]} "6 * 7" "" (Some "42") []
              (Payload.for_run "tool-1") eq_refl eq_refl eq_refl eq_refl)
    as ((Hret & Hevents & Hself & _) & _).
  cbv zeta. split; [exact Hret|]. split; [exact Hevents|].
  change (run_to_event
            (self (snd (on_tool_end (Some "42") (Payload.for_run "tool-1")
                          (snd (on_tool_start (Some {[ "name" := "calculator" ]}) "6 * 7"
                                  (Payload.for_run "tool-1")
                                  {| world := world Payload.listening;
                                     self := self Payload.listening |})))))
            !! "tool-1" = None).
  rewrite Hself. apply lookup_delete_eq.
Defined.

(** ** Agent actions *)

(** X16: with an active unfinished Step, [on_agent_action] appends exactly
    one Event and ends it at once: the Event is finished and successful,
    its description names the tool and its result describes the tool input
    (the items of a non-empty dict, the text of another truthy value,
    nothing for a falsy one); two requests are sent, the creation and the
    update. The run is not kept: the key of the run is absent from
    [run_to_event] afterwards, even if another run had an entry under it. *)
Theorem agent_action_records (w : World) (h : Handler) (c : Client)
    (s : Session) (l : loc) (action : AgentAction) (kwargs : callback_kwargs) :
  client w = Some c ->
  session c = Some s ->
  active_step s = Some l ->
  st_is_finished (steps w !!! l) = false ->
  let r := on_agent_action action kwargs {| world := w; self := h |} in
  let tool_name := default "unknown_tool" (tool action) in
  fst r = Returned tt /\
  events (world (snd r))
  = events w ++
      [{| ev_description := Some (DescStr ("Agent Action: " ++ tool_name)%string);
          ev_result := Some (action_result action);
          ev_cost_added := None; ev_model := None; ev_screenshots := None;
          ev_is_finished := true; ev_is_successful := Some true |}] /\
  requests (world (snd r))
  = requests w ++
      [InitEvent (length (events w));
       UpdateEvent (length (events w))
         (finishing None None (Some (action_result action)) (Some true))] /\
  run_to_event (self (snd r)) = delete (run_id_of kwargs) (run_to_event h) /\
  run_to_model (self (snd r)) = run_to_model h.
Proof.
  intros Hc Hs Ha Hf. cbv zeta. unfold on_agent_action.
  next.
  next_by ltac:(apply (guard_runs _ _ c); exact Hc).
  rewrite Hs. cbn [mbind option_bind]. rewrite Ha.
  erewrite try_except_returned; cycle 1.
  { cbn [world self].
    next_by ltac:(eapply the_active_step_runs; [exact Hc | exact Hs | exact Ha]).
    next_by ltac:(apply lift_returned, create_event_runs; exact Hf).
    next. next. cbn [world self].
    rewrite (created_event_unfinished l _ (set_stdout _ w)) by reflexivity.
    cbn [negb]. next. next. reflexivity. }
  cbn [fst snd world self]. split; [reflexivity|].
  split.
  { cbn [events set_stdout set_requests set_events created set_steps].
    exact (finished_last (handler_kwargs _ None)
             (finishing None None (Some (action_result action)) (Some true))
             (events w)). }
  split.
  { cbn. rewrite <- app_assoc. reflexivity. }
  split; [|reflexivity].
  cbn. apply delete_insert_eq.
Qed.

Lemma agent_action_records_witness :
  let r := on_agent_action
             {| tool := Some "search";
                tool_input := Some (ToolInputDict [("q", "cats"); ("n", "3")]) |}
             Payload.no_kwargs Payload.listening in
  fst r = Returned tt /\
  events (world (snd r))
  = [{| ev_description := Some (DescStr "Agent Action: search");
        ev_result := Some "Using tool 'search' with inputs: q: cats, n: 3";
        ev_cost_added := None; ev_model := None; ev_screenshots := None;
        ev_is_finished := true; ev_is_successful := Some true |}].
Proof.
  destruct (agent_action_records (world Payload.listening)
              (self Payload.listening) _ _ 0%nat
              {| tool := Some "search";
                 tool_input := Some (ToolInputDict [("q", "cats"); ("n", "3")]) |}
              Payload.no_kwargs eq_refl eq_refl eq_refl eq_refl)
    as (Hret & Hevents & _).
  cbv zeta. split; [exact Hret | exact Hevents].
Defined.

(** ** Runs that share a key, runs that do not *)




(** X18: two LLM runs with different ids that overlap, with an initialised
    client and an active unfinished Step, do not disturb each other. After
    both starts each run has its own Event and its own model; when the
    response of the first run starts with a chat generation and
    [calculate_cost] returns a cost for the model of the first run and the
    usage of that message, the end of the first run finishes the first
    Event, although it is not the latest one, with the model of the first
    run, that cost and the text of the message, and leaves the Event and
    the entries of the second run as they are. *)
Theorem runs_are_independent (calculate_cost : string -> option usage -> outcome Q)
    (w : World) (h : Handler) (c : Client) (s : Session) (l : loc)
    (serialized1 serialized2 : option (gmap string string))
    (prompts1 prompts2 : list prompt) (run1 run2 : string)
    (kwargs1 kwargs2 : callback_kwargs) (message : AIMessage)
    (rest : list generation) (others : list (list generation)) (cost : Q) :
  client w = Some c ->
  session c = Some s ->
  active_step s = Some l ->
  st_is_finished (steps w !!! l) = false ->
  run1 <> run2 ->
  calculate_cost (_get_model_name serialized1 kwargs1) (usage_metadata message)
  = Returned cost ->
  let n := length (events w) in
  let env1 :=
    snd (on_llm_start serialized1 prompts1 run1 kwargs1 {| world := w; self := h |}) in
  let env2 := snd (on_llm_start serialized2 prompts2 run2 kwargs2 env1) in
  let ended :=
    on_llm_end calculate_cost
      {| generations := (ChatGeneration message :: rest) :: others |} run1 env2 in
  let model1 := _get_model_name serialized1 kwargs1 in
  run_to_event (self env2) !! run1 = Some n /\
  run_to_event (self env2) !! run2 = Some (S n) /\
  fst ended = Returned tt /\
  events (world (snd ended))
  = events w ++
      [{| ev_description := Some (DescList (split_prompts prompts1).1);
          ev_result := Some (pretty_repr message);
          ev_cost_added := Some cost;
          ev_model := Some model1;
          ev_screenshots := Some (split_prompts prompts1).2;
          ev_is_finished := true;
          ev_is_successful := Some true |};
       Event.init (handler_kwargs (Some (DescList (split_prompts prompts2).1))
                     (Some (split_prompts prompts2).2))] /\
  run_to_event (self (snd ended)) !! run1 = None /\
  run_to_model (self (snd ended)) !! run1 = None /\
  run_to_event (self (snd ended)) !! run2 = Some (S n) /\
  run_to_model (self (snd ended)) !! run2
  = Some (_get_model_name serialized2 kwargs2).
Proof.
  intros Hc Hs Ha Hf Hne Hcost. cbv zeta.
  rewrite (on_llm_start_creates w h c s l _ _ _ _ Hc Hs Ha Hf). cbn [snd].
  set (kw1 := handler_kwargs _ _).
  set (h1 := set_run_to_event _ _).
  set (w1 := created l kw1 (start_announced w)).
  assert (Hc1 : client w1 = Some c) by exact Hc.
  assert (Hf1 : st_is_finished (steps w1 !!! l) = false).
  { unfold w1. rewrite created_keeps_step. exact Hf. }
  rewrite (on_llm_start_creates w1 h1 c s l _ _ _ _ Hc1 Hs Ha Hf1). cbn [snd].
  set (kw2 := handler_kwargs _ _).
  set (h2 := set_run_to_event _ _).
  set (w2 := created l kw2 (start_announced w1)).
  assert (Hlen : length (events w1) = S (length (events w))).
  { unfold w1. cbn. rewrite length_app. cbn. lia. }
  assert (He1 : run_to_event h2 !! run1 = Some (length (events w))).
  { unfold h2, h1, started_model. cbn.
    rewrite lookup_insert_ne by (intros Heq; apply Hne; symmetry; exact Heq).
    apply lookup_insert_eq. }
  assert (He2 : run_to_event h2 !! run2 = Some (S (length (events w)))).
  { unfold h2. cbn [run_to_event set_run_to_event].
    rewrite lookup_insert_eq, Hlen. reflexivity. }
  assert (Hm1 : default "unknown" (run_to_model h2 !! run1)
                = _get_model_name serialized1 kwargs1).
  { unfold h2, h1, started_model. cbn.
    rewrite lookup_insert_ne by (intros Heq; apply Hne; symmetry; exact Heq).
    rewrite lookup_insert_eq. reflexivity. }
  assert (Hc2 : client w2 = Some c) by exact Hc.
  assert (Hopen : ev_is_finished (events w2 !!! length (events w)) = false).
  { unfold w2, w1. cbn. rewrite lookup_total_app_l
      by (rewrite length_app; cbn; lia).
    rewrite list_lookup_total_middle by reflexivity. reflexivity. }
  rewrite <- Hm1 in Hcost.
  rewrite (on_llm_end_finishes calculate_cost w2 h2 c s l run1 Hc2 Hs Ha _
             message rest others cost He1 Hopen Hcost).
  cbn [fst snd world self]. rewrite Hm1.
  split; [exact He1|]. split; [exact He2|]. split; [reflexivity|].
  split.
  { unfold w2, w1. cbn.
    rewrite lookup_total_app_l by (rewrite length_app; cbn; lia).
    rewrite list_lookup_total_middle by reflexivity.
    rewrite insert_app_l by (rewrite length_app; cbn; lia).
    rewrite insert_app_r_alt by lia. rewrite Nat.sub_diag.
    rewrite <- app_assoc. reflexivity. }
  unfold forgotten. cbn [run_to_event run_to_model].
  split; [apply lookup_delete_eq|]. split; [apply lookup_delete_eq|].
  rewrite !lookup_delete_ne by exact Hne.
  split; [exact He2|].
  unfold h2, h1, started_model. cbn. apply lookup_insert_eq.
Qed.

Lemma runs_are_independent_witness :
  let env2 :=
    snd (on_llm_start (Some {[ "name" := "claude" ]}) [PromptStr "second"] "run-2"
           Payload.no_kwargs
           (snd (on_llm_start (Some {[ "name" := "gpt" ]}) [PromptStr "first"]
                   "run-1" Payload.no_kwargs Payload.listening))) in
  let ended := on_llm_end Payload.per_token Payload.chat_result "run-1" env2 in
  fst ended = Returned tt /\
  ev_model <$> events (world (snd ended)) = [Some "gpt"; None] /\
  ev_is_finished <$> events (world (snd ended)) = [true; false] /\
  run_to_model (self (snd ended)) !! "run-2" = Some "claude".
Proof.
  destruct (runs_are_independent Payload.per_token (world Payload.listening)
              (self Payload.listening) _ _ 0%nat (Some {[ "name" := "gpt" ]})
              (Some {[ "name" := "claude" ]}) [PromptStr "first"]
              [PromptStr "second"] "run-1" "run-2" Payload.no_kwargs
              Payload.no_kwargs Payload.reply [] [] (inject_Z 42 / 1000)%Q
              eq_refl eq_refl eq_refl eq_refl)
    as (_ & _ & Hret & Hevents & _ & _ & _ & Hmodel).
  { discriminate. }
  { reflexivity. }
  cbv zeta. split; [exact Hret|].
  split; [|split; [|exact Hmodel]].
  - etransitivity; [exact (f_equal (fmap ev_model) Hevents)|]. reflexivity.
  - etransitivity; [exact (f_equal (fmap ev_is_finished) Hevents)|]. reflexivity.
Defined.

(** ** What the start callbacks take from their payload *)

Module PayloadFacts.

Import StringFacts.
Local Open Scope string_scope.

(** The first comma of [header ++ "," ++ data] when [header] has none. *)
Lemma find_comma (header data : string) (i : Z) :
  ~ occurs "," header ->
  find_from "," (header ++ "," ++ data) i = i + Z.of_nat (String.length header).
Proof.
  revert i. induction header as [|c header IH]; intros i Hno.
  - rewrite append_nil.
    change ("," ++ data) with (String "," data). cbn [find_from].
    change (String "," data) with ("," ++ data).
    rewrite prefix_append. cbn. lia.
  - rewrite append_cons. cbn [find_from].
    destruct (String.prefix "," (String c (header ++ "," ++ data))) eqn:Hp.
    + exfalso. apply Hno. destruct (prefix_inv _ _ Hp) as [b Hb].
      rewrite append_cons, append_nil in Hb. injection Hb as -> _.
      exists "", header. reflexivity.
    + rewrite IH.
      * cbn [String.length]. lia.
      * intros Hocc. apply Hno. apply occurs_later. exact Hocc.
Qed.

Lemma drop_str_append (header s : string) :
  drop_str (String.length header) (header ++ s) = s.
Proof.
  induction header as [|c header IH]; [destruct s; reflexivity|].
  rewrite append_cons. cbn. exact IH.
Qed.

Lemma after_first_comma (header data : string) :
  ~ occurs "," header ->
  drop_str (Z.to_nat (find (header ++ "," ++ data) "," + 1))
    (header ++ "," ++ data) = data.
Proof.
  intros Hno. unfold find. rewrite (find_comma header data 0 Hno).
  replace (Z.to_nat (0 + Z.of_nat (String.length header) + 1))
    with (String.length (header ++ ",")).
  - rewrite <- append_assoc. apply drop_str_append.
  - rewrite length_append. cbn. lia.
Qed.

Lemma without_comma (url : string) :
  ~ occurs "," url ->
  drop_str (Z.to_nat (find url "," + 1)) url = url.
Proof.
  intros Hno. apply find_absent in Hno. rewrite Hno. reflexivity.
Qed.

End PayloadFacts.

(** X19: of an image block whose [image_url] is a dict, the chat start
    keeps the text after the first comma of the URL, which for a data URL
    is the base64 payload without its header (commas of the payload are
    kept); a URL without a comma is kept whole, and a dict without the key
    ["url"] gives the empty string. The text list is not changed by such a
    block. *)
Theorem image_block_payload (d : gmap string string) (text_of_block : option string)
    (text images : list string) :
  let block :=
    BlockDict {| b_type := Some "image_url"; b_text := text_of_block;
                 b_image_url := Some (ImageDict d) |} in
  (forall header data : string,
     ~ occurs "," header ->
     d !! "url" = Some (header ++ "," ++ data)%string ->
     scan_block block (text, images) = Returned (text, images ++ [data])) /\
  (forall url : string,
     ~ occurs "," url ->
     d !! "url" = Some url ->
     scan_block block (text, images) = Returned (text, images ++ [url])) /\
  (d !! "url" = None ->
   scan_block block (text, images) = Returned (text, images ++ [""])).
Proof.
  cbv zeta. unfold scan_block. cbn [b_type b_image_url].
  rewrite bool_decide_eq_false_2 by discriminate.
  rewrite bool_decide_eq_true_2 by reflexivity.
  split; [|split].
  - intros header data Hno ->. cbn [default from_option id]. cbv zeta.
    rewrite (PayloadFacts.after_first_comma header data Hno). reflexivity.
  - intros url Hno ->. cbn [default from_option id]. cbv zeta.
    rewrite (PayloadFacts.without_comma url Hno). reflexivity.
  - intros ->. reflexivity.
Qed.

Lemma image_block_payload_witness :
  scan_block
    (BlockDict {| b_type := Some "image_url"; b_text := None;
                  b_image_url :=
                    Some (ImageDict {[ "url" := "data:image/png;base64,iVBOR,w0KGgo" ]}) |})
    (["describe"], [])
  = Returned (["describe"], ["iVBOR,w0KGgo"]).
Proof.
  apply (proj1 (image_block_payload
                  {[ "url" := "data:image/png;base64,iVBOR,w0KGgo" ]} None
                  ["describe"] []) "data:image/png;base64" "iVBOR,w0KGgo").
  - intros Hocc. apply StringFacts.contains_occurs in Hocc. discriminate.
  - reflexivity.
Defined.

Lemma split_prompts_texts (prompts : list prompt) :
  (split_prompts prompts).1 = omap prompt_text prompts /\
  (split_prompts prompts).2 = omap prompt_image prompts.
Proof.
  induction prompts as [|p rest [IHt IHi]]; [split; reflexivity|].
  cbn [split_prompts omap list_omap].
  destruct (split_prompts rest) as [text images]. cbn [fst snd] in IHt, IHi.
  destruct p as [s|d|]; cbn [prompt_text prompt_image].
  - split; cbn; congruence.
  - destruct (d !! "image"); split; cbn; congruence.
  - split; cbn; congruence.
Qed.

(** X20: with an active unfinished Step, [on_llm_start] appends one
    unfinished Event whose description is the list of the prompts that are
    strings, in order, and whose screenshots are the values under
    ["image"] of the prompts that are dicts with that key, in order; every
    other prompt is dropped. The run is recorded with that Event and with
    the model name. *)
Theorem llm_start_event_content (w : World) (h : Handler) (c : Client)
    (s : Session) (l : loc) (serialized : option (gmap string string))
    (prompts : list prompt) (run_id : string) (kwargs : callback_kwargs) :
  client w = Some c ->
  session c = Some s ->
  active_step s = Some l ->
  st_is_finished (steps w !!! l) = false ->
  let r := on_llm_start serialized prompts run_id kwargs
             {| world := w; self := h |} in
  fst r = Returned tt /\
  events (world (snd r))
  = events w ++
      [{| ev_description := Some (DescList (omap prompt_text prompts));
          ev_result := None; ev_cost_added := None; ev_model := None;
          ev_screenshots := Some (omap prompt_image prompts);
          ev_is_finished := false; ev_is_successful := None |}] /\
  run_to_event (self (snd r)) !! run_id = Some (length (events w)) /\
  run_to_model (self (snd r)) !! run_id
  = Some (_get_model_name serialized kwargs).
Proof.
  intros Hc Hs Ha Hf. cbv zeta.
  rewrite (on_llm_start_creates w h c s l _ _ _ _ Hc Hs Ha Hf).
  destruct (split_prompts_texts prompts) as [-> ->].
  cbn [fst snd world self]. split; [reflexivity|]. split; [reflexivity|].
  split; [apply lookup_insert_eq|].
  unfold started_model. cbn. apply lookup_insert_eq.
Qed.

Lemma llm_start_event_content_witness :
  let r := on_llm_start None
             [PromptStr "What is in the picture?";
              PromptDict {[ "image" := "iVBOR" ]};
              PromptOther;
              PromptDict {[ "audio" := "UklGR" ]};
              PromptStr "Answer briefly."]
             "run-1" Payload.no_kwargs Payload.listening in
  fst r = Returned tt /\
  events (world (snd r))
  = [{| ev_description :=
          Some (DescList ["What is in the picture?"; "Answer briefly."]);
        ev_result := None; ev_cost_added := None; ev_model := None;
        ev_screenshots := Some ["iVBOR"];
        ev_is_finished := false; ev_is_successful := None |}].
Proof.
  destruct (llm_start_event_content (world Payload.listening)
              (self Payload.listening) _ _ 0%nat None
              [PromptStr "What is in the picture?";
               PromptDict {[ "image" := "iVBOR" ]};
               PromptOther;
               PromptDict {[ "audio" := "UklGR" ]};
               PromptStr "Answer briefly."]
              "run-1" Payload.no_kwargs eq_refl eq_refl eq_refl eq_refl)
    as (Hret & Hevents & _).
  cbv zeta. split; [exact Hret | exact Hevents].
Defined.

(** ** When the two remaining callbacks raise *)

Lemma scan_block_cases b acc :
  if unreadable b
  then scan_block b acc = Raised (AttributeError "'str' object has no attribute 'get'")
  else exists acc', scan_block b acc = Returned acc'.
Proof.
  destruct acc as [text images]. destruct b as [d|]; [|eexists; reflexivity].
  unfold unreadable, scan_block.
  destruct (bool_decide (b_type d = Some "image_url")) eqn:Himg.
  - apply bool_decide_eq_true_1 in Himg.
    rewrite bool_decide_eq_false_2 by (rewrite Himg; discriminate).
    destruct (b_image_url d) as [[dict|url]|]; cbn;
      [eexists; reflexivity | reflexivity | reflexivity].
  - cbn. destruct (bool_decide (b_type d = Some "text")); eexists; reflexivity.
Qed.

Lemma scan_blocks_cases bs acc :
  if existsb unreadable bs
  then scan_blocks bs acc = Raised (AttributeError "'str' object has no attribute 'get'")
  else exists acc', scan_blocks bs acc = Returned acc'.
Proof.
  revert acc. induction bs as [|b bs IH]; intros acc; [eexists; reflexivity|].
  cbn [existsb scan_blocks]. pose proof (scan_block_cases b acc) as Hb.
  destruct (unreadable b); cbn [orb].
  - rewrite Hb. reflexivity.
  - destruct Hb as [acc' ->]. apply IH.
Qed.

Lemma scan_messages_cases msgs acc :
  if existsb unreadable_message msgs
  then scan_messages msgs acc
       = Raised (AttributeError "'str' object has no attribute 'get'")
  else exists acc', scan_messages msgs acc = Returned acc'.
Proof.
  revert acc. induction msgs as [|m msgs IH]; intros acc; [eexists; reflexivity|].
  cbn [existsb scan_messages]. unfold unreadable_message at 1.
  destruct (msg_content m) as [str|bs]; cbn [orb]; [apply IH|].
  pose proof (scan_blocks_cases bs acc) as Hb.
  destruct (existsb unreadable bs); cbn [orb].
  - rewrite Hb. reflexivity.
  - destruct Hb as [acc' ->]. apply IH.
Qed.

Lemma on_chat_model_start_returns w h c serialized messages run_id kwargs acc :
  client w = Some c ->
  scanned messages = Returned acc ->
  fst (on_chat_model_start serialized messages run_id kwargs
         {| world := w; self := h |}) = Returned tt.
Proof.
  intros Hc Hscan. unfold on_chat_model_start.
  next. next. rewrite chat_scan_runs, Hscan. next.
  destruct acc as [text images_b64]. cbn [world self].
  apply (guarded_returns _ _ c); [exact Hc|]. intros; reflexivity.
Qed.

(** X21: with an initialised client, [on_chat_model_start] raises exactly
    when a message of the first batch holds an image block whose
    [image_url] is not a dict (a plain URL string, or no such key): the
    exception is the AttributeError of [.get] on a string, it leaves the
    callback, no Event is created, and the model recorded for the run stays
    in [run_to_model]. In every other case the callback returns. *)
Theorem chat_start_raises_iff (w : World) (h : Handler) (c : Client)
    (serialized : option (gmap string string))
    (messages : list (list BaseMessage)) (run_id : string)
    (kwargs : callback_kwargs) :
  client w = Some c ->
  let r := on_chat_model_start serialized messages run_id kwargs
             {| world := w; self := h |} in
  if unreadable_batch messages
  then
    fst r = Raised (AttributeError "'str' object has no attribute 'get'") /\
    events (world (snd r)) = events w /\
    requests (world (snd r)) = requests w /\
    run_to_event (self (snd r)) = run_to_event h /\
    run_to_model (self (snd r)) !! run_id
    = Some (_get_model_name serialized kwargs)
  else fst r = Returned tt.
Proof.
  intros Hc. cbv zeta. unfold unreadable_batch.
  assert (Hcases :
    if match messages with
       | first :: _ => existsb unreadable_message first
       | [] => false
       end
    then scanned messages
         = Raised (AttributeError "'str' object has no attribute 'get'")
    else exists acc, scanned messages = Returned acc).
  { unfold scanned. destruct messages as [|first others];
      [eexists; reflexivity | apply scan_messages_cases]. }
  destruct (match messages with
            | first :: _ => existsb unreadable_message first
            | [] => false
            end).
  - rewrite (on_chat_model_start_raises w h _ _ _ _ _ Hcases).
    cbn [fst snd world self]. repeat split.
    unfold started_model. cbn. apply lookup_insert_eq.
  - destruct Hcases as [acc Hscan].
    exact (on_chat_model_start_returns w h c _ _ _ _ acc Hc Hscan).
Qed.

Lemma chat_start_raises_iff_witness :
  fst (on_chat_model_start None Scene.vision_chat "run-1" Payload.no_kwargs
         Payload.listening) = Returned tt /\
  fst (on_chat_model_start None [[Payload.image_by_url]] "run-1"
         Payload.no_kwargs Payload.listening)
  = Raised (AttributeError "'str' object has no attribute 'get'").
Proof.
  split.
  - exact (chat_start_raises_iff (world Payload.listening)
             (self Payload.listening) _ None Scene.vision_chat "run-1"
             Payload.no_kwargs eq_refl).
  - exact (proj1 (chat_start_raises_iff (world Payload.listening)
                    (self Payload.listening) _ None [[Payload.image_by_url]]
                    "run-1" Payload.no_kwargs eq_refl)).
Defined.

(** X22: with an initialised client, [on_llm_end] raises exactly when one
    of the statements before its Session check raises: when the first
    generation of the response is a plain [Generation], which has no
    [message] (AttributeError), or when it is a chat generation and
    [calculate_cost], called with the model recorded for the run and the
    usage of the message, raises (that exception). The exception leaves
    the callback before the Session check, so nothing but the first line
    is printed, no Event is updated and the run stays in both maps. When
    the response has no generation, or [calculate_cost] returns, the
    callback returns. *)
Theorem llm_end_raises_iff (calculate_cost : string -> option usage -> outcome Q)
    (w : World) (h : Handler) (c : Client) (response : LLMResult)
    (run_id : string) :
  client w = Some c ->
  let r := on_llm_end calculate_cost response run_id {| world := w; self := h |} in
  let model := default "unknown" (run_to_model h !! run_id) in
  match first_generation response with
  | None => fst r = Returned tt
  | Some (Generation _) =>
      r = (Raised (AttributeError "'Generation' object has no attribute 'message'"),
           {| world := end_announced w; self := h |})
  | Some (ChatGeneration message) =>
      match calculate_cost model (usage_metadata message) with
      | Returned _ => fst r = Returned tt
      | Raised e => r = (Raised e, {| world := end_announced w; self := h |})
      end
  end.
Proof.
  intros Hc. cbv zeta. unfold on_llm_end, first_generation.
  next. next. cbn [world self].
  assert (Hc' : client (end_announced w) = Some c) by exact Hc.
  assert (Hreturns : forall bound : option Q * option AIMessage,
    fst ((let '(cost, message) := bound in
          active <- session_and_active_step ;;
          match active with
          | None => lift (print "[Lucidic] Cannot end event - no active session or step")
          | Some _ =>
              try_except
                (h0 <- gets self ;;
                 match run_to_event h0 !! run_id with
                 | Some event =>
                     finished <- gets (fun s => ev_is_finished (events (world s) !!! event)) ;;
                     (if negb finished
                      then
                        message <- read_local "message" message ;;
                        let result := Some (pretty_repr message) in
                        lift (Event.update_event event
                                {| kw_description := None; kw_result := result;
                                   kw_cost_added := cost;
                                   kw_model := Some (default "unknown" (run_to_model h !! run_id));
                                   kw_screenshots := None; kw_is_finished := Some true;
                                   kw_is_successful := Some true |})
                      else lift (print "[Lucidic] Event already finished")) ;;;
                     modify_self (fun h => set_run_to_event (delete run_id (run_to_event h)) h)
                 | None => lift (print "[Lucidic] No event found")
                 end)
                (fun e =>
                   lift (print ("[Lucidic] Error in event ending: " ++ exn_str e)) ;;;
                   lift (print_traceback e)) ;;;
              modify_self (fun h => set_run_to_model (delete run_id (run_to_model h)) h)
          end) {| world := end_announced w; self := h |}) = Returned tt).
  { intros [cost message].
    next_by ltac:(apply (guard_runs _ _ c); exact Hc').
    destruct (session c ≫= active_step); [|reflexivity].
    match goal with
    | |- context [bind (try_except ?b ?hd) _ ?s] =>
        destruct (try_except_total b hd s) as [s' Hs'];
        [intros; reflexivity|];
        rewrite (bind_returned _ _ _ _ _ Hs'); reflexivity
    end. }
  destruct (generations response) as [|[|[text|message] gs] others].
  - next. exact (Hreturns (None, None)).
  - next. exact (Hreturns (None, None)).
  - reflexivity.
  - destruct (calculate_cost (default "unknown" (run_to_model h !! run_id))
                (usage_metadata message)) as [cost|e]; [|reflexivity].
    next. exact (Hreturns (Some cost, Some message)).
Qed.

Lemma llm_end_raises_iff_witness :
  let unpriced (model : string) (u : option usage) : outcome Q :=
    Raised (ValueError "no price for this model") in
  on_llm_end Payload.per_token {| generations := [[Generation "Paris"]] |}
    "run-1" Payload.listening
  = (Raised (AttributeError "'Generation' object has no attribute 'message'"),
     {| world := end_announced (world Payload.listening);
        self := self Payload.listening |}) /\
  on_llm_end unpriced Payload.chat_result "run-1" Payload.listening
  = (Raised (ValueError "no price for this model"),
     {| world := end_announced (world Payload.listening);
        self := self Payload.listening |}) /\
  fst (on_llm_end Payload.per_token Payload.chat_result "run-1" Payload.listening)
  = Returned tt.
Proof.
  split; [|split].
  - exact (llm_end_raises_iff Payload.per_token (world Payload.listening)
             (self Payload.listening) _ {| generations := [[Generation "Paris"]] |}
             "run-1" eq_refl).
  - exact (llm_end_raises_iff
             (fun _ _ => Raised (ValueError "no price for this model"))
             (world Payload.listening)
             (self Payload.listening) _ Payload.chat_result "run-1" eq_refl).
  - exact (llm_end_raises_iff Payload.per_token (world Payload.listening)
             (self Payload.listening) _ Payload.chat_result "run-1" eq_refl).
Defined.

(** ** Attaching the handler: what is reached, what is kept *)

(** X23: after [attach_to_llms], the host, and every object held under an
    attribute whose name does not start with an underscore, has a
    callbacks list with a handler in it, unless it has no attribute
    [callbacks] at all; this is so whatever the other attributes of the
    host do when they are read: an exception of [getattr] is printed as a
    warning and the loop goes on. (Here the attribute [callbacks] of an
    object is absent, [None] or a list.) *)
Theorem attach_reaches_host_and_attributes (self : nat) (host : loc) (h : Heap) :
  let r := Attach.attach_to_llms self host h in
  attached (snd r) host /\
  (forall name a,
     (name, Object a) ∈ dir (objects h !!! host) ->
     Attach.startswith_underscore name = false ->
     attached (snd r) a).
Proof.
  cbv zeta. destruct (attach_establishes self host h) as (Hret & Hhost & Hattrs).
  split; [exact Hhost|].
  intros name a Hin Hu. apply Hattrs. exists name. split; [|exact Hu].
  destruct (along_attach_to_llms settling settling_refl settling_trans
              settling_say settling_attach_one self host h) as [_ Hdir].
  rewrite Hdir. exact Hin.
Qed.

Lemma attach_reaches_host_and_attributes_witness :
  let r := Attach.attach_to_llms 7 0%nat Hosts.agent in
  attached (snd r) 0%nat /\
  attached (snd r) 1%nat /\
  last (printed (snd r))
  = Some (Line "[Lucidic] Successfully attached to ChatOpenAI in llm").
Proof.
  destruct (attach_reaches_host_and_attributes 7 0%nat Hosts.agent)
    as (Hhost & Hattrs).
  cbv zeta. split; [exact Hhost|]. split; [|reflexivity].
  apply (Hattrs "llm" 1%nat); [|reflexivity].
  cbn. do 2 (apply elem_of_cons; right). apply elem_of_cons. now left.
Defined.

Lemma held_from_lists (h h' : Heap) (o : loc) :
  (forall l : loc,
     exists added,
       cb_lists h' !!! l = cb_lists h !!! l ++ added /\
       forallb is_lucidic added = true) ->
  callbacks (objects h' !!! o) = callbacks (objects h !!! o) ->
  exists added,
    held h' o = held h o ++ added /\ forallb is_lucidic added = true.
Proof.
  intros Hl Hsame. unfold held. rewrite Hsame.
  destruct (callbacks (objects h !!! o)) as [| |l]; [exists []; auto ..|].
  apply Hl.
Qed.

Lemma grown_refl h : grown h h.
Proof.
  split; [|split].
  - intros l. exists []. rewrite app_nil_r. split; reflexivity.
  - intros o. exists []. rewrite app_nil_r. split; reflexivity.
  - intros o. repeat split. tauto.
Qed.

Lemma grown_trans h1 h2 h3 : grown h1 h2 -> grown h2 h3 -> grown h1 h3.
Proof.
  intros (Hl & Hh & Ho) (Hl' & Hh' & Ho'). split; [|split].
  - intros l. destruct (Hl l) as (a & E & Ha). destruct (Hl' l) as (a' & E' & Ha').
    exists (a ++ a'). rewrite E', E, app_assoc. split; [reflexivity|].
    rewrite forallb_app, Ha, Ha'. reflexivity.
  - intros o. destruct (Hh o) as (a & E & Ha). destruct (Hh' o) as (a' & E' & Ha').
    exists (a ++ a'). rewrite E', E, app_assoc. split; [reflexivity|].
    rewrite forallb_app, Ha, Ha'. reflexivity.
  - intros o. destruct (Ho o) as (Hc & Hd & Hn). destruct (Ho' o) as (Hc' & Hd' & Hn').
    split; [congruence|]. split; [congruence|]. auto.
Qed.

Lemma grown_say s : along grown (Attach.say s).
Proof.
  intros h. split; [|split].
  - intros l. exists []. cbn. rewrite app_nil_r. split; reflexivity.
  - intros o. exists []. rewrite app_nil_r. split; reflexivity.
  - intros o. cbn. repeat split. tauto.
Qed.

Lemma grown_objects (objs : list Obj) (o : loc) (a : callbacks_attr) (o' : loc) :
  callbacks (objs !!! o) <> NoAttribute ->
  class_name (<[o := with_callbacks a (objs !!! o)]> objs !!! o')
  = class_name (objs !!! o') /\
  dir (<[o := with_callbacks a (objs !!! o)]> objs !!! o') = dir (objs !!! o') /\
  (callbacks (objs !!! o') = NoAttribute ->
   callbacks (<[o := with_callbacks a (objs !!! o)]> objs !!! o') = NoAttribute).
Proof.
  intros Hin. rewrite !lookup_total_insert.
  destruct (decide (o = o' /\ (o < length objs)%nat)) as [[-> _]|_].
  - repeat split. intros Hno. contradiction.
  - repeat split. tauto.
Qed.

Lemma grown_attach_one self o yes no :
  along grown (Attach.attach_one self o yes no).
Proof.
  intros h.
  destruct (attach_one_cases self o yes no h)
    as (_ & [(Hobj & Hl & _) | [(Hwhy & Hobj & Hl) | (l & Hcb & Hne & _ & Hobj & Hl)]]).
  - assert (Hlists : forall l : loc, exists added,
              cb_lists (snd (Attach.attach_one self o yes no h)) !!! l
              = cb_lists h !!! l ++ added /\ forallb is_lucidic added = true).
    { intros l. rewrite Hl. exists []. rewrite app_nil_r. split; reflexivity. }
    split; [exact Hlists|]. split.
    + intros o'. apply held_from_lists; [exact Hlists|]. rewrite Hobj. reflexivity.
    + intros o'. rewrite Hobj. repeat split. tauto.
  - assert (Hin : callbacks (objects h !!! o) <> NoAttribute)
      by (destruct Hwhy as [-> | (l & -> & _)]; discriminate).
    assert (Hlists : forall l : loc, exists added,
              cb_lists (snd (Attach.attach_one self o yes no h)) !!! l
              = cb_lists h !!! l ++ added /\ forallb is_lucidic added = true).
    { intros l. rewrite Hl.
      destruct (decide (l < length (cb_lists h))%nat) as [Hlt|Hge].
      * exists []. rewrite lookup_total_app_l by exact Hlt.
        rewrite app_nil_r. split; reflexivity.
      * rewrite (list_lookup_total_alt (cb_lists h)).
        rewrite (lookup_ge_None_2 (cb_lists h) l) by lia. cbn [default from_option id].
        destruct (decide (l = length (cb_lists h))) as [->|Hne].
        -- exists [Lucidic self].
           rewrite list_lookup_total_middle by reflexivity. split; reflexivity.
        -- exists []. rewrite list_lookup_total_alt, lookup_ge_None_2
             by (rewrite length_app; cbn; lia).
           split; reflexivity. }
    split; [exact Hlists|]. split.
    + intros o'. destruct (decide (o = o')) as [<-|Hother].
      * exists [Lucidic self]. split; [|reflexivity].
        unfold held. rewrite Hobj, Hl, callbacks_after_insert by exact Hin.
        destruct (decide (o = o)) as [_|]; [|contradiction].
        rewrite list_lookup_total_middle by reflexivity.
        destruct Hwhy as [-> | (l & -> & ->)]; reflexivity.
      * apply held_from_lists; [exact Hlists|].
        rewrite Hobj, callbacks_after_insert by exact Hin.
        destruct (decide (o = o')); [contradiction | reflexivity].
    + intros o'. rewrite Hobj. apply grown_objects. exact Hin.
  - assert (Hin : callbacks (objects h !!! o) <> NoAttribute)
      by (rewrite Hcb; discriminate).
    assert (Hlists : forall l' : loc, exists added,
              cb_lists (snd (Attach.attach_one self o yes no h)) !!! l'
              = cb_lists h !!! l' ++ added /\ forallb is_lucidic added = true).
    { intros l'. rewrite Hl, lookup_total_insert.
      destruct (decide (l = l' /\ (l < length (cb_lists h))%nat)) as [[-> _]|_].
      * exists [Lucidic self]. split; reflexivity.
      * exists []. rewrite app_nil_r. split; reflexivity. }
    split; [exact Hlists|]. split.
    + intros o'. apply held_from_lists; [exact Hlists|].
      rewrite Hobj, callbacks_after_insert by exact Hin.
      destruct (decide (o = o')) as [<-|]; [symmetry; exact Hcb | reflexivity].
    + intros o'. rewrite Hobj. apply grown_objects. exact Hin.
Qed.

(** X24: [attach_to_llms] only appends, and only handler instances. The
    callbacks that an object holds through its attribute [callbacks] (of
    the host, of its attributes and of any other object) still start with
    the callbacks it held before, in the same order, and so does every
    list object, so that no callback of another kind is removed, replaced
    or moved; the objects keep their class and their attributes, and an
    object that had no attribute [callbacks] still has none. *)
Theorem attach_only_appends (self : nat) (host : loc) (h : Heap) :
  grown h (snd (Attach.attach_to_llms self host h)).
Proof.
  exact (along_attach_to_llms grown grown_refl grown_trans grown_say
           grown_attach_one self host h).
Qed.

Lemma attach_one_other self o yes no h o' :
  o' <> o ->
  callbacks (objects (snd (Attach.attach_one self o yes no h)) !!! o')
  = callbacks (objects h !!! o').
Proof.
  intros Hne.
  destruct (attach_one_cases self o yes no h)
    as (_ & [(Hobj & _) | [(_ & Hobj & _) | (l & _ & _ & _ & Hobj & _)]]);
    rewrite Hobj; [reflexivity | |];
    rewrite list_lookup_total_insert_ne by (intros E; apply Hne; now symmetry);
    reflexivity.
Qed.

Lemma attach_attr_other self entry h o' :
  ~ visited [entry] o' ->
  callbacks (objects (snd (Attach.attach_attr self entry h)) !!! o')
  = callbacks (objects h !!! o').
Proof.
  destruct entry as [name v]. intros Hnot.
  unfold Attach.attach_attr, try_except.
  destruct (Attach.startswith_underscore name) eqn:Hu; [reflexivity|].
  destruct v as [e|a|]; [reflexivity | | reflexivity].
  unfold bind at 1, gets at 1.
  rewrite (returns_eq _ _ _ (attach_one_returns _ _ _ _ _)). cbn [snd].
  apply attach_one_other. intros ->. apply Hnot.
  exists name. split; [apply list_elem_of_singleton; reflexivity | exact Hu].
Qed.

Lemma for_each_attrs_other self names h o' :
  ~ visited names o' ->
  callbacks (objects (snd (for_each names (Attach.attach_attr self) h)) !!! o')
  = callbacks (objects h !!! o').
Proof.
  revert h. induction names as [|entry names IH]; intros h Hnot; [reflexivity|].
  rewrite for_each_attrs_step. rewrite IH.
  - apply attach_attr_other. intros (name & Hin & Hu). apply Hnot.
    apply list_elem_of_singleton in Hin as <-.
    exists name. split; [apply elem_of_cons; now left | exact Hu].
  - intros (name & Hin & Hu). apply Hnot.
    exists name. split; [apply elem_of_cons; now right | exact Hu].
Qed.

(** X25: [attach_to_llms] sets the attribute [callbacks] of the host and
    of the objects it holds under public names, and of nothing else: an
    object that the host holds only under names that start with an
    underscore, or only behind an attribute that raises, or not at all,
    keeps the value of its attribute, [None] included. *)
Theorem attach_skips_private (self : nat) (host o : loc) (h : Heap) :
  o <> host ->
  ~ visited (dir (objects h !!! host)) o ->
  callbacks (objects (snd (Attach.attach_to_llms self host h)) !!! o)
  = callbacks (objects h !!! o).
Proof.
  intros Hne Hnot. rewrite attach_to_llms_runs.
  set (hs := snd (Attach.say _ h)).
  set (ha := snd (Attach.attach_one self host _ _ hs)).
  assert (Hdir : dir (objects ha !!! host) = dir (objects h !!! host)).
  { exact (proj2 (proj2 (attach_one_settles self host _ _ hs)) host). }
  rewrite for_each_attrs_other by (rewrite Hdir; exact Hnot).
  unfold ha. rewrite attach_one_other by exact Hne. reflexivity.
Qed.

Lemma attach_skips_private_witness :
  let h' := snd (Attach.attach_to_llms 7 0%nat Scene.two_llms) in
  callbacks (objects h' !!! 1%nat) = IsNone /\
  callbacks (objects h' !!! 2%nat) = ListAt 0 /\
  cb_lists h' = [[Foreign 4; Lucidic 7]].
Proof.
  cbv zeta. split; [|split; reflexivity].
  apply (attach_skips_private 7 0%nat 1%nat Scene.two_llms); [discriminate|].
  intros (name & Hin & Hu). cbn in Hin.
  apply elem_of_cons in Hin as [[= -> ]|Hin]; [discriminate|].
  apply list_elem_of_singleton in Hin. discriminate.
Defined.
